(** * Chess platform backend: game and puzzle services

    A shallow embedding of the service layer of the backend
    ([app/models], [app/services/chess_engine.py],
    [app/services/game_service.py], [app/services/puzzle_service.py] and the
    game creation endpoint of [app/api/games.py]), followed by the
    properties of the orchestration code.

    The chess rules themselves come from the python-chess package and the
    search engine is an external process; neither is part of the repository.
    Both are taken as parameters: the rules as the class [ChessLib], the
    engine as a value of [ChessEngine.t].  The persisted tables are lists of
    rows; a commit is the replacement of the row the code fetched. *)

From Stdlib Require Import ZArith List String Bool Lia Floats.
From stdpp Require Import gmap strings pretty.
Import ListNotations.
Open Scope Z_scope.

(** ** Results of calls

    A service call either returns a value or lets an exception escape. *)

Inductive outcome (A : Type) : Type :=
| Returned (a : A)
| Raised.
Arguments Returned {A} a.
Arguments Raised {A}.

(** Python's [l[:stop]] for an integer [stop]: a negative bound counts from
    the end, and bounds past either end are clamped. *)
Definition slice_to {A : Type} (l : list A) (stop : Z) : list A :=
  let len := Z.of_nat (length l) in
  let bound := if stop <? 0 then Z.max 0 (stop + len) else Z.min stop len in
  firstn (Z.to_nat bound) l.

(** Truth value of an [Optional[int]]: [None] and [0] are false. *)
Definition int_truthy (o : option Z) : bool :=
  match o with
  | Some n => negb (n =? 0)
  | None => false
  end.

(** Replace the first row that satisfies [p]: the row a query's [first()]
    returned is the object the code mutates and commits. *)
Fixpoint update_first {A : Type} (p : A -> bool) (new : A) (rows : list A) : list A :=
  match rows with
  | [] => []
  | r :: rest => if p r then new :: rest else r :: update_first p new rest
  end.

(** Next value of an auto-incremented primary key. *)
Definition next_id (ids : list Z) : Z := 1 + fold_right Z.max 0 ids.

(** ** app/utils/recovery.py and app/utils/retry.py

    The wrapped function is a step on a world [W]: it returns a value or
    raises, and leaves a world behind.  Sleeping, the recovery action and the
    alert are steps on the world as well, given by the caller of the
    model. *)

Inductive raised (E : Type) : Type :=
| Original (e : E)
| RuntimeError (message : string).
Arguments Original {E} e.
Arguments RuntimeError {E} message.

Module Recovery.

Record RecoveryStrategy : Type := mk {
  enabled : bool;
  max_retries : Z;
  retry_delay : Z
}.

Section Recover.
Context {W A E : Type}.
Variable sleep : Z -> W -> W.
Variable _attempt_recovery : W -> W.
Variable _send_alert : E -> W -> W.
Variable strategy : RecoveryStrategy.
Variable func : W -> (A + E) * W.

(** The loop [for attempt in range(1, max_retries + 1)], with the two
    statements that follow it. *)
Fixpoint attempts (todo : nat) (attempt : Z) (last_exception : option E) (w : W)
    : (A + raised E) * W :=
  match todo with
  | O =>
      match last_exception with
      | Some e => (inr (Original e), w)
      | None => (inr (RuntimeError "Recovery strategy failed unexpectedly"), w)
      end
  | S todo' =>
      match func w with
      | (inl a, w1) => (inl a, w1)
      | (inr e, w1) =>
          if attempt <? max_retries strategy then
            attempts todo' (attempt + 1) (Some e)
              (_attempt_recovery (sleep (retry_delay strategy) w1))
          else attempts todo' (attempt + 1) (Some e) (_send_alert e w1)
      end
  end.

Definition recover (w : W) : (A + raised E) * W :=
  if negb (enabled strategy) then
    match func w with
    | (inl a, w1) => (inl a, w1)
    | (inr e, w1) => (inr (Original e), w1)
    end
  else attempts (Z.to_nat (max_retries strategy)) 1 None w.
End Recover.
End Recovery.

Module Retry.
Section Wrapper.
Context {W A E : Type}.
(** [sleep attempt] is the pause after the given attempt; its length is
    float arithmetic on the configuration (exponential backoff, capped, with
    random jitter).  [exceptions e] tells whether [e] is an instance of one
    of the classes to retry on. *)
Variable sleep : Z -> W -> W.
Variable max_attempts : Z.
Variable exceptions : E -> bool.
Variable func : W -> (A + E) * W.

Fixpoint attempts (todo : nat) (attempt : Z) (last_exception : option E) (w : W)
    : (A + raised E) * W :=
  match todo with
  | O =>
      match last_exception with
      | Some e => (inr (Original e), w)
      | None => (inr (RuntimeError "Retry mechanism failed unexpectedly"), w)
      end
  | S todo' =>
      match func w with
      | (inl a, w1) => (inl a, w1)
      | (inr e, w1) =>
          if exceptions e then
            if attempt =? max_attempts then (inr (Original e), w1)
            else attempts todo' (attempt + 1) (Some e) (sleep attempt w1)
          else (inr (Original e), w1)
      end
  end.

Definition wrapper (w : W) : (A + raised E) * W :=
  attempts (Z.to_nat max_attempts) 1 None w.
End Wrapper.

(** [max_attempts or config_obj.retry.max_attempts]. *)
Definition effective_max_attempts (max_attempts : option Z) (configured : Z) : Z :=
  match max_attempts with
  | Some n => if int_truthy max_attempts then n else configured
  | None => configured
  end.
End Retry.

(** ** app/models *)

Inductive GameStatus : Type :=
| IN_PROGRESS
| WHITE_WON
| BLACK_WON
| DRAW
| ABANDONED.

Definition GameStatus_eqb (a b : GameStatus) : bool :=
  match a, b with
  | IN_PROGRESS, IN_PROGRESS | WHITE_WON, WHITE_WON | BLACK_WON, BLACK_WON
  | DRAW, DRAW | ABANDONED, ABANDONED => true
  | _, _ => false
  end.

(** The [value] of a status. *)
Definition GameStatus_value (s : GameStatus) : string :=
  match s with
  | IN_PROGRESS => "in_progress"
  | WHITE_WON => "white_won"
  | BLACK_WON => "black_won"
  | DRAW => "draw"
  | ABANDONED => "abandoned"
  end.

Module Game.
Record t : Type := mk {
    id : Z;
    white_player_id : option Z;
    black_player_id : option Z;
    pgn : option string;
    status : GameStatus;
    started_at : Z;
    ended_at : option Z;
    created_at : Z
  }.

  (** The three attributes written when a game ends or is reopened. *)
Definition set_result (g : t) (s : GameStatus) (e : option Z) (p : option string) : t :=
    {| id := id g; white_player_id := white_player_id g;
       black_player_id := black_player_id g; pgn := p; status := s;
       started_at := started_at g; ended_at := e; created_at := created_at g |}.
End Game.

Module GameSession.
  (** [current_fen] is the position encoding; [move_history] is the JSON
      array of the column, held decoded ([json.dumps] and [json.loads] are
      inverse on lists of strings; a NULL column reads as the empty list). *)
Record t : Type := mk {
    id : Z;
    game_id : Z;
    current_fen : string;
    move_history : list string;
    last_move_at : Z;
    created_at : Z
  }.

  (** The three attributes written after a ply or an undo. *)
Definition set_position (s : t) (f : string) (h : list string) (now : Z) : t :=
    {| id := id s; game_id := game_id s; current_fen := f; move_history := h;
       last_move_at := now; created_at := created_at s |}.
End GameSession.

Inductive PuzzleDifficulty : Type :=
| EASY
| MEDIUM
| HARD
| EXPERT.

(** The [value] of a member of the enumeration. *)
Definition PuzzleDifficulty_value (d : PuzzleDifficulty) : string :=
  match d with
  | EASY => "easy"
  | MEDIUM => "medium"
  | HARD => "hard"
  | EXPERT => "expert"
  end.

Module Puzzle.
  (** [moves] is the JSON text of the column as [json.loads] decodes it:
      [None] when decoding raises, the decoded array of strings otherwise. *)
Record t : Type := mk {
    id : Z;
    fen : string;
    moves : option (list string);
    difficulty : PuzzleDifficulty;
    theme : option string;
    description : option string
  }.
End Puzzle.

Module UserPuzzle.
Record t : Type := mk {
    user_id : Z;
    puzzle_id : Z;
    solved : Z;
    failed : Z;
    best_time_seconds : option float;
    last_attempted_at : option Z
  }.

Definition record_attempt (u : t) (success : bool) (now : Z) : t :=
    {| user_id := user_id u; puzzle_id := puzzle_id u;
       solved := if success then solved u + 1 else solved u;
       failed := if success then failed u else failed u + 1;
       best_time_seconds := best_time_seconds u;
       last_attempted_at := Some now |}.
End UserPuzzle.

(** The database: the four tables the services read and write.  [sessions]
    is kept newest first, so that the first match is the row
    [ORDER BY created_at DESC] puts first; the other tables are in insertion
    order. *)
Record store : Type := mk_store {
  games : list Game.t;
  sessions : list GameSession.t;
  puzzles : list Puzzle.t;
  user_puzzles : list UserPuzzle.t
}.

Definition set_games (db : store) (gs : list Game.t) : store :=
  {| games := gs; sessions := sessions db; puzzles := puzzles db;
     user_puzzles := user_puzzles db |}.

Definition set_sessions (db : store) (ss : list GameSession.t) : store :=
  {| games := games db; sessions := ss; puzzles := puzzles db;
     user_puzzles := user_puzzles db |}.

Definition set_user_puzzles (db : store) (us : list UserPuzzle.t) : store :=
  {| games := games db; sessions := sessions db; puzzles := puzzles db;
     user_puzzles := us |}.

(** ** The rules library (python-chess), as an interface

    [board_of_fen] is [chess.Board(fen)] and [from_uci] is
    [chess.Move.from_uci]; both raise [ValueError] on bad text ([None]).
    [legal board move] is [move in board.legal_moves].  [push] applies a move
    without checking that it is legal; it fails an assertion when the move
    cannot be carried out at all ([None]).  [turn] is [true] for white.
    [pgn_text] is the text of a [chess.pgn.Game] with the given main line. *)
Class ChessLib : Type := {
  Board : Type;
  Move : Type;
  starting_board : Board;
  board_of_fen : string -> option Board;
  fen : Board -> string;
  from_uci : string -> option Move;
  uci : Move -> string;
  legal : Board -> Move -> bool;
  push : Board -> Move -> option Board;
  turn : Board -> bool;
  is_checkmate : Board -> bool;
  is_stalemate : Board -> bool;
  is_insufficient_material : Board -> bool;
  is_repetition : Board -> Z -> bool;
  halfmove_clock : Board -> Z;
  pgn_text : list Move -> string
}.

(** ** app/services/chess_engine.py *)

Module ChessEngine.
Section WithLib.
Context {lib : ChessLib}.

(** What [get_best_move] does when called: it returns the engine's move,
    returns [None], or raises. *)
Inductive reply : Type :=
| BestMove (m : option Move)
| EngineFailure.

Record t : Type := mk { get_best_move : Board -> reply }.

Definition get_game_result (board : Board) : option string :=
  if is_checkmate board then
    Some (if turn board then "black_won" else "white_won")
  else if is_stalemate board then Some "draw"
  else if is_insufficient_material board then Some "draw"
  else if is_repetition board 3 then Some "draw"
  else if 150 <=? halfmove_clock board then Some "draw"
  else None.

Definition is_valid_move (board : Board) (move : string) : bool :=
  match from_uci move with
  | Some chess_move => legal board chess_move
  | None => false
  end.

(** The engine wrapper's own [make_move]: the pushed board, or [None] when
    the move is not valid or the push raises. *)
Definition make_move (board : Board) (move : string) : option Board :=
  if negb (is_valid_move board move) then None
  else
    match from_uci move with
    | Some chess_move => push board chess_move
    | None => None
    end.
End WithLib.
End ChessEngine.

(** ** app/services/game_service.py *)

Module GameService.
Section WithLib.
Context {lib : ChessLib}.

Definition get_game (db : store) (game_id : Z) : option Game.t :=
  find (fun g => Game.id g =? game_id) (games db).

Definition get_game_session (db : store) (game_id : Z) : option GameSession.t :=
  find (fun s => GameSession.game_id s =? game_id) (sessions db).

(** [db.commit()] after attributes of a fetched row were assigned. *)
Definition commit_game (db : store) (g : Game.t) : store :=
  set_games db (update_first (fun r => Game.id r =? Game.id g) g (games db)).

Definition commit_session (db : store) (s : GameSession.t) : store :=
  set_sessions db
    (update_first (fun r => GameSession.game_id r =? GameSession.game_id s) s (sessions db)).

(** The [is_bot_game] argument is accepted and not used. *)
Definition create_game (now : Z) (db : store)
    (white_player_id black_player_id : option Z) (is_bot_game : bool)
    : Game.t * store :=
  let game :=
    {| Game.id := next_id (map Game.id (games db));
       Game.white_player_id := white_player_id;
       Game.black_player_id := black_player_id;
       Game.pgn := None;
       Game.status := IN_PROGRESS;
       Game.started_at := now;
       Game.ended_at := None;
       Game.created_at := now |} in
  let db1 := set_games db (games db ++ [game]) in
  let board := starting_board in
  let session :=
    {| GameSession.id := next_id (map GameSession.id (sessions db));
       GameSession.game_id := Game.id game;
       GameSession.current_fen := fen board;
       GameSession.move_history := [];
       GameSession.last_move_at := now;
       GameSession.created_at := now |} in
  (game, set_sessions db1 (session :: sessions db1)).

(** The replay loop of [_generate_pgn]: a logged move that is not legal in
    the rebuilt position is skipped; text that is not a move raises. *)
Fixpoint pgn_mainline (temp_board : Board) (move_history : list string)
    : option (list Move) :=
  match move_history with
  | [] => Some []
  | move_uci :: rest =>
      match from_uci move_uci with
      | None => None
      | Some move =>
          if legal temp_board move then
            match push temp_board move with
            | None => None
            | Some b =>
                match pgn_mainline b rest with
                | Some ms => Some (move :: ms)
                | None => None
                end
            end
          else pgn_mainline temp_board rest
      end
  end.

(** [None] when an exception escapes. *)
Definition _generate_pgn (board : Board) (move_history : list string) : option string :=
  match pgn_mainline starting_board move_history with
  | Some ms => Some (pgn_text ms)
  | None => None
  end.

Definition status_of_result (game_result : string) : GameStatus :=
  if String.eqb game_result "white_won" then WHITE_WON
  else if String.eqb game_result "black_won" then BLACK_WON
  else DRAW.

Definition is_none {A : Type} (o : option A) : bool :=
  match o with
  | None => true
  | Some _ => false
  end.

Definition move_result : Type := bool * string * option string * option string.

(** The part of [make_move] that runs when the game has not ended and the
    bot is to move.  Everything here is inside [try ... except Exception],
    so a failure falls through to the final [return] with the values
    assigned so far.  The third component lists the positions the engine
    was asked about. *)
Definition bot_reply (engine : ChessEngine.t) (now : Z) (db : store)
    (game : Game.t) (session : GameSession.t) (board : Board)
    (new_fen : string) (move_history : list string)
    : outcome move_result * store * list Board :=
  match ChessEngine.get_best_move engine board with
  | ChessEngine.EngineFailure
  | ChessEngine.BestMove None =>
      (Returned (true, "Move successful", Some new_fen, None), db, [board])
  | ChessEngine.BestMove (Some bot_move_obj) =>
      let bot_move := uci bot_move_obj in
      match push board bot_move_obj with
      | None =>
          (Returned (true, "Move successful", Some new_fen, Some bot_move), db, [board])
      | Some board2 =>
          let new_fen2 := fen board2 in
          let move_history2 := move_history ++ [bot_move] in
          let db2 :=
            commit_session db (GameSession.set_position session new_fen2 move_history2 now) in
          match ChessEngine.get_game_result board2 with
          | Some game_result =>
              match _generate_pgn board2 move_history2 with
              | None =>
                  (Returned (true, "Move successful", Some new_fen2, Some bot_move),
                   db2, [board])
              | Some pgn =>
                  (Returned (true, "Game ended: " +:+ game_result, Some new_fen2,
                             Some bot_move),
                   commit_game db2
                     (Game.set_result game (status_of_result game_result) (Some now)
                        (Some pgn)),
                   [board])
              end
          | None =>
              (Returned (true, "Move successful", Some new_fen2, Some bot_move),
               db2, [board])
          end
      end
  end.

(** [make_move] returns its tuple, the committed database and the list of
    positions submitted to the engine.  [now] is the reading of the
    clock. *)
Definition make_move (engine : ChessEngine.t) (now : Z) (db : store)
    (game_id : Z) (move_uci : string) (player_id : option Z)
    : outcome move_result * store * list Board :=
  match get_game db game_id with
  | None => (Returned (false, "Game not found", None, None), db, [])
  | Some game =>
      if negb (GameStatus_eqb (Game.status game) IN_PROGRESS) then
        (Returned (false, "Game is not in progress", None, None), db, [])
      else
        match get_game_session db game_id with
        | None => (Returned (false, "Game session not found", None, None), db, [])
        | Some session =>
            match board_of_fen (GameSession.current_fen session) with
            | None => (Returned (false, "Invalid board position", None, None), db, [])
            | Some board =>
                match from_uci move_uci with
                | None => (Returned (false, "Invalid move format", None, None), db, [])
                | Some move =>
                    if negb (legal board move) then
                      (Returned (false, "Invalid move", None, None), db, [])
                    else
                      match push board move with
                      | None => (Raised, db, [])
                      | Some board1 =>
                          let new_fen := fen board1 in
                          let move_history :=
                            GameSession.move_history session ++ [move_uci] in
                          let session1 :=
                            GameSession.set_position session new_fen move_history now in
                          let db1 := commit_session db session1 in
                          match ChessEngine.get_game_result board1 with
                          | Some game_result =>
                              match _generate_pgn board1 move_history with
                              | None => (Raised, db1, [])
                              | Some pgn =>
                                  (Returned (true, "Game ended: " +:+ game_result,
                                             Some new_fen, None),
                                   commit_game db1
                                     (Game.set_result game
                                        (status_of_result game_result) (Some now)
                                        (Some pgn)),
                                   [])
                              end
                          | None =>
                              if is_none (Game.black_player_id game)
                                 && negb (turn board1) then
                                bot_reply engine now db1 game session1 board1
                                  new_fen move_history
                              else
                                (Returned (true, "Move successful", Some new_fen, None),
                                 db1, [])
                          end
                      end
                end
            end
        end
  end.

(** The replay loop of [undo_move]. *)
Inductive replayed : Type :=
| Position (board : Board)
| InvalidText
| PushFailure.

Fixpoint replay (board : Board) (move_history : list string) : replayed :=
  match move_history with
  | [] => Position board
  | move_uci :: rest =>
      match from_uci move_uci with
      | None => InvalidText
      | Some move =>
          match push board move with
          | None => PushFailure
          | Some b => replay b rest
          end
      end
  end.

Definition undo_result : Type := bool * string * option string.

Definition undo_move (now : Z) (db : store) (game_id : Z) (num_moves : Z)
    : outcome undo_result * store :=
  match get_game db game_id with
  | None => (Returned (false, "Game not found", None), db)
  | Some game =>
      match get_game_session db game_id with
      | None => (Returned (false, "Game session not found", None), db)
      | Some session =>
          let move_history := GameSession.move_history session in
          if Z.of_nat (length move_history) <? num_moves then
            (Returned (false,
                       "Not enough moves to undo. Only "
                         +:+ pretty (Z.of_nat (length move_history))
                         +:+ " moves available.",
                       None),
             db)
          else
            match replay starting_board (slice_to move_history (- num_moves)) with
            | InvalidText => (Returned (false, "Invalid move in history", None), db)
            | PushFailure => (Raised, db)
            | Position board =>
                let new_fen := fen board in
                let new_move_history := slice_to move_history (- num_moves) in
                let session1 :=
                  GameSession.set_position session new_fen new_move_history now in
                let game1 :=
                  if negb (GameStatus_eqb (Game.status game) IN_PROGRESS) then
                    Game.set_result game IN_PROGRESS None None
                  else game in
                (Returned (true, "Undid " +:+ pretty num_moves +:+ " move(s)",
                           Some new_fen),
                 commit_game (commit_session db session1) game1)
            end
      end
  end.
End WithLib.
End GameService.

(** ** app/api/games.py: the game creation endpoint *)

Module GamesApi.
Section WithLib.
Context {lib : ChessLib}.

(** The request body, [schemas.GameCreate]. *)
Record GameCreate : Type := mk_GameCreate {
  white_player_id : option Z;
  black_player_id : option Z;
  is_bot_game : bool;
  bot_difficulty : option Z
}.

(** The endpoint clears the black player of a bot game before it calls the
    service.  Setting the engine's skill level does not touch the
    database. *)
Definition create_game (now : Z) (db : store) (game_data : GameCreate)
    : Game.t * store :=
  let black := if is_bot_game game_data then None else black_player_id game_data in
  GameService.create_game now db (white_player_id game_data) black
    (is_bot_game game_data).

(** What leaves an endpoint instead of its response: an [HTTPException],
    the framework's rejection of a parameter outside its declared bounds
    (status 422), the [RuntimeError] of the recovery wrapper, or any other
    exception that escaped the service. *)
Inductive http_error : Type :=
| HTTPException (status_code : Z) (detail : string)
| RequestValidationError
| RecoveryFailed (message : string)
| ServiceError.

Definition get_game (db : store) (game_id : Z) : Game.t + http_error :=
  match GameService.get_game db game_id with
  | Some game => inl game
  | None => inr (HTTPException 404 "Game not found")
  end.

Definition get_game_session (db : store) (game_id : Z) : GameSession.t + http_error :=
  match GameService.get_game_session db game_id with
  | Some session => inl session
  | None => inr (HTTPException 404 "Game session not found")
  end.

(** The dictionary the undo endpoint returns. *)
Record UndoResponse : Type := mk_UndoResponse {
  success : bool;
  message : string;
  new_fen : option string;
  game_status : option string;
  move_history : list string
}.

(** The world of a request: the database, the clock, and what the recovery
    wrappers did (seconds slept, recovery actions, alerts). *)
Inductive effect : Type :=
| Slept (seconds : Z)
| RecoveryAttempted
| AlertSent (e : http_error).

Record world : Type := mk_world {
  db : store;
  clock : Z;
  journal : list effect
}.

Definition sleep (seconds : Z) (w : world) : world :=
  {| db := db w; clock := clock w + seconds;
     journal := journal w ++ [Slept seconds] |}.

Definition _attempt_recovery (w : world) : world :=
  {| db := db w; clock := clock w; journal := journal w ++ [RecoveryAttempted] |}.

Definition _send_alert (e : http_error) (w : world) : world :=
  {| db := db w; clock := clock w; journal := journal w ++ [AlertSent e] |}.

(** [recover_database] around a function of the request world. *)
Definition recover_database {A : Type} (strategy : Recovery.RecoveryStrategy)
    (func : world -> (A + http_error) * world) (w : world)
    : (A + http_error) * world :=
  match Recovery.recover sleep _attempt_recovery _send_alert strategy func w with
  | (inl a, w1) => (inl a, w1)
  | (inr (Original e), w1) => (inr e, w1)
  | (inr (RuntimeError m), w1) => (inr (RecoveryFailed m), w1)
  end.

(** [GameService.undo_move] under its [recover_database] decorator. *)
Definition service_undo_move (strategy : Recovery.RecoveryStrategy) (game_id : Z)
    (num_moves : Z) (w : world) : (GameService.undo_result + http_error) * world :=
  recover_database strategy
    (fun w0 =>
       match GameService.undo_move (clock w0) (db w0) game_id num_moves with
       | (Returned r, db1) =>
           (inl r, {| db := db1; clock := clock w0; journal := journal w0 |})
       | (Raised, db1) =>
           (inr ServiceError, {| db := db1; clock := clock w0; journal := journal w0 |})
       end)
    w.

(** The body of the undo endpoint. *)
Definition undo_move_body (strategy : Recovery.RecoveryStrategy) (game_id : Z)
    (num_moves : Z) (w : world) : (UndoResponse + http_error) * world :=
  match service_undo_move strategy game_id num_moves w with
  | (inr _, w1) => (inr (HTTPException 500 "Failed to undo move"), w1)
  | (inl (false, message, _), w1) => (inr (HTTPException 400 message), w1)
  | (inl (true, message, new_fen), w1) =>
      let move_history :=
        match GameService.get_game_session (db w1) game_id with
        | Some session => GameSession.move_history session
        | None => []
        end in
      let game_status :=
        match GameService.get_game (db w1) game_id with
        | Some game => Some (GameStatus_value (Game.status game))
        | None => None
        end in
      (inl {| success := true; message := message; new_fen := new_fen;
              game_status := game_status; move_history := move_history |},
       w1)
  end.

(** The undo endpoint: [num_moves] is declared with [ge=1, le=10] and is
    checked before the decorated function is entered. *)
Definition undo_move (strategy : Recovery.RecoveryStrategy) (game_id : Z)
    (num_moves : Z) (w : world) : (UndoResponse + http_error) * world :=
  if (num_moves <? 1) || (10 <? num_moves) then (inr RequestValidationError, w)
  else recover_database strategy (undo_move_body strategy game_id num_moves) w.
End WithLib.
End GamesApi.

(** ** app/services/puzzle_service.py *)

(** The two float operations of [get_user_stats] that are not comparisons:
    true division of two integers and [round(x, ndigits)]. *)
Record PyFloat : Type := mk_PyFloat {
  int_truediv : Z -> Z -> float;
  round_ndigits : float -> Z -> float
}.

(** Truth value of a float: zero (of either sign) is false. *)
Definition float_truthy (x : float) : bool := negb (PrimFloat.eqb x 0%float).

(** [min(iterable, default=None)]: the first item is kept until a later one
    compares less. *)
Definition py_min (items : list float) : option float :=
  match items with
  | [] => None
  | x :: rest =>
      Some (fold_left (fun m item => if PrimFloat.ltb item m then item else m) rest x)
  end.

Module PuzzleService.

(** One value of the [puzzles_by_difficulty] dictionary. *)
Record tally : Type := mk_tally { solved : Z; failed : Z }.

Record stats : Type := mk_stats {
  user_id : Z;
  total_solved : Z;
  total_failed : Z;
  success_rate : float;
  best_time_seconds : option float;
  puzzles_by_difficulty : gmap string tally
}.

Definition attempt_result : Type := bool * string * option string * bool.

Section WithLib.
Context {lib : ChessLib}.

Definition get_puzzle (db : store) (puzzle_id : Z) : option Puzzle.t :=
  find (fun p => Puzzle.id p =? puzzle_id) (puzzles db).

Definition stat_of (user_id puzzle_id : Z) (up : UserPuzzle.t) : bool :=
  (UserPuzzle.user_id up =? user_id) && (UserPuzzle.puzzle_id up =? puzzle_id).

Definition _update_user_stats (now : Z) (db : store) (user_id puzzle_id : Z)
    (success : bool) : store :=
  match find (stat_of user_id puzzle_id) (user_puzzles db) with
  | Some user_puzzle =>
      set_user_puzzles db
        (update_first (stat_of user_id puzzle_id)
           (UserPuzzle.record_attempt user_puzzle success now) (user_puzzles db))
  | None =>
      let user_puzzle :=
        {| UserPuzzle.user_id := user_id; UserPuzzle.puzzle_id := puzzle_id;
           UserPuzzle.solved := 0; UserPuzzle.failed := 0;
           UserPuzzle.best_time_seconds := None;
           UserPuzzle.last_attempted_at := None |} in
      set_user_puzzles db
        (user_puzzles db ++ [UserPuzzle.record_attempt user_puzzle success now])
  end.

(** The loop that replays the stored solution: it stops at the first entry
    that is not a move or is not legal, and returns the position and the
    number of entries applied.  [None] when [push] fails. *)
Fixpoint solution_progress (board : Board) (solution_moves : list string)
    (current_move_index : nat) : option (Board * nat) :=
  match solution_moves with
  | [] => Some (board, current_move_index)
  | sol_move :: rest =>
      match from_uci sol_move with
      | None => Some (board, current_move_index)
      | Some move =>
          if legal board move then
            match push board move with
            | None => None
            | Some b => solution_progress b rest (S current_move_index)
            end
          else Some (board, current_move_index)
      end
  end.

Definition record_stat (now : Z) (db : store) (user_id : option Z) (puzzle_id : Z)
    (success : bool) : store :=
  match user_id with
  | Some u => if int_truthy user_id then _update_user_stats now db u puzzle_id success else db
  | None => db
  end.

Definition attempt_puzzle (now : Z) (db : store) (puzzle_id : Z) (move_uci : string)
    (user_id : option Z) : outcome attempt_result * store :=
  match get_puzzle db puzzle_id with
  | None => (Returned (false, "Puzzle not found", None, false), db)
  | Some puzzle =>
      let solution_moves :=
        match Puzzle.moves puzzle with
        | Some l => l
        | None => []
        end in
      match solution_moves with
      | [] => (Returned (false, "Invalid puzzle data", None, false), db)
      | _ :: _ =>
          match board_of_fen (Puzzle.fen puzzle) with
          | None => (Returned (false, "Invalid puzzle position", None, false), db)
          | Some board0 =>
              match solution_progress board0 solution_moves 0 with
              | None => (Raised, db)
              | Some (board, current_move_index) =>
                  if (length solution_moves <=? current_move_index)%nat then
                    (Returned (false, "Puzzle already solved", None, true), db)
                  else
                    match nth_error solution_moves current_move_index with
                    | None => (Raised, db)
                    | Some expected_move =>
                        match from_uci move_uci with
                        | None =>
                            (Returned (false, "Invalid move format", None, false), db)
                        | Some user_move =>
                            if String.eqb (uci user_move) expected_move then
                              match push board user_move with
                              | None => (Raised, db)
                              | Some _ =>
                                  let current_move_index := S current_move_index in
                                  let is_complete :=
                                    (length solution_moves <=? current_move_index)%nat in
                                  let next_move :=
                                    if is_complete then None
                                    else nth_error solution_moves current_move_index in
                                  (Returned (true, "Correct move!", next_move, is_complete),
                                   record_stat now db user_id puzzle_id true)
                              end
                            else
                              (Returned (false, "Incorrect move. Try again!", None, false),
                               record_stat now db user_id puzzle_id false)
                        end
                    end
              end
          end
      end
  end.

(** The loop that fills [puzzles_by_difficulty]. *)
Definition add_to_difficulty (db : store) (acc : gmap string tally)
    (up : UserPuzzle.t) : gmap string tally :=
  match get_puzzle db (UserPuzzle.puzzle_id up) with
  | Some puzzle =>
      let diff := PuzzleDifficulty_value (Puzzle.difficulty puzzle) in
      let cur :=
        match acc !! diff with
        | Some t => t
        | None => {| solved := 0; failed := 0 |}
        end in
      <[diff := {| solved := solved cur + UserPuzzle.solved up;
                   failed := failed cur + UserPuzzle.failed up |}]> acc
  | None => acc
  end.

(** The rows of the generator [up.best_time_seconds for up in ... if
    up.best_time_seconds]. *)
Definition truthy_best_times (rows : list UserPuzzle.t) : list float :=
  flat_map
    (fun up =>
       match UserPuzzle.best_time_seconds up with
       | Some t => if float_truthy t then [t] else []
       | None => []
       end)
    rows.

Definition get_user_stats (fl : PyFloat) (db : store) (user_id : Z) : stats :=
  let user_puzzles :=
    List.filter (fun up => UserPuzzle.user_id up =? user_id) (user_puzzles db) in
  let total_solved := fold_left Z.add (map UserPuzzle.solved user_puzzles) 0 in
  let total_failed := fold_left Z.add (map UserPuzzle.failed user_puzzles) 0 in
  let total_attempts := total_solved + total_failed in
  let success_rate :=
    if 0 <? total_attempts then
      PrimFloat.mul (int_truediv fl total_solved total_attempts) 100%float
    else 0%float in
  let best_time := py_min (truthy_best_times user_puzzles) in
  let puzzles_by_difficulty := fold_left (add_to_difficulty db) user_puzzles ∅ in
  {| user_id := user_id;
     total_solved := total_solved;
     total_failed := total_failed;
     success_rate := round_ndigits fl success_rate 2;
     best_time_seconds := best_time;
     puzzles_by_difficulty := puzzles_by_difficulty |}.
End WithLib.
End PuzzleService.

(** ** What the services rely on from the rules library *)

(** The position encoding determines legality and the encoding of the
    successor of a legal move, and decoding an encoding gives a position with
    that encoding.  A legal move can be pushed, and the text of a move reads
    back as that move. *)
Class FenLaws (lib : ChessLib) : Prop := {
  fen_round_trip :
    forall (b b' : Board), board_of_fen (fen b) = Some b' -> fen b' = fen b;
  fen_legal :
    forall (b b' : Board) (m : Move), fen b = fen b' -> legal b m = legal b' m;
  legal_push :
    forall (b : Board) (m : Move), legal b m = true -> exists b1, push b m = Some b1;
  fen_push :
    forall (b b' c c' : Board) (m : Move),
      fen b = fen b' -> legal b m = true ->
      push b m = Some c -> push b' m = Some c' -> fen c = fen c';
  uci_round_trip : forall (m : Move), from_uci (uci m) = Some m
}.

(** Every push passes the turn to the other side. *)
Definition push_passes_turn (lib : ChessLib) : Prop :=
  forall (b b1 : Board) (m : Move), push b m = Some b1 -> turn b1 = negb (turn b).

(** The engine only proposes legal moves. *)
Definition engine_sound {lib : ChessLib} (engine : ChessEngine.t) : Prop :=
  forall (b : Board) (m : Move),
    ChessEngine.get_best_move engine b = ChessEngine.BestMove (Some m) ->
    legal b m = true.

(** The stored log replays, from the starting position, to a position whose
    encoding is the stored one. *)
Definition session_consistent {lib : ChessLib} (s : GameSession.t) : Prop :=
  exists b : Board,
    GameService.replay starting_board (GameSession.move_history s)
      = GameService.Position b
    /\ fen b = GameSession.current_fen s.

(** The databases the game operations can produce, starting with no game. *)
Inductive reachable {lib : ChessLib} : store -> Prop :=
| reach_empty (ps : list Puzzle.t) (ups : list UserPuzzle.t) :
    reachable {| games := []; sessions := []; puzzles := ps; user_puzzles := ups |}
| reach_create_game (now : Z) (db : store) (white black : option Z) (bot : bool) :
    reachable db ->
    reachable (snd (GameService.create_game now db white black bot))
| reach_make_move (engine : ChessEngine.t) (now : Z) (db : store) (game_id : Z)
    (move_uci : string) (player_id : option Z) :
    engine_sound engine ->
    reachable db ->
    reachable (snd (fst (GameService.make_move engine now db game_id move_uci player_id)))
| reach_undo_move (now : Z) (db : store) (game_id : Z) (num_moves : Z) :
    reachable db ->
    reachable (snd (GameService.undo_move now db game_id num_moves)).

(** The error kinds of the interface, and the kind each failure message of
    the game service stands for. *)
Inductive error_kind : Type :=
| NotFound
| InvalidState
| InvalidMove
| CorruptState.

Definition kind_of_message (message : string) : option error_kind :=
  if String.eqb message "Game not found" then Some NotFound
  else if String.eqb message "Game session not found" then Some NotFound
  else if String.eqb message "Game is not in progress" then Some InvalidState
  else if String.eqb message "Invalid move" then Some InvalidMove
  else if String.eqb message "Invalid move format" then Some InvalidMove
  else if String.eqb message "Invalid board position" then Some CorruptState
  else if String.eqb message "Invalid move in history" then Some CorruptState
  else None.

(** The terminal conditions of the interface: checkmate, stalemate,
    insufficient material, threefold repetition and the 75-move rule (150
    half-moves without progress). *)
Definition terminal {lib : ChessLib} (b : Board) : bool :=
  is_checkmate b || is_stalemate b || is_insufficient_material b
  || is_repetition b 3 || (150 <=? halfmove_clock b).

(** The status a terminal position ends the game with, in the words of the
    interface: checkmate is a win for the side that just moved, every other
    terminal condition is a draw. *)
Definition ended_status {lib : ChessLib} (white_moved : bool) (after : Board)
    : GameStatus :=
  if is_checkmate after then (if white_moved then WHITE_WON else BLACK_WON)
  else DRAW.

(** The statistics in the words of the interface: the rows of a user's
    attempts whose puzzle exists and has a given difficulty, and the sum of a
    counter over rows. *)
Definition rows_of_difficulty (db : store) (d : string) (rows : list UserPuzzle.t)
    : list UserPuzzle.t :=
  List.filter
    (fun up =>
       match PuzzleService.get_puzzle db (UserPuzzle.puzzle_id up) with
       | Some puzzle => String.eqb (PuzzleDifficulty_value (Puzzle.difficulty puzzle)) d
       | None => false
       end)
    rows.

Definition counter_sum (counter : UserPuzzle.t -> Z) (rows : list UserPuzzle.t) : Z :=
  fold_right (fun up total => counter up + total) 0 rows.

(** A user's rows whose puzzle is no longer found, the entry of a difficulty
    read with a default of zeros, and the four values a difficulty can
    have. *)
Definition rows_without_puzzle (db : store) (rows : list UserPuzzle.t)
    : list UserPuzzle.t :=
  List.filter
    (fun up =>
       match PuzzleService.get_puzzle db (UserPuzzle.puzzle_id up) with
       | Some _ => false
       | None => true
       end)
    rows.

Definition tally_of (by_difficulty : gmap string PuzzleService.tally) (d : string)
    : PuzzleService.tally :=
  match by_difficulty !! d with
  | Some t => t
  | None => {| PuzzleService.solved := 0; PuzzleService.failed := 0 |}
  end.

Definition difficulty_values : list string :=
  map PuzzleDifficulty_value [EASY; MEDIUM; HARD; EXPERT].

(** The log replayed with the test [make_move] applies to each move before
    pushing it: [None] as soon as an entry is not a move, is not legal where
    it stands, or cannot be pushed. *)
Fixpoint legal_replay {lib : ChessLib} (board : Board) (move_history : list string)
    : option Board :=
  match move_history with
  | [] => Some board
  | move_uci :: rest =>
      match from_uci move_uci with
      | None => None
      | Some move =>
          if legal board move then
            match push board move with
            | Some b => legal_replay b rest
            | None => None
            end
          else None
      end
  end.

(** The stored log is a legal game from the starting position, and ends in
    a position with the stored encoding. *)
Definition session_legal {lib : ChessLib} (s : GameSession.t) : Prop :=
  exists b : Board,
    legal_replay starting_board (GameSession.move_history s) = Some b
    /\ fen b = GameSession.current_fen s.

(** Two databases agree on everything but one game: every other game and
    session is found as before, and the puzzle tables are the same. *)
Definition same_elsewhere {lib : ChessLib} (game_id : Z) (db db' : store) : Prop :=
  (forall other : Z,
     other <> game_id ->
     GameService.get_game db' other = GameService.get_game db other
     /\ GameService.get_game_session db' other = GameService.get_game_session db other)
  /\ puzzles db' = puzzles db
  /\ user_puzzles db' = user_puzzles db.

(** Two databases have the same key columns: the ids of the games and the
    game ids of the sessions, in order. *)
Definition same_keys (db db' : store) : Prop :=
  map Game.id (games db') = map Game.id (games db)
  /\ map GameSession.game_id (sessions db') = map GameSession.game_id (sessions db).

(** A game row is either open (in progress, no end time, no record) or
    closed (won or drawn, with an end time and a record). *)
Definition game_row_coherent (g : Game.t) : Prop :=
  (Game.status g = IN_PROGRESS /\ Game.ended_at g = None /\ Game.pgn g = None)
  \/ ((Game.status g = WHITE_WON \/ Game.status g = BLACK_WON \/ Game.status g = DRAW)
      /\ Game.ended_at g <> None /\ Game.pgn g <> None).

(** The worlds in which the calls of a run of failures are made, under the
    recovery wrapper and under the retry wrapper: call number [k], counted
    from 0, of a run in which every earlier call failed. *)
Fixpoint recovery_world {W A E : Type} (sleep : Z -> W -> W)
    (_attempt_recovery : W -> W) (strategy : Recovery.RecoveryStrategy)
    (func : W -> (A + E) * W) (k : nat) (w : W) : W :=
  match k with
  | O => w
  | S k' =>
      _attempt_recovery
        (sleep (Recovery.retry_delay strategy)
           (snd (func (recovery_world sleep _attempt_recovery strategy func k' w))))
  end.

Fixpoint retry_world {W A E : Type} (sleep : Z -> W -> W) (func : W -> (A + E) * W)
    (k : nat) (w : W) : W :=
  match k with
  | O => w
  | S k' => sleep (Z.of_nat k) (snd (func (retry_world sleep func k' w)))
  end.

(** ** A miniature rules library

    A stand-in for python-chess that knows one short game, 1. e4 f6 2. d4 g5
    3. Qh5 mate, with the encodings python-chess gives its positions, and
    one push of a move that is not legal (the pawn jump e2e5 from the
    starting position).  It is used to run the services on concrete data. *)

Module Miniature.

Inductive position : Type :=
| Start
| AfterE4
| AfterF6
| AfterD4
| AfterG5
| Mated
| Jumped.

Inductive ply : Type :=
| e2e4
| f7f6
| d2d4
| g7g5
| d1h5
| e2e5.

Definition positions : list position :=
  [Start; AfterE4; AfterF6; AfterD4; AfterG5; Mated; Jumped].

Definition plies : list ply := [e2e4; f7f6; d2d4; g7g5; d1h5; e2e5].

Definition position_fen (b : position) : string :=
  match b with
  | Start => "rnbqkbnr/pppppppp/8/8/8/8/PPPPPPPP/RNBQKBNR w KQkq - 0 1"
  | AfterE4 => "rnbqkbnr/pppppppp/8/8/4P3/8/PPPP1PPP/RNBQKBNR b KQkq - 0 1"
  | AfterF6 => "rnbqkbnr/ppppp1pp/5p2/8/4P3/8/PPPP1PPP/RNBQKBNR w KQkq - 0 2"
  | AfterD4 => "rnbqkbnr/ppppp1pp/5p2/8/3PP3/8/PPP2PPP/RNBQKBNR b KQkq - 0 2"
  | AfterG5 => "rnbqkbnr/ppppp2p/5p2/6p1/3PP3/8/PPP2PPP/RNBQKBNR w KQkq - 0 3"
  | Mated => "rnbqkbnr/ppppp2p/5p2/6pQ/3PP3/8/PPP2PPP/RNB1KBNR b KQkq - 1 3"
  | Jumped => "rnbqkbnr/pppppppp/8/4P3/8/8/PPPP1PPP/RNBQKBNR b KQkq - 0 1"
  end.

Definition ply_uci (m : ply) : string :=
  match m with
  | e2e4 => "e2e4"
  | f7f6 => "f7f6"
  | d2d4 => "d2d4"
  | g7g5 => "g7g5"
  | d1h5 => "d1h5"
  | e2e5 => "e2e5"
  end.

Definition position_of_fen (s : string) : option position :=
  find (fun b => String.eqb (position_fen b) s) positions.

Definition ply_of_uci (s : string) : option ply :=
  find (fun m => String.eqb (ply_uci m) s) plies.

Definition ply_legal (b : position) (m : ply) : bool :=
  match b, m with
  | Start, e2e4 | AfterE4, f7f6 | AfterF6, d2d4 | AfterD4, g7g5 | AfterG5, d1h5 => true
  | _, _ => false
  end.

Definition ply_push (b : position) (m : ply) : option position :=
  match b, m with
  | Start, e2e4 => Some AfterE4
  | AfterE4, f7f6 => Some AfterF6
  | AfterF6, d2d4 => Some AfterD4
  | AfterD4, g7g5 => Some AfterG5
  | AfterG5, d1h5 => Some Mated
  | Start, e2e5 => Some Jumped
  | _, _ => None
  end.

Definition white_to_move (b : position) : bool :=
  match b with
  | Start | AfterF6 | AfterG5 => true
  | AfterE4 | AfterD4 | Mated | Jumped => false
  end.

Definition checkmated (b : position) : bool :=
  match b with
  | Mated => true
  | _ => false
  end.

Definition clock (b : position) : Z :=
  match b with
  | Mated => 1
  | _ => 0
  end.

Definition mainline_text (ms : list ply) : string :=
  String.concat " " (map ply_uci ms).

Definition rules : ChessLib :=
  {| Board := position;
     Move := ply;
     starting_board := Start;
     board_of_fen := position_of_fen;
     fen := position_fen;
     from_uci := ply_of_uci;
     uci := ply_uci;
     legal := ply_legal;
     push := ply_push;
     turn := white_to_move;
     is_checkmate := checkmated;
     is_stalemate := fun _ => false;
     is_insufficient_material := fun _ => false;
     is_repetition := fun _ _ => false;
     halfmove_clock := clock;
     pgn_text := mainline_text |}.

(** An engine that answers with black's moves of the game. *)
Definition engine : @ChessEngine.t rules :=
  @ChessEngine.mk rules
    (fun b : position =>
       match b with
       | AfterE4 => @ChessEngine.BestMove rules (Some f7f6)
       | AfterD4 => @ChessEngine.BestMove rules (Some g7g5)
       | _ => @ChessEngine.BestMove rules None
       end).

(** An engine that cannot be reached. *)
Definition silent_engine : @ChessEngine.t rules :=
  @ChessEngine.mk rules (fun _ => @ChessEngine.EngineFailure rules).

Definition no_rows : store :=
  {| games := []; sessions := []; puzzles := []; user_puzzles := [] |}.

(** A game against the bot (no black player) after 1. e4 f6 2. d4 g5, and
    the same game with a black player. *)
Definition game_row (black : option Z) (st : GameStatus) : Game.t :=
  {| Game.id := 1; Game.white_player_id := Some 7; Game.black_player_id := black;
     Game.pgn := None; Game.status := st; Game.started_at := 100;
     Game.ended_at := None; Game.created_at := 100 |}.

Definition session_row (f : string) (h : list string) : GameSession.t :=
  {| GameSession.id := 1; GameSession.game_id := 1; GameSession.current_fen := f;
     GameSession.move_history := h; GameSession.last_move_at := 100;
     GameSession.created_at := 100 |}.

Definition before_mate (black : option Z) : store :=
  {| games := [game_row black IN_PROGRESS];
     sessions :=
       [session_row (position_fen AfterG5) ["e2e4"; "f7f6"; "d2d4"; "g7g5"]];
     puzzles := []; user_puzzles := [] |}.

(** A session whose log starts with the pawn jump. *)
Definition jumped_log : store :=
  {| games := [game_row None IN_PROGRESS];
     sessions := [session_row (position_fen AfterE4) ["e2e5"; "f7f6"]];
     puzzles := []; user_puzzles := [] |}.

(** A puzzle from the starting position whose solution is the first two
    plies of the game, and one stat row. *)
Definition opening_puzzle : Puzzle.t :=
  {| Puzzle.id := 1; Puzzle.fen := position_fen Start;
     Puzzle.moves := Some ["e2e4"; "f7f6"]; Puzzle.difficulty := EASY;
     Puzzle.theme := None; Puzzle.description := None |}.

Definition stat_row (best : option float) : UserPuzzle.t :=
  {| UserPuzzle.user_id := 7; UserPuzzle.puzzle_id := 1; UserPuzzle.solved := 1;
     UserPuzzle.failed := 0; UserPuzzle.best_time_seconds := best;
     UserPuzzle.last_attempted_at := Some 100 |}.

Definition puzzle_rows (best : option float) : store :=
  {| games := []; sessions := []; puzzles := [opening_puzzle];
     user_puzzles := [stat_row best] |}.

(** The game played through the service against [engine]: creation, then
    white's three moves. *)
Definition created : store :=
  snd (GameService.create_game (lib := rules) 100 no_rows (Some 7) None true).

Definition after_e4 : store :=
  snd (fst (GameService.make_move engine 101 created 1 "e2e4" None)).

Definition after_d4 : store :=
  snd (fst (GameService.make_move engine 102 after_e4 1 "d2d4" None)).

Definition after_mate : store :=
  snd (fst (GameService.make_move engine 103 after_d4 1 "d1h5" None)).

(** A second game, between two players, beside the bot game, and that
    game after white's e2e4. *)
Definition two_games : store :=
  snd (GameService.create_game (lib := rules) 110 after_e4 (Some 8) (Some 9) false).

Definition two_games_moved : store :=
  snd (fst (GameService.make_move engine 111 two_games 2 "e2e4" (Some 8))).

(** A puzzle whose stored solution starts with a move that is not legal in
    its position, with no attempts recorded yet. *)
Definition odd_puzzle : Puzzle.t :=
  {| Puzzle.id := 2; Puzzle.fen := position_fen Start;
     Puzzle.moves := Some ["e2e5"; "f7f6"]; Puzzle.difficulty := HARD;
     Puzzle.theme := None; Puzzle.description := None |}.

Definition odd_puzzle_rows : store :=
  {| games := []; sessions := []; puzzles := [opening_puzzle; odd_puzzle];
     user_puzzles := [stat_row None] |}.

(** Stand-ins for the two float operations: division of the converted
    integers, and no rounding. *)
Definition floats : PyFloat :=
  {| int_truediv :=
       fun a b =>
         PrimFloat.div (PrimFloat.of_uint63 (Uint63.of_Z a))
           (PrimFloat.of_uint63 (Uint63.of_Z b));
     round_ndigits := fun x _ => x |}.

(** A recovery strategy of three retries five seconds apart, and the world
    of a request that arrives at time 200 for the mated game. *)
Definition three_retries : Recovery.RecoveryStrategy :=
  {| Recovery.enabled := true; Recovery.max_retries := 3; Recovery.retry_delay := 5 |}.

Definition request_world : @GamesApi.world :=
  {| GamesApi.db := after_mate; GamesApi.clock := 200; GamesApi.journal := [] |}.

(** A function that raises on its first two calls and returns on the third;
    its world is the list of what has happened so far. *)
Definition flaky (w : list string) : (Z + string) * list string :=
  if (length (List.filter (String.eqb "call") w) <? 2)%nat
  then (inr "connection lost", w ++ ["call"])
  else (inl 42, w ++ ["call"]).

Definition flaky_sleep (seconds : Z) (w : list string) : list string := w ++ ["sleep"].

Definition flaky_recovery (w : list string) : list string := w ++ ["recovery"].

Definition flaky_alert (e : string) (w : list string) : list string := w ++ ["alert"].

Definition mated_game : Game.t :=
  {| Game.id := 1; Game.white_player_id := Some 7; Game.black_player_id := None;
     Game.pgn := Some "e2e4 f7f6 d2d4 g7g5 d1h5"; Game.status := WHITE_WON;
     Game.started_at := 100; Game.ended_at := Some 103; Game.created_at := 100 |}.

Definition mated_session : GameSession.t :=
  {| GameSession.id := 1; GameSession.game_id := 1;
     GameSession.current_fen := position_fen Mated;
     GameSession.move_history := ["e2e4"; "f7f6"; "d2d4"; "g7g5"; "d1h5"];
     GameSession.last_move_at := 103; GameSession.created_at := 100 |}.

End Miniature.

(** * Properties *)

(** ** Rows and slices *)

Lemma update_first_Forall {A : Type} (P : A -> Prop) (p : A -> bool) (new : A)
    (rows : list A) :
  P new -> Forall P rows -> Forall P (update_first p new rows).
Proof.
  intros Hnew Hrows.
  induction Hrows as [|r rest Hr Hrest IH]; simpl.
  - constructor.
  - destruct (p r); constructor; assumption.
Qed.

Lemma find_update_first {A : Type} (p : A -> bool) (new old : A) (rows : list A) :
  find p rows = Some old -> p new = true ->
  find p (update_first p new rows) = Some new.
Proof.
  intros Hfind Hnew.
  induction rows as [|r rest IH]; simpl in *.
  - discriminate.
  - destruct (p r) eqn:Hr.
    + simpl. rewrite Hnew. reflexivity.
    + simpl. rewrite Hr. apply IH. exact Hfind.
Qed.

Lemma slice_to_undo {A : Type} (l : list A) (count : Z) :
  1 <= count <= Z.of_nat (length l) ->
  slice_to l (- count) = firstn (length l - Z.to_nat count) l.
Proof.
  intros Hc. unfold slice_to.
  destruct (Z.ltb_spec (- count) 0) as [_|Hge]; [|lia].
  f_equal. lia.
Qed.

(** ** Replaying a move log *)

Section Replay.
Context {lib : ChessLib}.

Lemma replay_snoc (b c : Board) (h : list string) (u : string) :
  GameService.replay b h = GameService.Position c ->
  GameService.replay b (h ++ [u]) = GameService.replay c [u].
Proof.
  revert b.
  induction h as [|x rest IH]; intros b Hb; simpl in *.
  - injection Hb as ->. reflexivity.
  - destruct (from_uci x) as [m|]; [|discriminate].
    destruct (push b m) as [b1|]; [|discriminate].
    apply IH. exact Hb.
Qed.

Lemma replay_firstn (b c : Board) (h : list string) (k : nat) :
  GameService.replay b h = GameService.Position c ->
  exists c', GameService.replay b (firstn k h) = GameService.Position c'.
Proof.
  revert b k.
  induction h as [|x rest IH]; intros b k Hb.
  - rewrite firstn_nil. exists b. reflexivity.
  - destruct k as [|k]; simpl.
    + exists b. reflexivity.
    + simpl in Hb.
      destruct (from_uci x) as [m|]; [|discriminate].
      destruct (push b m) as [b1|]; [|discriminate].
      apply IH. exact Hb.
Qed.

Context {laws : FenLaws lib}.

(** One more ply keeps the log and the encoding together, even though the
    service pushes on the decoded position and not on the replayed one. *)
Lemma ply_keeps_consistent (h : list string) (replayed board board1 : Board)
    (text : string) (m : Move) :
  GameService.replay starting_board h = GameService.Position replayed ->
  fen board = fen replayed ->
  from_uci text = Some m ->
  legal board m = true ->
  push board m = Some board1 ->
  exists c,
    GameService.replay starting_board (h ++ [text]) = GameService.Position c
    /\ fen c = fen board1.
Proof.
  intros Hh Hfen Htext Hlegal Hpush.
  assert (Hlegal' : legal replayed m = true).
  { rewrite <- (fen_legal board replayed m Hfen). exact Hlegal. }
  destruct (legal_push replayed m Hlegal') as [c Hc].
  exists c. split.
  - rewrite (replay_snoc _ _ _ _ Hh). simpl. rewrite Htext, Hc. reflexivity.
  - symmetry. exact (fen_push board replayed board1 c m Hfen Hlegal Hpush Hc).
Qed.

Lemma commit_session_consistent (db : store) (s : GameSession.t) :
  session_consistent s ->
  Forall session_consistent (sessions db) ->
  Forall session_consistent (sessions (GameService.commit_session db s)).
Proof.
  intros Hs Hdb. unfold GameService.commit_session. simpl.
  apply update_first_Forall; assumption.
Qed.

Lemma get_game_session_consistent (db : store) (game_id : Z) (s : GameSession.t) :
  Forall session_consistent (sessions db) ->
  GameService.get_game_session db game_id = Some s ->
  session_consistent s.
Proof.
  intros Hdb Hget. unfold GameService.get_game_session in Hget.
  apply find_some in Hget. destruct Hget as [Hin _].
  exact (proj1 (List.Forall_forall _ _) Hdb s Hin).
Qed.

Lemma bot_reply_consistent (engine : ChessEngine.t) (now : Z) (db : store)
    (game : Game.t) (session : GameSession.t) (board : Board)
    (move_history : list string) (c : Board) :
  engine_sound engine ->
  GameService.replay starting_board move_history = GameService.Position c ->
  fen c = fen board ->
  Forall session_consistent (sessions db) ->
  Forall session_consistent
    (sessions
       (snd (fst (GameService.bot_reply engine now db game session board
                    (fen board) move_history)))).
Proof.
  intros Hsound Hc Hfen Hdb. unfold GameService.bot_reply.
  destruct (ChessEngine.get_best_move engine board) as [[bm|]|] eqn:Hbest;
    simpl; try exact Hdb.
  destruct (push board bm) as [board2|] eqn:Hpush; simpl; [|exact Hdb].
  assert (Hs2 : Forall session_consistent
                  (sessions
                     (GameService.commit_session db
                        (GameSession.set_position session (fen board2)
                           (move_history ++ [uci bm]) now)))).
  { apply commit_session_consistent; [|exact Hdb].
    destruct (ply_keeps_consistent move_history c board board2 (uci bm) bm)
      as [d [Hd Hfd]]; auto using uci_round_trip.
    exists d. simpl. split; assumption. }
  destruct (ChessEngine.get_game_result board2) as [game_result|]; simpl;
    [|exact Hs2].
  destruct (GameService._generate_pgn board2 (move_history ++ [uci bm])); simpl;
    exact Hs2.
Qed.

Lemma make_move_consistent (engine : ChessEngine.t) (now : Z) (db : store)
    (game_id : Z) (move_uci : string) (player_id : option Z) :
  engine_sound engine ->
  Forall session_consistent (sessions db) ->
  Forall session_consistent
    (sessions
       (snd (fst (GameService.make_move engine now db game_id move_uci player_id)))).
Proof.
  intros Hsound Hdb. unfold GameService.make_move.
  destruct (GameService.get_game db game_id) as [game|]; [|exact Hdb].
  destruct (negb (GameStatus_eqb (Game.status game) IN_PROGRESS)); [exact Hdb|].
  destruct (GameService.get_game_session db game_id) as [session|] eqn:Hsession;
    [|exact Hdb].
  destruct (board_of_fen (GameSession.current_fen session)) as [board|] eqn:Hboard;
    [|exact Hdb].
  destruct (from_uci move_uci) as [move|] eqn:Hmove; [|exact Hdb].
  destruct (legal board move) eqn:Hlegal; simpl; [|exact Hdb].
  destruct (push board move) as [board1|] eqn:Hpush; [|exact Hdb].
  destruct (get_game_session_consistent db game_id session Hdb Hsession)
    as [b [Hb Hfb]].
  assert (Hfen : fen board = fen b).
  { apply fen_round_trip. rewrite Hfb. exact Hboard. }
  destruct (ply_keeps_consistent _ b board board1 move_uci move Hb Hfen Hmove
              Hlegal Hpush) as [c [Hc Hfc]].
  assert (Hs1 : Forall session_consistent
                  (sessions
                     (GameService.commit_session db
                        (GameSession.set_position session (fen board1)
                           (GameSession.move_history session ++ [move_uci]) now)))).
  { apply commit_session_consistent; [|exact Hdb].
    exists c. simpl. split; assumption. }
  destruct (ChessEngine.get_game_result board1) as [game_result|].
  - destruct (GameService._generate_pgn board1
                (GameSession.move_history session ++ [move_uci])); simpl; exact Hs1.
  - destruct (GameService.is_none (Game.black_player_id game) && negb (turn board1));
      [|exact Hs1].
    apply (bot_reply_consistent engine now _ game _ board1 _ c); assumption.
Qed.

Lemma undo_move_consistent (now : Z) (db : store) (game_id num_moves : Z) :
  Forall session_consistent (sessions db) ->
  Forall session_consistent
    (sessions (snd (GameService.undo_move now db game_id num_moves))).
Proof.
  intros Hdb. unfold GameService.undo_move.
  destruct (GameService.get_game db game_id) as [game|]; [|exact Hdb].
  destruct (GameService.get_game_session db game_id) as [session|]; [|exact Hdb].
  destruct (Z.of_nat (length (GameSession.move_history session)) <? num_moves);
    [exact Hdb|].
  destruct (GameService.replay starting_board
              (slice_to (GameSession.move_history session) (- num_moves)))
    as [board| |] eqn:Hreplay; try exact Hdb.
  simpl. apply update_first_Forall; [|exact Hdb].
  exists board. simpl. split; [exact Hreplay|reflexivity].
Qed.

Lemma reachable_consistent (db : store) :
  reachable db -> Forall session_consistent (sessions db).
Proof.
  intros Hreach.
  induction Hreach as [ps ups|now db w b bot _ IH|engine now db gid mv pid Hs _ IH
                      |now db gid n _ IH].
  - constructor.
  - simpl. constructor; [|exact IH].
    exists starting_board. simpl. split; reflexivity.
  - apply make_move_consistent; assumption.
  - apply undo_move_consistent; assumption.
Qed.

End Replay.

(** ** The miniature library satisfies the laws *)

Lemma miniature_fen_injective (b b' : Miniature.position) :
  Miniature.position_fen b = Miniature.position_fen b' -> b = b'.
Proof.
  intros H. apply String.eqb_eq in H.
  destruct b, b'; try reflexivity; vm_compute in H; discriminate H.
Qed.

Lemma miniature_fen_laws : FenLaws Miniature.rules.
Proof.
  constructor; simpl.
  - intros b b' H. destruct b; vm_compute in H; injection H as <-; reflexivity.
  - intros b b' m H. apply miniature_fen_injective in H. subst b'. reflexivity.
  - intros b m H. destruct b, m; try discriminate H; eexists; reflexivity.
  - intros b b' c c' m H _ Hc Hc'. apply miniature_fen_injective in H. subst b'.
    rewrite Hc in Hc'. injection Hc' as ->. reflexivity.
  - intros m. destruct m; reflexivity.
Qed.

Lemma miniature_push_passes_turn : push_passes_turn Miniature.rules.
Proof.
  intros b b1 m H. destruct b, m; try discriminate H; injection H as <-; reflexivity.
Qed.

Lemma miniature_engine_sound : engine_sound Miniature.engine.
Proof.
  intros b m H. destruct b; simpl in H; try discriminate H;
    injection H as <-; reflexivity.
Qed.


(** ** The session invariant *)

(** C1: in every database the game operations can produce (game creation,
    moves with their bot replies, undo), each session's stored move log,
    replayed in order from the starting position, ends in a position whose
    encoding is exactly the session's stored position encoding. *)
Theorem stored_log_replays_to_stored_position
    {lib : ChessLib} {laws : FenLaws lib} (db : store) (s : GameSession.t) :
  reachable db ->
  In s (sessions db) ->
  exists b : Board,
    GameService.replay starting_board (GameSession.move_history s)
      = GameService.Position b
    /\ fen b = GameSession.current_fen s.
Proof.
  intros Hreach Hin.
  exact (proj1 (List.Forall_forall _ _) (reachable_consistent db Hreach) s Hin).
Qed.

(** The invariant on the game opened with e2e4 and answered by the bot. *)
Lemma stored_log_replays_to_stored_position_witness :
  let db := Miniature.after_e4 in
  let s :=
    {| GameSession.id := 1; GameSession.game_id := 1;
       GameSession.current_fen := Miniature.position_fen Miniature.AfterF6;
       GameSession.move_history := ["e2e4"; "f7f6"];
       GameSession.last_move_at := 101; GameSession.created_at := 100 |} in
  In s (sessions db)
  /\ exists b : Miniature.position,
       GameService.replay (lib := Miniature.rules) Miniature.Start
         (GameSession.move_history s)
         = GameService.Position (lib := Miniature.rules) b
       /\ Miniature.position_fen b = GameSession.current_fen s.
Proof.
  intros db s.
  assert (Hin : In s (sessions db)) by (left; reflexivity).
  split; [exact Hin|].
  apply (stored_log_replays_to_stored_position (laws := miniature_fen_laws) db s);
    [|exact Hin].
  apply reach_make_move; [exact miniature_engine_sound|].
  apply reach_create_game. apply reach_empty.
Defined.

(** ** Undo *)

Section Undo.
Context {lib : ChessLib}.

Lemma get_game_id (db : store) (game_id : Z) (game : Game.t) :
  GameService.get_game db game_id = Some game -> Game.id game = game_id.
Proof.
  intros H. apply find_some in H. destruct H as [_ H]. lia.
Qed.

Lemma get_game_session_id (db : store) (game_id : Z) (session : GameSession.t) :
  GameService.get_game_session db game_id = Some session ->
  GameSession.game_id session = game_id.
Proof.
  intros H. apply find_some in H. destruct H as [_ H]. lia.
Qed.

Lemma get_game_session_commit (db : store) (game_id : Z) (old new : GameSession.t) :
  GameService.get_game_session db game_id = Some old ->
  GameSession.game_id new = game_id ->
  GameService.get_game_session (GameService.commit_session db new) game_id = Some new.
Proof.
  intros Hold Hid. unfold GameService.get_game_session, GameService.commit_session.
  simpl. rewrite Hid.
  apply (find_update_first _ new old); [exact Hold|lia].
Qed.

Lemma get_game_commit (db : store) (game_id : Z) (old new : Game.t) :
  GameService.get_game db game_id = Some old ->
  Game.id new = game_id ->
  GameService.get_game (GameService.commit_game db new) game_id = Some new.
Proof.
  intros Hold Hid. unfold GameService.get_game, GameService.commit_game.
  simpl. rewrite Hid.
  apply (find_update_first _ new old); [exact Hold|lia].
Qed.

(** What [undo_move] does whenever the entries it keeps can be replayed:
    nothing in it asks whether a replayed move is legal. *)
Lemma undo_move_replayed (now : Z) (db : store) (game_id num_moves : Z)
    (game : Game.t) (session : GameSession.t) (board : Board) :
  GameService.get_game db game_id = Some game ->
  GameService.get_game_session db game_id = Some session ->
  num_moves <= Z.of_nat (length (GameSession.move_history session)) ->
  GameService.replay starting_board
    (slice_to (GameSession.move_history session) (- num_moves))
    = GameService.Position board ->
  GameService.undo_move now db game_id num_moves
  = (Returned (true, "Undid " +:+ pretty num_moves +:+ " move(s)", Some (fen board)),
     GameService.commit_game
       (GameService.commit_session db
          (GameSession.set_position session (fen board)
             (slice_to (GameSession.move_history session) (- num_moves)) now))
       (if negb (GameStatus_eqb (Game.status game) IN_PROGRESS)
        then Game.set_result game IN_PROGRESS None None
        else game)).
Proof.
  intros Hgame Hsession Hlen Hreplay. unfold GameService.undo_move.
  rewrite Hgame, Hsession.
  destruct (Z.ltb_spec (Z.of_nat (length (GameSession.move_history session)))
              num_moves) as [Hlt|_]; [lia|].
  rewrite Hreplay. reflexivity.
Qed.

Lemma GameStatus_eqb_neq (a b : GameStatus) : a <> b -> GameStatus_eqb a b = false.
Proof.
  intros H. destruct a, b; try reflexivity; contradiction H; reflexivity.
Qed.

End Undo.

Lemma miniature_game_reachable : reachable (lib := Miniature.rules) Miniature.after_mate.
Proof.
  repeat (apply reach_make_move; [exact miniature_engine_sound|]).
  apply reach_create_game. apply reach_empty.
Qed.

(** C8: a logged move that is not legal in the rebuilt position does not
    make undo fail.  The log starts with e2e5, which is a move and is not
    legal at the start; undoing the last move replays it, reports success
    and stores the position it leads to. *)
Theorem undo_move_replays_illegal_move :
  from_uci (ChessLib := Miniature.rules) "e2e5" = Some Miniature.e2e5
  /\ legal (ChessLib := Miniature.rules) Miniature.Start Miniature.e2e5 = false
  /\ GameService.undo_move (lib := Miniature.rules) 200 Miniature.jumped_log 1 1
     = (Returned (true, "Undid 1 move(s)",
                  Some (Miniature.position_fen Miniature.Jumped)),
        {| games := [Miniature.game_row None IN_PROGRESS];
           sessions :=
             [{| GameSession.id := 1; GameSession.game_id := 1;
                 GameSession.current_fen := Miniature.position_fen Miniature.Jumped;
                 GameSession.move_history := ["e2e5"];
                 GameSession.last_move_at := 200;
                 GameSession.created_at := 100 |}];
           puzzles := []; user_puzzles := [] |}).
Proof.
  split; [reflexivity|]. split; reflexivity.
Qed.

(** ** Rejected moves *)

(** C4: a move that is not a move at all, or is not legal in the stored
    position, is answered with an invalid-move error; any move on a game
    that is not in progress is answered with an invalid-state error; in both
    cases the database is returned as it was (and the engine is not
    asked). *)
Theorem make_move_rejects_without_change {lib : ChessLib}
    (engine : ChessEngine.t) (now : Z) (db : store) (game_id : Z)
    (move_uci : string) (player_id : option Z) (game : Game.t) :
  GameService.get_game db game_id = Some game ->
  (Game.status game <> IN_PROGRESS ->
   exists message,
     GameService.make_move engine now db game_id move_uci player_id
     = (Returned (false, message, None, None), db, [])
     /\ kind_of_message message = Some InvalidState)
  /\ (forall (session : GameSession.t) (board : Board),
        Game.status game = IN_PROGRESS ->
        GameService.get_game_session db game_id = Some session ->
        board_of_fen (GameSession.current_fen session) = Some board ->
        match from_uci move_uci with
        | None => True
        | Some move => legal board move = false
        end ->
        exists message,
          GameService.make_move engine now db game_id move_uci player_id
          = (Returned (false, message, None, None), db, [])
          /\ kind_of_message message = Some InvalidMove).
Proof.
  intros Hgame. split.
  - intros Hstatus. exists "Game is not in progress".
    unfold GameService.make_move. rewrite Hgame.
    rewrite (GameStatus_eqb_neq _ _ Hstatus). split; reflexivity.
  - intros session board Hstatus Hsession Hboard Hmove.
    unfold GameService.make_move. rewrite Hgame, Hstatus, Hsession, Hboard. simpl.
    destruct (from_uci move_uci) as [move|].
    + exists "Invalid move". rewrite Hmove. split; reflexivity.
    + exists "Invalid move format". split; reflexivity.
Qed.

(** On the miniature game: a move after the mate, the illegal e2e5 before
    it, and text that is not a move. *)
Lemma make_move_rejects_without_change_witness :
  (exists message,
     GameService.make_move Miniature.engine 200 Miniature.after_mate 1 "e2e4" None
     = (Returned (false, message, None, None), Miniature.after_mate, [])
     /\ kind_of_message message = Some InvalidState)
  /\ (exists message,
        GameService.make_move Miniature.engine 200 (Miniature.before_mate None) 1
          "e2e5" None
        = (Returned (false, message, None, None), Miniature.before_mate None, [])
        /\ kind_of_message message = Some InvalidMove)
  /\ (exists message,
        GameService.make_move Miniature.engine 200 (Miniature.before_mate None) 1
          "castle" None
        = (Returned (false, message, None, None), Miniature.before_mate None, [])
        /\ kind_of_message message = Some InvalidMove).
Proof.
  pose proof (make_move_rejects_without_change Miniature.engine 200
                Miniature.after_mate 1 "e2e4" None Miniature.mated_game eq_refl)
    as [Hended _].
  pose proof (make_move_rejects_without_change Miniature.engine 200
                (Miniature.before_mate None) 1 "e2e5" None
                (Miniature.game_row None IN_PROGRESS) eq_refl) as [_ Hillegal].
  pose proof (make_move_rejects_without_change Miniature.engine 200
                (Miniature.before_mate None) 1 "castle" None
                (Miniature.game_row None IN_PROGRESS) eq_refl) as [_ Hformat].
  split; [apply Hended; discriminate|].
  split.
  - exact (Hillegal
             (Miniature.session_row (Miniature.position_fen Miniature.AfterG5)
                ["e2e4"; "f7f6"; "d2d4"; "g7g5"])
             Miniature.AfterG5 eq_refl eq_refl eq_refl eq_refl).
  - exact (Hformat
             (Miniature.session_row (Miniature.position_fen Miniature.AfterG5)
                ["e2e4"; "f7f6"; "d2d4"; "g7g5"])
             Miniature.AfterG5 eq_refl eq_refl eq_refl I).
Defined.

(** ** The bot's reply *)

(** C5, as stated, fails: white mates with d1h5 in a game with no black
    player.  The call succeeds, black is to move in the position reached and
    the black player is absent, yet the engine is not asked for a reply,
    because the game has ended. *)
Lemma bot_not_asked_after_mating_move :
  let call :=
    GameService.make_move Miniature.engine 103 (Miniature.before_mate None) 1
      "d1h5" None in
  fst (fst call)
  = Returned (true, "Game ended: white_won",
              Some (Miniature.position_fen Miniature.Mated), None)
  /\ ~ (snd call <> []
        <-> (Game.black_player_id (Miniature.game_row None IN_PROGRESS) = None
             /\ turn (ChessLib := Miniature.rules) Miniature.Mated = false)).
Proof.
  split; [reflexivity|].
  intros [_ H]. apply H; [split; reflexivity|reflexivity].
Qed.

Section BotReply.
Context {lib : ChessLib}.

Lemma bot_reply_asks (engine : ChessEngine.t) (now : Z) (db : store) (game : Game.t)
    (session : GameSession.t) (board : Board) (new_fen : string)
    (move_history : list string) :
  snd (GameService.bot_reply engine now db game session board new_fen move_history)
  = [board].
Proof.
  unfold GameService.bot_reply.
  destruct (ChessEngine.get_best_move engine board) as [[bm|]|]; try reflexivity.
  destruct (push board bm) as [board2|]; [|reflexivity].
  destruct (ChessEngine.get_game_result board2); [|reflexivity].
  destruct (GameService._generate_pgn board2 (move_history ++ [uci bm])); reflexivity.
Qed.

Lemma bot_reply_applied (engine : ChessEngine.t) (now : Z) (db : store)
    (game : Game.t) (old session : GameSession.t) (board board2 : Board)
    (new_fen : string) (move_history : list string) (game_id : Z) (bm : Move) :
  GameService.get_game_session db game_id = Some old ->
  GameSession.game_id session = game_id ->
  ChessEngine.get_best_move engine board = ChessEngine.BestMove (Some bm) ->
  push board bm = Some board2 ->
  let call :=
    GameService.bot_reply engine now db game session board new_fen move_history in
  (exists message,
     fst (fst call) = Returned (true, message, Some (fen board2), Some (uci bm)))
  /\ GameService.get_game_session (snd (fst call)) game_id
     = Some (GameSession.set_position session (fen board2)
               (move_history ++ [uci bm]) now).
Proof.
  intros Hold Hid Hbest Hpush call. subst call. unfold GameService.bot_reply.
  rewrite Hbest, Hpush.
  assert (Hs : GameService.get_game_session
                 (GameService.commit_session db
                    (GameSession.set_position session (fen board2)
                       (move_history ++ [uci bm]) now)) game_id
               = Some (GameSession.set_position session (fen board2)
                         (move_history ++ [uci bm]) now)).
  { apply (get_game_session_commit db game_id old); [exact Hold|exact Hid]. }
  destruct (ChessEngine.get_game_result board2) as [game_result|].
  - destruct (GameService._generate_pgn board2 (move_history ++ [uci bm])); simpl;
      (split; [eexists; reflexivity|exact Hs]).
  - simpl. split; [eexists; reflexivity|exact Hs].
Qed.

(** C5, amended: once the submitted move has been applied, the engine is
    asked for a reply exactly when the position reached is not terminal, the
    game has no black player and black is to move there.  A move the engine
    then produces is applied (when it can be pushed): it is returned as the
    bot's move and logged after the player's move.  When the engine is not
    asked, no bot move is returned. *)
Theorem bot_asked_iff_live_game_and_bots_turn
    (engine : ChessEngine.t) (now : Z) (db : store) (game_id : Z)
    (move_uci : string) (player_id : option Z) (game : Game.t)
    (session : GameSession.t) (board board1 : Board) (move : Move) :
  GameService.get_game db game_id = Some game ->
  Game.status game = IN_PROGRESS ->
  GameService.get_game_session db game_id = Some session ->
  board_of_fen (GameSession.current_fen session) = Some board ->
  from_uci move_uci = Some move ->
  legal board move = true ->
  push board move = Some board1 ->
  let call := GameService.make_move engine now db game_id move_uci player_id in
  let asked := snd call in
  (asked = [board1] \/ asked = [])
  /\ (asked = [board1]
      <-> (ChessEngine.get_game_result board1 = None
           /\ Game.black_player_id game = None
           /\ turn board1 = false))
  /\ (asked = [board1] ->
      forall (bm : Move) (board2 : Board),
        ChessEngine.get_best_move engine board1 = ChessEngine.BestMove (Some bm) ->
        push board1 bm = Some board2 ->
        (exists message,
           fst (fst call) = Returned (true, message, Some (fen board2), Some (uci bm)))
        /\ GameService.get_game_session (snd (fst call)) game_id
           = Some (GameSession.set_position session (fen board2)
                     ((GameSession.move_history session ++ [move_uci]) ++ [uci bm])
                     now))
  /\ (asked = [] ->
      forall r : GameService.move_result, fst (fst call) = Returned r -> snd r = None).
Proof.
  intros Hgame Hstatus Hsession Hboard Hmove Hlegal Hpush call asked.
  subst asked call. unfold GameService.make_move.
  rewrite Hgame, Hstatus, Hsession, Hboard, Hmove, Hlegal, Hpush. simpl.
  destruct (ChessEngine.get_game_result board1) as [game_result|] eqn:Hresult.
  - destruct (GameService._generate_pgn board1
                (GameSession.move_history session ++ [move_uci])); simpl.
    + split; [right; reflexivity|]. split; [|split].
      * split; [discriminate|intros [H _]; discriminate H].
      * discriminate.
      * intros _ r Hr. injection Hr as <-. reflexivity.
    + split; [right; reflexivity|]. split; [|split].
      * split; [discriminate|intros [H _]; discriminate H].
      * discriminate.
      * intros _ r Hr. discriminate Hr.
  - destruct (Game.black_player_id game) as [black|] eqn:Hblack; simpl.
    + split; [right; reflexivity|]. split; [|split].
      * split; [discriminate|intros [_ [H _]]; discriminate H].
      * discriminate.
      * intros _ r Hr. injection Hr as <-. reflexivity.
    + destruct (turn board1) eqn:Hturn; simpl.
      * split; [right; reflexivity|]. split; [|split].
        -- split; [discriminate|intros [_ [_ H]]; discriminate H].
        -- discriminate.
        -- intros _ r Hr. injection Hr as <-. reflexivity.
      * rewrite bot_reply_asks.
        split; [left; reflexivity|]. split; [|split].
        -- split; [intros _; repeat split; reflexivity|reflexivity].
        -- intros _ bm board2 Hbest Hpush2.
           pose (session1 :=
                   GameSession.set_position session (fen board1)
                     (GameSession.move_history session ++ [move_uci]) now).
           assert (Hid : GameSession.game_id session1 = game_id).
           { simpl. exact (get_game_session_id db game_id session Hsession). }
           exact (bot_reply_applied engine now
                    (GameService.commit_session db session1) game session1 session1
                    board1 board2 (fen board1)
                    (GameSession.move_history session ++ [move_uci]) game_id bm
                    (get_game_session_commit db game_id session session1 Hsession Hid)
                    Hid Hbest Hpush2).
        -- discriminate.
Qed.

End BotReply.

(** When the engine cannot be reached the player's move still stands: the
    call succeeds with no bot move and the session holds the player's ply. *)
Lemma engine_failure_keeps_player_move :
  let call := GameService.make_move Miniature.silent_engine 101 Miniature.created 1
                "e2e4" None in
  call = (Returned (true, "Move successful",
                    Some (Miniature.position_fen Miniature.AfterE4), None),
          snd (fst call), [Miniature.AfterE4])
  /\ GameService.get_game_session (snd (fst call)) 1
     = Some {| GameSession.id := 1; GameSession.game_id := 1;
               GameSession.current_fen := Miniature.position_fen Miniature.AfterE4;
               GameSession.move_history := ["e2e4"];
               GameSession.last_move_at := 101; GameSession.created_at := 100 |}.
Proof. split; reflexivity. Qed.

(** White opens with e2e4 against the bot: the engine is asked about the
    position after e2e4 and its answer f7f6 is returned and logged. *)
Lemma bot_asked_iff_live_game_and_bots_turn_witness :
  let call := GameService.make_move Miniature.engine 101 Miniature.created 1
                "e2e4" None in
  snd call = [Miniature.AfterE4]
  /\ (exists message,
        fst (fst call)
        = Returned (true, message, Some (Miniature.position_fen Miniature.AfterF6),
                    Some "f7f6"))
  /\ GameService.get_game_session (snd (fst call)) 1
     = Some {| GameSession.id := 1; GameSession.game_id := 1;
               GameSession.current_fen := Miniature.position_fen Miniature.AfterF6;
               GameSession.move_history := ["e2e4"; "f7f6"];
               GameSession.last_move_at := 101; GameSession.created_at := 100 |}.
Proof.
  intros call.
  destruct (bot_asked_iff_live_game_and_bots_turn (lib := Miniature.rules)
              Miniature.engine 101 Miniature.created 1 "e2e4" None
              {| Game.id := 1; Game.white_player_id := Some 7;
                 Game.black_player_id := None; Game.pgn := None;
                 Game.status := IN_PROGRESS; Game.started_at := 100;
                 Game.ended_at := None; Game.created_at := 100 |}
              {| GameSession.id := 1; GameSession.game_id := 1;
                 GameSession.current_fen := Miniature.position_fen Miniature.Start;
                 GameSession.move_history := [];
                 GameSession.last_move_at := 100; GameSession.created_at := 100 |}
              Miniature.Start Miniature.AfterE4 Miniature.e2e4
              eq_refl eq_refl eq_refl eq_refl eq_refl eq_refl eq_refl)
    as [_ [Hiff [Happlied _]]].
  assert (Hasked : snd call = [Miniature.AfterE4]).
  { apply Hiff. repeat split; reflexivity. }
  split; [exact Hasked|].
  exact (Happlied Hasked Miniature.f7f6 Miniature.AfterF6 eq_refl eq_refl).
Defined.

(** ** The end of a game *)

Section GameEnd.
Context {lib : ChessLib}.

Lemma game_result_live (b : Board) :
  terminal b = false -> ChessEngine.get_game_result b = None.
Proof.
  unfold terminal, ChessEngine.get_game_result. intros H.
  destruct (is_checkmate b); [discriminate H|].
  destruct (is_stalemate b); [discriminate H|].
  destruct (is_insufficient_material b); [discriminate H|].
  destruct (is_repetition b 3); [discriminate H|].
  destruct (150 <=? halfmove_clock b); [discriminate H|reflexivity].
Qed.

Lemma game_result_terminal (b b1 : Board) (m : Move) :
  push_passes_turn lib ->
  push b m = Some b1 ->
  terminal b1 = true ->
  ChessEngine.get_game_result b1
  = Some (GameStatus_value (ended_status (turn b) b1))
  /\ GameService.status_of_result (GameStatus_value (ended_status (turn b) b1))
     = ended_status (turn b) b1.
Proof.
  intros Hturn Hpush H.
  unfold terminal in H. unfold ChessEngine.get_game_result, ended_status.
  rewrite (Hturn b b1 m Hpush).
  destruct (is_checkmate b1).
  - destruct (turn b); split; reflexivity.
  - destruct (is_stalemate b1); [split; reflexivity|].
    destruct (is_insufficient_material b1); [split; reflexivity|].
    destruct (is_repetition b1 3); [split; reflexivity|].
    destruct (150 <=? halfmove_clock b1); [split; reflexivity|discriminate H].
Qed.

Lemma replay_entries_parse (b c : Board) (h : list string) :
  GameService.replay b h = GameService.Position c ->
  Forall (fun u => from_uci u <> None) h.
Proof.
  revert b.
  induction h as [|x rest IH]; intros b Hb; [constructor|].
  simpl in Hb.
  destruct (from_uci x) as [m|] eqn:Hx; [|discriminate].
  destruct (push b m) as [b1|]; [|discriminate].
  constructor; [congruence|exact (IH b1 Hb)].
Qed.

Context {laws : FenLaws lib}.

(** The game record can always be generated from a log of moves. *)
Lemma pgn_mainline_total (h : list string) (b : Board) :
  Forall (fun u => from_uci u <> None) h ->
  exists ms, GameService.pgn_mainline b h = Some ms.
Proof.
  intros Hh. revert b.
  induction Hh as [|x rest Hx _ IH]; intros b; simpl.
  - exists []. reflexivity.
  - destruct (from_uci x) as [m|]; [|contradiction Hx; reflexivity].
    destruct (legal b m) eqn:Hlegal; [|apply IH].
    destruct (legal_push b m Hlegal) as [b1 ->].
    destruct (IH b1) as [ms ->]. exists (m :: ms). reflexivity.
Qed.

Lemma generate_pgn_total (board : Board) (h : list string) :
  Forall (fun u => from_uci u <> None) h ->
  exists pgn, GameService._generate_pgn board h = Some pgn.
Proof.
  intros Hh. unfold GameService._generate_pgn.
  destruct (pgn_mainline_total h starting_board Hh) as [ms ->].
  exists (pgn_text ms). reflexivity.
Qed.

End GameEnd.

(** ** Game creation *)

Lemma next_id_above (ids : list Z) (i : Z) : In i ids -> i < next_id ids.
Proof.
  unfold next_id. induction ids as [|x rest IH]; simpl; intros Hin.
  - contradiction.
  - destruct Hin as [->|Hin]; [lia|]. specialize (IH Hin). lia.
Qed.

Lemma find_fresh_last {A : Type} (p : A -> bool) (rows : list A) (new : A) :
  (forall r, In r rows -> p r = false) -> p new = true ->
  find p (rows ++ [new]) = Some new.
Proof.
  intros Hrows Hnew. induction rows as [|r rest IH]; simpl.
  - rewrite Hnew. reflexivity.
  - rewrite (Hrows r (or_introl eq_refl)).
    apply IH. intros r' Hr'. apply Hrows. right. exact Hr'.
Qed.

(** The service stores whatever black player it is given: the bot flag
    plays no part in it. *)
Lemma service_create_game_black_player {lib : ChessLib} (now : Z) (db : store)
    (white black : option Z) (bot : bool) :
  Game.black_player_id (fst (GameService.create_game now db white black bot)) = black.
Proof. reflexivity. Qed.

(** C7: a game created through the creation endpoint with the bot flag set
    has no black player, whatever black player the request names; it is the
    game stored under the returned id, it is in progress, and its session
    starts from the starting position with an empty log. *)
Theorem bot_game_has_no_black_player {lib : ChessLib} (now : Z) (db : store)
    (game_data : GamesApi.GameCreate) :
  GamesApi.is_bot_game game_data = true ->
  let game := fst (GamesApi.create_game now db game_data) in
  let db' := snd (GamesApi.create_game now db game_data) in
  Game.black_player_id game = None
  /\ Game.status game = IN_PROGRESS
  /\ GameService.get_game db' (Game.id game) = Some game
  /\ exists session,
       GameService.get_game_session db' (Game.id game) = Some session
       /\ GameSession.current_fen session = fen starting_board
       /\ GameSession.move_history session = [].
Proof.
  intros Hbot game db'. subst game db'.
  unfold GamesApi.create_game. rewrite Hbot.
  unfold GameService.create_game. simpl.
  split; [reflexivity|]. split; [reflexivity|]. split.
  - unfold GameService.get_game. simpl.
    apply find_fresh_last; simpl; [|lia].
    intros r Hr.
    pose proof (next_id_above (map Game.id (games db)) (Game.id r)
                  (in_map Game.id _ _ Hr)).
    lia.
  - eexists. split.
    + unfold GameService.get_game_session. simpl.
      rewrite Z.eqb_refl. reflexivity.
    + split; reflexivity.
Qed.

(** A bot game requested with black player 9. *)
Lemma bot_game_has_no_black_player_witness :
  let data :=
    {| GamesApi.white_player_id := Some 7; GamesApi.black_player_id := Some 9;
       GamesApi.is_bot_game := true; GamesApi.bot_difficulty := Some 10 |} in
  let game := fst (GamesApi.create_game (lib := Miniature.rules) 100
                     Miniature.no_rows data) in
  let db' := snd (GamesApi.create_game (lib := Miniature.rules) 100
                    Miniature.no_rows data) in
  Game.black_player_id game = None
  /\ Game.status game = IN_PROGRESS
  /\ GameService.get_game db' (Game.id game) = Some game
  /\ exists session,
       GameService.get_game_session db' (Game.id game) = Some session
       /\ GameSession.current_fen session = Miniature.position_fen Miniature.Start
       /\ GameSession.move_history session = [].
Proof.
  exact (bot_game_has_no_black_player (lib := Miniature.rules) 100 Miniature.no_rows
           {| GamesApi.white_player_id := Some 7; GamesApi.black_player_id := Some 9;
              GamesApi.is_bot_game := true; GamesApi.bot_difficulty := Some 10 |}
           eq_refl).
Defined.

(** ** Puzzle attempts *)

Section Puzzles.
Context {lib : ChessLib}.

(** The replay of the solution never finds more moves than the solution
    has. *)
Lemma solution_progress_bounds (l : list string) (b b' : Board) (i j : nat) :
  PuzzleService.solution_progress b l i = Some (b', j) ->
  (i <= j <= i + length l)%nat.
Proof.
  revert b i.
  induction l as [|x rest IH]; intros b i H; simpl in H.
  - injection H as _ <-. simpl. lia.
  - destruct (from_uci x) as [m|]; [|injection H as _ <-; simpl; lia].
    destruct (legal b m); [|injection H as _ <-; simpl; lia].
    destruct (push b m) as [b1|]; [|discriminate H].
    apply IH in H. simpl. lia.
Qed.

(** A stored solution that can be played through from the puzzle's position
    puts the progress at its end before any move has been submitted: every
    attempt, the first correct move included, is answered with "already
    solved". *)
Lemma attempt_playable_solution (now : Z) (db : store) (puzzle_id : Z)
    (move_uci : string) (user_id : option Z) (puzzle : Puzzle.t)
    (solution_moves : list string) (board0 board : Board) :
  PuzzleService.get_puzzle db puzzle_id = Some puzzle ->
  Puzzle.moves puzzle = Some solution_moves ->
  solution_moves <> [] ->
  board_of_fen (Puzzle.fen puzzle) = Some board0 ->
  PuzzleService.solution_progress board0 solution_moves 0
  = Some (board, length solution_moves) ->
  PuzzleService.attempt_puzzle now db puzzle_id move_uci user_id
  = (Returned (false, "Puzzle already solved", None, true), db).
Proof.
  intros Hpuzzle Hmoves Hne Hboard Hprogress.
  unfold PuzzleService.attempt_puzzle. rewrite Hpuzzle, Hmoves.
  destruct solution_moves as [|x rest]; [contradiction Hne; reflexivity|].
  rewrite Hboard, Hprogress. rewrite Nat.leb_refl. reflexivity.
Qed.

(** C10: an attempt in which the submitted text is not a move, or the puzzle
    is missing, or its solution or position cannot be used, or the puzzle is
    reported as already solved, leaves the database as it was, and with it
    the user's stat row (solved and failed counts, time of the last
    attempt), whether or not a user is named. *)
Theorem attempt_without_comparison_keeps_stats (now : Z) (db : store)
    (puzzle_id : Z) (move_uci : string) (user_id : option Z) :
  from_uci move_uci = None
  \/ PuzzleService.get_puzzle db puzzle_id = None
  \/ (exists puzzle,
        PuzzleService.get_puzzle db puzzle_id = Some puzzle
        /\ (Puzzle.moves puzzle = None \/ Puzzle.moves puzzle = Some []
            \/ board_of_fen (Puzzle.fen puzzle) = None))
  \/ (exists correct next_move is_complete,
        fst (PuzzleService.attempt_puzzle now db puzzle_id move_uci user_id)
        = Returned (correct, "Puzzle already solved", next_move, is_complete)) ->
  snd (PuzzleService.attempt_puzzle now db puzzle_id move_uci user_id) = db
  /\ user_puzzles
       (snd (PuzzleService.attempt_puzzle now db puzzle_id move_uci user_id))
     = user_puzzles db.
Proof.
  intros Hpath.
  assert (Hdb : snd (PuzzleService.attempt_puzzle now db puzzle_id move_uci user_id)
                = db); [|rewrite Hdb; split; reflexivity].
  unfold PuzzleService.attempt_puzzle in *.
  destruct (PuzzleService.get_puzzle db puzzle_id) as [puzzle|]; [|reflexivity].
  destruct (Puzzle.moves puzzle) as [[|x rest]|] eqn:Hmoves; try reflexivity.
  destruct (board_of_fen (Puzzle.fen puzzle)) as [board0|] eqn:Hboard;
    [|reflexivity].
  destruct (PuzzleService.solution_progress board0 (x :: rest) 0)
    as [[board i]|]; [|reflexivity].
  destruct (length (x :: rest) <=? i)%nat; [reflexivity|].
  destruct (nth_error (x :: rest) i) as [expected|]; [|reflexivity].
  destruct (from_uci move_uci) as [user_move|] eqn:Hmove; [|reflexivity].
  exfalso.
  destruct Hpath as [H|[H|[[p [Hp H]]|[c [n [k H]]]]]].
  - discriminate H.
  - discriminate H.
  - injection Hp as <-. rewrite Hmoves, Hboard in H.
    destruct H as [H|[H|H]]; discriminate H.
  - destruct (String.eqb (uci user_move) expected).
    + destruct (push board user_move); simpl in H; [|discriminate H].
      injection H as _ H _ _. discriminate H.
    + simpl in H. injection H as _ H. discriminate H.
Qed.

(** The database changes only in the two branches that follow the
    comparison of the submitted move with the expected one. *)
Lemma stats_change_only_after_comparison (now : Z) (db : store) (puzzle_id : Z)
    (move_uci : string) (user_id : option Z) :
  snd (PuzzleService.attempt_puzzle now db puzzle_id move_uci user_id) <> db ->
  exists (user_move : Move) (correct : bool) (next_move : option string)
         (is_complete : bool),
    from_uci move_uci = Some user_move
    /\ fst (PuzzleService.attempt_puzzle now db puzzle_id move_uci user_id)
       = Returned (correct,
                   if correct then "Correct move!" else "Incorrect move. Try again!",
                   next_move, is_complete).
Proof.
  unfold PuzzleService.attempt_puzzle.
  destruct (PuzzleService.get_puzzle db puzzle_id) as [puzzle|];
    [|intros H; contradiction H; reflexivity].
  destruct (Puzzle.moves puzzle) as [[|x rest]|];
    try (intros H; contradiction H; reflexivity).
  destruct (board_of_fen (Puzzle.fen puzzle)) as [board0|];
    [|intros H; contradiction H; reflexivity].
  destruct (PuzzleService.solution_progress board0 (x :: rest) 0) as [[board i]|];
    [|intros H; contradiction H; reflexivity].
  destruct (length (x :: rest) <=? i)%nat;
    [intros H; contradiction H; reflexivity|].
  destruct (nth_error (x :: rest) i) as [expected|];
    [|intros H; contradiction H; reflexivity].
  destruct (from_uci move_uci) as [user_move|];
    [|intros H; contradiction H; reflexivity].
  destruct (String.eqb (uci user_move) expected).
  - destruct (push board user_move); [|intros H; contradiction H; reflexivity].
    intros _. exists user_move, true. eexists. eexists. split; reflexivity.
  - intros _. exists user_move, false, None, false. split; reflexivity.
Qed.

End Puzzles.

(** Text that is not a move, submitted by user 7. *)
Lemma attempt_without_comparison_keeps_stats_witness :
  snd (PuzzleService.attempt_puzzle (lib := Miniature.rules) 200
         (Miniature.puzzle_rows None) 1 "castle" (Some 7))
  = Miniature.puzzle_rows None
  /\ user_puzzles
       (snd (PuzzleService.attempt_puzzle (lib := Miniature.rules) 200
               (Miniature.puzzle_rows None) 1 "castle" (Some 7)))
     = [Miniature.stat_row None].
Proof.
  apply (attempt_without_comparison_keeps_stats (lib := Miniature.rules) 200
           (Miniature.puzzle_rows None) 1 "castle" (Some 7)).
  left. reflexivity.
Defined.

(** C2: the first correct move of a puzzle is not accepted.  The puzzle
    starts from the starting position and its solution is e2e4, f7f6; user 7
    submits e2e4, the first solution move.  The replay of the stored solution
    has already run to its end, so the answer is "already solved" with
    [correct] false and [is_complete] true, and nothing is recorded. *)
Theorem first_solution_move_reported_already_solved :
  PuzzleService.attempt_puzzle (lib := Miniature.rules) 200
    (Miniature.puzzle_rows None) 1 "e2e4" (Some 7)
  = (Returned (false, "Puzzle already solved", None, true),
     Miniature.puzzle_rows None).
Proof. reflexivity. Qed.

(** ** User statistics *)

Lemma fold_left_add_counter (counter : UserPuzzle.t -> Z) (rows : list UserPuzzle.t)
    (start : Z) :
  fold_left Z.add (map counter rows) start = start + counter_sum counter rows.
Proof.
  revert start. induction rows as [|up rest IH]; intros start; simpl.
  - lia.
  - rewrite IH. lia.
Qed.

(** The totals are the sums of the counters over the user's rows. *)
Lemma get_user_stats_totals (fl : PyFloat) (db : store) (user_id : Z) :
  let rows :=
    List.filter (fun up => UserPuzzle.user_id up =? user_id) (user_puzzles db) in
  PuzzleService.total_solved (PuzzleService.get_user_stats fl db user_id)
  = counter_sum UserPuzzle.solved rows
  /\ PuzzleService.total_failed (PuzzleService.get_user_stats fl db user_id)
     = counter_sum UserPuzzle.failed rows.
Proof.
  simpl. rewrite !fold_left_add_counter. split; lia.
Qed.

(** The dictionary loop: under each difficulty, the sums over the rows of
    that difficulty, added to what the dictionary held before; a difficulty
    without rows keeps its entry, or has none. *)
Lemma add_to_difficulty_groups (db : store) (rows : list UserPuzzle.t)
    (acc : gmap string PuzzleService.tally) (d : string) :
  fold_left (PuzzleService.add_to_difficulty db) rows acc !! d
  = match rows_of_difficulty db d rows with
    | [] => acc !! d
    | group =>
        let base :=
          match acc !! d with
          | Some t => t
          | None => {| PuzzleService.solved := 0; PuzzleService.failed := 0 |}
          end in
        Some {| PuzzleService.solved :=
                  PuzzleService.solved base + counter_sum UserPuzzle.solved group;
                PuzzleService.failed :=
                  PuzzleService.failed base + counter_sum UserPuzzle.failed group |}
    end.
Proof.
  revert acc. induction rows as [|up rest IH]; intros acc; simpl; [reflexivity|].
  rewrite IH. unfold PuzzleService.add_to_difficulty.
  destruct (PuzzleService.get_puzzle db (UserPuzzle.puzzle_id up)) as [puzzle|];
    [|reflexivity].
  destruct (String.eqb_spec (PuzzleDifficulty_value (Puzzle.difficulty puzzle)) d)
    as [->|Hne].
  - rewrite lookup_insert_eq. simpl.
    destruct (rows_of_difficulty db d rest) as [|r group]; simpl.
    + f_equal. f_equal; lia.
    + f_equal. f_equal; lia.
  - rewrite lookup_insert_ne by exact Hne. reflexivity.
Qed.

(** The per-difficulty entries of the statistics are the sums over the
    user's rows of each difficulty. *)
Lemma get_user_stats_by_difficulty (fl : PyFloat) (db : store) (user_id : Z)
    (d : string) :
  let rows :=
    List.filter (fun up => UserPuzzle.user_id up =? user_id) (user_puzzles db) in
  PuzzleService.puzzles_by_difficulty (PuzzleService.get_user_stats fl db user_id) !! d
  = match rows_of_difficulty db d rows with
    | [] => None
    | group =>
        Some {| PuzzleService.solved := counter_sum UserPuzzle.solved group;
                PuzzleService.failed := counter_sum UserPuzzle.failed group |}
    end.
Proof.
  simpl. rewrite add_to_difficulty_groups. rewrite lookup_empty.
  destruct (rows_of_difficulty db d _); reflexivity.
Qed.

(** The best time is taken over exactly the recorded times when none of
    them is zero, and is absent exactly when there is none to take it
    over. *)
Lemma truthy_best_times_recorded (rows : list UserPuzzle.t) :
  Forall
    (fun up =>
       forall t, UserPuzzle.best_time_seconds up = Some t -> float_truthy t = true)
    rows ->
  PuzzleService.truthy_best_times rows
  = flat_map
      (fun up =>
         match UserPuzzle.best_time_seconds up with
         | Some t => [t]
         | None => []
         end)
      rows.
Proof.
  intros H. unfold PuzzleService.truthy_best_times.
  induction H as [|up rest Hup _ IH]; simpl; [reflexivity|].
  rewrite IH.
  destruct (UserPuzzle.best_time_seconds up) as [t|]; [|reflexivity].
  rewrite (Hup t eq_refl). reflexivity.
Qed.

Lemma py_min_absent (items : list float) : py_min items = None <-> items = [].
Proof.
  destruct items; simpl; split; intros H; try reflexivity; discriminate H.
Qed.

(** C9: a recorded best time of zero seconds is not counted.  User 7 has one
    stat row, with best time 0.0: the statistics report no best time, where
    the minimum over the rows with a recorded time is 0.0.  The same row
    with best time 12.5 reports 12.5. *)
Theorem zero_best_time_is_not_reported (fl : PyFloat) :
  UserPuzzle.best_time_seconds (Miniature.stat_row (Some 0%float)) = Some 0%float
  /\ PuzzleService.best_time_seconds
       (PuzzleService.get_user_stats fl (Miniature.puzzle_rows (Some 0%float)) 7)
     = None
  /\ PuzzleService.best_time_seconds
       (PuzzleService.get_user_stats fl (Miniature.puzzle_rows (Some 12.5%float)) 7)
     = Some 12.5%float.
Proof.
  split; [reflexivity|]. split; reflexivity.
Qed.

(** * Further properties of the services *)

(** ** Rows of other games *)

Lemma find_update_first_other {A : Type} (p q : A -> bool) (new : A) (rows : list A) :
  (forall r, p r = true -> q r = false) -> q new = false ->
  find q (update_first p new rows) = find q rows.
Proof.
  intros Hpq Hnew. induction rows as [|r rest IH]; simpl; [reflexivity|].
  destruct (p r) eqn:Hp; simpl.
  - rewrite Hnew, (Hpq r Hp). reflexivity.
  - destruct (q r); [reflexivity|exact IH].
Qed.

Section Frames.
Context {lib : ChessLib}.

Lemma same_elsewhere_refl (game_id : Z) (db : store) : same_elsewhere game_id db db.
Proof.
  split; [|split; reflexivity]. intros other _. split; reflexivity.
Qed.

Lemma same_elsewhere_trans (game_id : Z) (db1 db2 db3 : store) :
  same_elsewhere game_id db1 db2 -> same_elsewhere game_id db2 db3 ->
  same_elsewhere game_id db1 db3.
Proof.
  intros [H12 [Hp12 Hu12]] [H23 [Hp23 Hu23]].
  split; [|split; congruence].
  intros other Hne. destruct (H12 other Hne) as [Ha Hb].
  destruct (H23 other Hne) as [Hc Hd]. split; congruence.
Qed.

Lemma commit_session_elsewhere (db : store) (s : GameSession.t) :
  same_elsewhere (GameSession.game_id s) db (GameService.commit_session db s).
Proof.
  split; [|split; reflexivity]. intros other Hne. split; [reflexivity|].
  unfold GameService.get_game_session, GameService.commit_session. simpl.
  apply find_update_first_other; intros; lia.
Qed.

Lemma commit_game_elsewhere (db : store) (g : Game.t) :
  same_elsewhere (Game.id g) db (GameService.commit_game db g).
Proof.
  split; [|split; reflexivity]. intros other Hne. split; [|reflexivity].
  unfold GameService.get_game, GameService.commit_game. simpl.
  apply find_update_first_other; intros; lia.
Qed.

Lemma bot_reply_elsewhere (engine : ChessEngine.t) (now : Z) (db : store)
    (game : Game.t) (session : GameSession.t) (board : Board) (new_fen : string)
    (move_history : list string) (game_id : Z) :
  Game.id game = game_id ->
  GameSession.game_id session = game_id ->
  same_elsewhere game_id db
    (snd (fst (GameService.bot_reply engine now db game session board new_fen
                 move_history))).
Proof.
  intros Hg Hs. unfold GameService.bot_reply.
  destruct (ChessEngine.get_best_move engine board) as [[bm|]|]; simpl;
    try apply same_elsewhere_refl.
  destruct (push board bm) as [board2|]; simpl; [|apply same_elsewhere_refl].
  pose proof (commit_session_elsewhere db
                (GameSession.set_position session (fen board2)
                   (move_history ++ [uci bm]) now)) as Hc.
  simpl in Hc. rewrite Hs in Hc.
  destruct (ChessEngine.get_game_result board2) as [game_result|]; simpl; [|exact Hc].
  destruct (GameService._generate_pgn board2 (move_history ++ [uci bm])); simpl;
    [|exact Hc].
  eapply same_elsewhere_trans; [exact Hc|].
  pose proof (commit_game_elsewhere
                (GameService.commit_session db
                   (GameSession.set_position session (fen board2)
                      (move_history ++ [uci bm]) now))
                (Game.set_result game (GameService.status_of_result game_result)
                   (Some now) (Some s))) as Hg2.
  simpl in Hg2. rewrite Hg in Hg2. exact Hg2.
Qed.

(** X1: a move in one game, accepted or not, with or without a bot reply,
    changes nothing that belongs to another game: every other game and its
    session are found as before, and the puzzle tables are untouched. *)
Theorem make_move_leaves_other_games (engine : ChessEngine.t) (now : Z) (db : store)
    (game_id : Z) (move_uci : string) (player_id : option Z) (other : Z) :
  other <> game_id ->
  let db' :=
    snd (fst (GameService.make_move engine now db game_id move_uci player_id)) in
  GameService.get_game db' other = GameService.get_game db other
  /\ GameService.get_game_session db' other = GameService.get_game_session db other
  /\ puzzles db' = puzzles db
  /\ user_puzzles db' = user_puzzles db.
Proof.
  intros Hne db'.
  assert (H : same_elsewhere game_id db db').
  { subst db'. unfold GameService.make_move.
    destruct (GameService.get_game db game_id) as [game|] eqn:Hgame;
      [|apply same_elsewhere_refl].
    destruct (negb (GameStatus_eqb (Game.status game) IN_PROGRESS));
      [apply same_elsewhere_refl|].
    destruct (GameService.get_game_session db game_id) as [session|] eqn:Hsession;
      [|apply same_elsewhere_refl].
    destruct (board_of_fen (GameSession.current_fen session)) as [board|];
      [|apply same_elsewhere_refl].
    destruct (from_uci move_uci) as [move|]; [|apply same_elsewhere_refl].
    destruct (negb (legal board move)); [apply same_elsewhere_refl|].
    destruct (push board move) as [board1|]; [|apply same_elsewhere_refl].
    pose proof (get_game_id db game_id game Hgame) as Hgid.
    pose proof (get_game_session_id db game_id session Hsession) as Hsid.
    pose proof (commit_session_elsewhere db
                  (GameSession.set_position session (fen board1)
                     (GameSession.move_history session ++ [move_uci]) now)) as Hc.
    simpl in Hc. rewrite Hsid in Hc.
    destruct (ChessEngine.get_game_result board1) as [game_result|].
    - destruct (GameService._generate_pgn board1
                  (GameSession.move_history session ++ [move_uci])) as [pgn|];
        simpl; [|exact Hc].
      eapply same_elsewhere_trans; [exact Hc|].
      pose proof (commit_game_elsewhere
                    (GameService.commit_session db
                       (GameSession.set_position session (fen board1)
                          (GameSession.move_history session ++ [move_uci]) now))
                    (Game.set_result game (GameService.status_of_result game_result)
                       (Some now) (Some pgn))) as Hg2.
      simpl in Hg2. rewrite Hgid in Hg2. exact Hg2.
    - destruct (GameService.is_none (Game.black_player_id game) && negb (turn board1));
        simpl; [|exact Hc].
      eapply same_elsewhere_trans; [exact Hc|].
      apply bot_reply_elsewhere; [exact Hgid|simpl; exact Hsid]. }
  destruct H as [Hother [Hp Hu]]. destruct (Hother other Hne) as [Hg Hs].
  repeat split; assumption.
Qed.

(** X2: an undo in one game changes nothing that belongs to another game. *)
Theorem undo_move_leaves_other_games (now : Z) (db : store) (game_id num_moves : Z)
    (other : Z) :
  other <> game_id ->
  let db' := snd (GameService.undo_move now db game_id num_moves) in
  GameService.get_game db' other = GameService.get_game db other
  /\ GameService.get_game_session db' other = GameService.get_game_session db other
  /\ puzzles db' = puzzles db
  /\ user_puzzles db' = user_puzzles db.
Proof.
  intros Hne db'.
  assert (H : same_elsewhere game_id db db').
  { subst db'. unfold GameService.undo_move.
    destruct (GameService.get_game db game_id) as [game|] eqn:Hgame;
      [|apply same_elsewhere_refl].
    destruct (GameService.get_game_session db game_id) as [session|] eqn:Hsession;
      [|apply same_elsewhere_refl].
    destruct (Z.of_nat (length (GameSession.move_history session)) <? num_moves);
      [apply same_elsewhere_refl|].
    destruct (GameService.replay starting_board
                (slice_to (GameSession.move_history session) (- num_moves)))
      as [board| |]; try apply same_elsewhere_refl.
    simpl.
    pose proof (get_game_id db game_id game Hgame) as Hgid.
    pose proof (get_game_session_id db game_id session Hsession) as Hsid.
    eapply same_elsewhere_trans.
    - pose proof (commit_session_elsewhere db
                    (GameSession.set_position session (fen board)
                       (slice_to (GameSession.move_history session) (- num_moves))
                       now)) as Hc.
      simpl in Hc. rewrite Hsid in Hc. exact Hc.
    - match goal with
      | |- same_elsewhere _ ?d (GameService.commit_game ?d ?g) =>
          pose proof (commit_game_elsewhere d g) as Hg2
      end.
      replace (Game.id (if negb (GameStatus_eqb (Game.status game) IN_PROGRESS)
                        then Game.set_result game IN_PROGRESS None None
                        else game)) with game_id in Hg2; [exact Hg2|].
      destruct (negb (GameStatus_eqb (Game.status game) IN_PROGRESS)); simpl;
        symmetry; exact Hgid. }
  destruct H as [Hother [Hp Hu]]. destruct (Hother other Hne) as [Hg Hs].
  repeat split; assumption.
Qed.

End Frames.

(** ** Logs of legal moves *)

Section LegalLogs.
Context {lib : ChessLib}.

Lemma legal_replay_snoc (b c : Board) (h : list string) (u : string) :
  legal_replay b h = Some c -> legal_replay b (h ++ [u]) = legal_replay c [u].
Proof.
  revert b. induction h as [|x rest IH]; intros b Hb; simpl in *.
  - injection Hb as ->. reflexivity.
  - destruct (from_uci x) as [m|]; [|discriminate].
    destruct (legal b m); [|discriminate].
    destruct (push b m) as [b1|]; [|discriminate].
    apply IH. exact Hb.
Qed.

Lemma legal_replay_firstn (b c : Board) (h : list string) (k : nat) :
  legal_replay b h = Some c -> exists c', legal_replay b (firstn k h) = Some c'.
Proof.
  revert b k. induction h as [|x rest IH]; intros b k Hb.
  - rewrite firstn_nil. exists b. reflexivity.
  - destruct k as [|k]; simpl; [exists b; reflexivity|].
    simpl in Hb.
    destruct (from_uci x) as [m|]; [|discriminate].
    destruct (legal b m); [|discriminate].
    destruct (push b m) as [b1|]; [|discriminate].
    apply IH. exact Hb.
Qed.

Lemma legal_replay_replay (b c : Board) (h : list string) :
  legal_replay b h = Some c -> GameService.replay b h = GameService.Position c.
Proof.
  revert b. induction h as [|x rest IH]; intros b Hb; simpl in *.
  - injection Hb as ->. reflexivity.
  - destruct (from_uci x) as [m|]; [|discriminate].
    destruct (legal b m); [|discriminate].
    destruct (push b m) as [b1|]; [|discriminate].
    apply IH. exact Hb.
Qed.

(** A legal log is a log the record generator takes whole: it skips none of
    its moves. *)
Lemma legal_replay_pgn_mainline (b c : Board) (h : list string) :
  legal_replay b h = Some c ->
  exists ms, GameService.pgn_mainline b h = Some ms /\ map from_uci h = map Some ms.
Proof.
  revert b. induction h as [|x rest IH]; intros b Hb; simpl in *.
  - exists []. split; reflexivity.
  - destruct (from_uci x) as [m|]; [|discriminate].
    destruct (legal b m); [|discriminate].
    destruct (push b m) as [b1|]; [|discriminate].
    destruct (IH b1 Hb) as [ms [Hms Hmap]].
    exists (m :: ms). rewrite Hms. split; [reflexivity|].
    simpl. rewrite Hmap. reflexivity.
Qed.

Context {laws : FenLaws lib}.

Lemma ply_keeps_legal (h : list string) (replayed board board1 : Board)
    (text : string) (m : Move) :
  legal_replay starting_board h = Some replayed ->
  fen board = fen replayed ->
  from_uci text = Some m ->
  legal board m = true ->
  push board m = Some board1 ->
  exists c, legal_replay starting_board (h ++ [text]) = Some c /\ fen c = fen board1.
Proof.
  intros Hh Hfen Htext Hlegal Hpush.
  assert (Hlegal' : legal replayed m = true).
  { rewrite <- (fen_legal board replayed m Hfen). exact Hlegal. }
  destruct (legal_push replayed m Hlegal') as [c Hc].
  exists c. split.
  - rewrite (legal_replay_snoc _ _ _ _ Hh). simpl.
    rewrite Htext, Hlegal', Hc. reflexivity.
  - symmetry. exact (fen_push board replayed board1 c m Hfen Hlegal Hpush Hc).
Qed.

Lemma commit_session_legal (db : store) (s : GameSession.t) :
  session_legal s ->
  Forall session_legal (sessions db) ->
  Forall session_legal (sessions (GameService.commit_session db s)).
Proof.
  intros Hs Hdb. unfold GameService.commit_session. simpl.
  apply update_first_Forall; assumption.
Qed.

Lemma bot_reply_legal (engine : ChessEngine.t) (now : Z) (db : store)
    (game : Game.t) (session : GameSession.t) (board : Board)
    (move_history : list string) (c : Board) :
  engine_sound engine ->
  legal_replay starting_board move_history = Some c ->
  fen c = fen board ->
  Forall session_legal (sessions db) ->
  Forall session_legal
    (sessions
       (snd (fst (GameService.bot_reply engine now db game session board
                    (fen board) move_history)))).
Proof.
  intros Hsound Hc Hfen Hdb. unfold GameService.bot_reply.
  destruct (ChessEngine.get_best_move engine board) as [[bm|]|] eqn:Hbest;
    simpl; try exact Hdb.
  destruct (push board bm) as [board2|] eqn:Hpush; simpl; [|exact Hdb].
  assert (Hs2 : Forall session_legal
                  (sessions
                     (GameService.commit_session db
                        (GameSession.set_position session (fen board2)
                           (move_history ++ [uci bm]) now)))).
  { apply commit_session_legal; [|exact Hdb].
    destruct (ply_keeps_legal move_history c board board2 (uci bm) bm)
      as [d [Hd Hfd]]; auto using uci_round_trip.
    exists d. simpl. split; assumption. }
  destruct (ChessEngine.get_game_result board2) as [game_result|]; simpl;
    [|exact Hs2].
  destruct (GameService._generate_pgn board2 (move_history ++ [uci bm])); simpl;
    exact Hs2.
Qed.

Lemma make_move_legal (engine : ChessEngine.t) (now : Z) (db : store)
    (game_id : Z) (move_uci : string) (player_id : option Z) :
  engine_sound engine ->
  Forall session_legal (sessions db) ->
  Forall session_legal
    (sessions
       (snd (fst (GameService.make_move engine now db game_id move_uci player_id)))).
Proof.
  intros Hsound Hdb. unfold GameService.make_move.
  destruct (GameService.get_game db game_id) as [game|]; [|exact Hdb].
  destruct (negb (GameStatus_eqb (Game.status game) IN_PROGRESS)); [exact Hdb|].
  destruct (GameService.get_game_session db game_id) as [session|] eqn:Hsession;
    [|exact Hdb].
  destruct (board_of_fen (GameSession.current_fen session)) as [board|] eqn:Hboard;
    [|exact Hdb].
  destruct (from_uci move_uci) as [move|] eqn:Hmove; [|exact Hdb].
  destruct (legal board move) eqn:Hlegal; simpl; [|exact Hdb].
  destruct (push board move) as [board1|] eqn:Hpush; [|exact Hdb].
  assert (Hin : In session (sessions db)).
  { apply find_some in Hsession. exact (proj1 Hsession). }
  destruct (proj1 (List.Forall_forall _ _) Hdb session Hin) as [b [Hb Hfb]].
  assert (Hfen : fen board = fen b).
  { apply fen_round_trip. rewrite Hfb. exact Hboard. }
  destruct (ply_keeps_legal _ b board board1 move_uci move Hb Hfen Hmove Hlegal Hpush)
    as [c [Hc Hfc]].
  assert (Hs1 : Forall session_legal
                  (sessions
                     (GameService.commit_session db
                        (GameSession.set_position session (fen board1)
                           (GameSession.move_history session ++ [move_uci]) now)))).
  { apply commit_session_legal; [|exact Hdb].
    exists c. simpl. split; assumption. }
  destruct (ChessEngine.get_game_result board1) as [game_result|].
  - destruct (GameService._generate_pgn board1
                (GameSession.move_history session ++ [move_uci])); simpl; exact Hs1.
  - destruct (GameService.is_none (Game.black_player_id game) && negb (turn board1));
      [|exact Hs1].
    apply (bot_reply_legal engine now _ game _ board1 _ c); assumption.
Qed.

Lemma undo_move_legal (now : Z) (db : store) (game_id num_moves : Z) :
  Forall session_legal (sessions db) ->
  Forall session_legal (sessions (snd (GameService.undo_move now db game_id num_moves))).
Proof.
  intros Hdb. unfold GameService.undo_move.
  destruct (GameService.get_game db game_id) as [game|]; [|exact Hdb].
  destruct (GameService.get_game_session db game_id) as [session|] eqn:Hsession;
    [|exact Hdb].
  destruct (Z.of_nat (length (GameSession.move_history session)) <? num_moves);
    [exact Hdb|].
  destruct (GameService.replay starting_board
              (slice_to (GameSession.move_history session) (- num_moves)))
    as [board| |] eqn:Hreplay; try exact Hdb.
  simpl. apply update_first_Forall; [|exact Hdb].
  assert (Hin : In session (sessions db)).
  { apply find_some in Hsession. exact (proj1 Hsession). }
  destruct (proj1 (List.Forall_forall _ _) Hdb session Hin) as [b [Hb _]].
  unfold slice_to in *.
  destruct (legal_replay_firstn _ _ _
              (Z.to_nat
                 (if - num_moves <? 0
                  then Z.max 0 (- num_moves
                                + Z.of_nat (length (GameSession.move_history session)))
                  else Z.min (- num_moves)
                         (Z.of_nat (length (GameSession.move_history session)))))
              Hb) as [c Hc].
  pose proof (legal_replay_replay _ _ _ Hc) as Hc'.
  rewrite Hreplay in Hc'. injection Hc' as ->.
  exists c. simpl. split; [exact Hc|reflexivity].
Qed.

Lemma reachable_legal (db : store) :
  reachable db -> Forall session_legal (sessions db).
Proof.
  intros Hreach.
  induction Hreach as [ps ups|now db w b bot _ IH|engine now db gid mv pid Hs _ IH
                      |now db gid n _ IH].
  - constructor.
  - simpl. constructor; [|exact IH].
    exists starting_board. simpl. split; reflexivity.
  - apply make_move_legal; assumption.
  - apply undo_move_legal; assumption.
Qed.

(** X3: in every database the game operations can produce, each session's
    log is a legal game: replayed from the starting position with every move
    tested for legality before it is pushed, it runs to its end and reaches
    a position with the stored encoding.  So the unchecked replay of undo
    never meets an illegal move in a log the service wrote itself. *)
Theorem stored_log_is_a_legal_game (db : store) (s : GameSession.t) :
  reachable db ->
  In s (sessions db) ->
  exists b : Board,
    legal_replay starting_board (GameSession.move_history s) = Some b
    /\ fen b = GameSession.current_fen s.
Proof.
  intros Hreach Hin.
  exact (proj1 (List.Forall_forall _ _) (reachable_legal db Hreach) s Hin).
Qed.

(** X4: in every such database the game record generated from a session's
    log leaves out none of its moves: the main line is the log, move for
    move. *)
Theorem game_record_has_every_logged_move (db : store) (s : GameSession.t)
    (board : Board) :
  reachable db ->
  In s (sessions db) ->
  exists ms : list Move,
    GameService._generate_pgn board (GameSession.move_history s) = Some (pgn_text ms)
    /\ map from_uci (GameSession.move_history s) = map Some ms.
Proof.
  intros Hreach Hin.
  destruct (proj1 (List.Forall_forall _ _) (reachable_legal db Hreach) s Hin)
    as [b [Hb _]].
  destruct (legal_replay_pgn_mainline _ _ _ Hb) as [ms [Hms Hmap]].
  exists ms. unfold GameService._generate_pgn. rewrite Hms. split; [reflexivity|exact Hmap].
Qed.

End LegalLogs.

(** ** Undo and the end of a game, against the replay of the interface *)

Section UndoPrefix.
Context {lib : ChessLib}.

(** C3: undoing [count] moves of a log of length L, with 1 <= count <= L,
    where [board] is the position obtained by replaying the first L - count
    logged moves from the starting position (each move tested for legality
    before it is pushed, as the interface replays; a log whose kept moves do
    not replay is the subject of C8).  The call succeeds and answers with
    the encoding of [board]; the stored session holds that encoding and the
    first L - count logged moves; and the stored game is in progress, with
    no end time and no game record if it was not in progress before. *)
Theorem undo_move_restores_prefix (now : Z) (db : store) (game_id count : Z)
    (game : Game.t) (session : GameSession.t) (board : Board) :
  GameService.get_game db game_id = Some game ->
  GameService.get_game_session db game_id = Some session ->
  1 <= count <= Z.of_nat (length (GameSession.move_history session)) ->
  let kept :=
    firstn (length (GameSession.move_history session) - Z.to_nat count)
      (GameSession.move_history session) in
  legal_replay starting_board kept = Some board ->
  let undone := GameService.undo_move now db game_id count in
  fst undone
  = Returned (true, "Undid " +:+ pretty count +:+ " move(s)", Some (fen board))
  /\ (exists session1 : GameSession.t,
        GameService.get_game_session (snd undone) game_id = Some session1
        /\ GameSession.current_fen session1 = fen board
        /\ GameSession.move_history session1 = kept)
  /\ (exists game1 : Game.t,
        GameService.get_game (snd undone) game_id = Some game1
        /\ Game.status game1 = IN_PROGRESS
        /\ (Game.status game <> IN_PROGRESS ->
            Game.ended_at game1 = None /\ Game.pgn game1 = None)).
Proof.
  intros Hgame Hsession Hcount kept Hkept undone.
  assert (Hslice : slice_to (GameSession.move_history session) (- count) = kept).
  { apply slice_to_undo. exact Hcount. }
  pose proof (legal_replay_replay _ _ _ Hkept) as Hreplay.
  assert (Hundo := undo_move_replayed now db game_id count game session board
                     Hgame Hsession (proj2 Hcount)).
  rewrite Hslice in Hundo. specialize (Hundo Hreplay).
  subst undone. rewrite Hundo. cbn [fst snd].
  split; [reflexivity|]. split.
  - exists (GameSession.set_position session (fen board) kept now).
    split; [|split; reflexivity].
    exact (get_game_session_commit db game_id session
             (GameSession.set_position session (fen board) kept now) Hsession
             (get_game_session_id db game_id session Hsession)).
  - pose proof (get_game_id db game_id game Hgame) as Hid.
    destruct (Game.status game) eqn:Hstatus; cbn [GameStatus_eqb negb].
    + exists game. split; [|split].
      * apply (get_game_commit _ game_id game); [exact Hgame|exact Hid].
      * exact Hstatus.
      * intros Hopen. contradiction Hopen. reflexivity.
    + exists (Game.set_result game IN_PROGRESS None None). split; [|split].
      * apply (get_game_commit _ game_id game); [exact Hgame|exact Hid].
      * reflexivity.
      * intros _. split; reflexivity.
    + exists (Game.set_result game IN_PROGRESS None None). split; [|split].
      * apply (get_game_commit _ game_id game); [exact Hgame|exact Hid].
      * reflexivity.
      * intros _. split; reflexivity.
    + exists (Game.set_result game IN_PROGRESS None None). split; [|split].
      * apply (get_game_commit _ game_id game); [exact Hgame|exact Hid].
      * reflexivity.
      * intros _. split; reflexivity.
    + exists (Game.set_result game IN_PROGRESS None None). split; [|split].
      * apply (get_game_commit _ game_id game); [exact Hgame|exact Hid].
      * reflexivity.
      * intros _. split; reflexivity.
Qed.

End UndoPrefix.

(** The mated game, reopened two plies back: the session is at the position
    after 2. d4 and the game row is open again. *)
Lemma undo_move_restores_prefix_witness :
  let undone := GameService.undo_move (lib := Miniature.rules) 200
                  Miniature.after_mate 1 2 in
  fst undone
  = Returned (true, "Undid " +:+ pretty 2 +:+ " move(s)",
              Some (Miniature.position_fen Miniature.AfterD4))
  /\ (exists session1 : GameSession.t,
        GameService.get_game_session (snd undone) 1 = Some session1
        /\ GameSession.current_fen session1
           = Miniature.position_fen Miniature.AfterD4
        /\ GameSession.move_history session1 = ["e2e4"; "f7f6"; "d2d4"])
  /\ (exists game1 : Game.t,
        GameService.get_game (snd undone) 1 = Some game1
        /\ Game.status game1 = IN_PROGRESS
        /\ (WHITE_WON <> IN_PROGRESS ->
            Game.ended_at game1 = None /\ Game.pgn game1 = None)).
Proof.
  apply (undo_move_restores_prefix (lib := Miniature.rules) 200
           Miniature.after_mate 1 2 Miniature.mated_game Miniature.mated_session
           Miniature.AfterD4).
  - reflexivity.
  - reflexivity.
  - simpl. lia.
  - reflexivity.
Defined.

Section TerminalPly.
Context {lib : ChessLib} {laws : FenLaws lib}.

(** The record generated from a legal game carries its moves, all of them
    and in order. *)
Lemma generate_pgn_of_legal_log (board c : Board) (log : list string) :
  legal_replay starting_board log = Some c ->
  exists ms : list Move,
    GameService._generate_pgn board log = Some (pgn_text ms)
    /\ map from_uci log = map Some ms.
Proof.
  intros Hlog. unfold GameService._generate_pgn.
  destruct (legal_replay_pgn_mainline _ _ _ Hlog) as [ms [-> Hmap]].
  exists ms. split; [reflexivity|exact Hmap].
Qed.

(** C6: a ply that leaves a terminal position ends the game.  For a session
    that keeps the invariant of the data model (its log replays, legal move
    by legal move, from the starting position to the stored position) and an
    engine that proposes legal moves: when the position after the player's
    ply is terminal, the call succeeds with no bot reply and without asking
    the engine, and the stored game has the status of the outcome
    (checkmate: the side that just moved has won; stalemate, insufficient
    material, repetition, 75-move rule: draw), the end time, and the record
    whose main line is the log with the ply, move for move; when it is the
    bot's reply that leaves a terminal position, the same holds with the
    reply returned, logged and in the record. *)
Theorem terminal_ply_ends_game (engine : ChessEngine.t) (now : Z) (db : store)
    (game_id : Z) (move_uci : string) (player_id : option Z) (game : Game.t)
    (session : GameSession.t) (board board1 : Board) (move : Move) :
  push_passes_turn lib ->
  engine_sound engine ->
  GameService.get_game db game_id = Some game ->
  Game.status game = IN_PROGRESS ->
  GameService.get_game_session db game_id = Some session ->
  session_legal session ->
  board_of_fen (GameSession.current_fen session) = Some board ->
  from_uci move_uci = Some move ->
  legal board move = true ->
  push board move = Some board1 ->
  let call := GameService.make_move engine now db game_id move_uci player_id in
  let log := GameSession.move_history session ++ [move_uci] in
  (terminal board1 = true ->
   let st := ended_status (turn board) board1 in
   fst (fst call)
   = Returned (true, "Game ended: " +:+ GameStatus_value st, Some (fen board1), None)
   /\ snd call = []
   /\ (is_checkmate board1 = true ->
       st = if turn board then WHITE_WON else BLACK_WON)
   /\ (is_checkmate board1 = false -> st = DRAW)
   /\ exists (stored : Game.t) (ms : list Move) (session1 : GameSession.t),
        GameService.get_game (snd (fst call)) game_id = Some stored
        /\ Game.status stored = st
        /\ Game.ended_at stored = Some now
        /\ Game.pgn stored = Some (pgn_text ms)
        /\ map from_uci log = map Some ms
        /\ GameService.get_game_session (snd (fst call)) game_id = Some session1
        /\ GameSession.move_history session1 = log
        /\ GameSession.current_fen session1 = fen board1)
  /\ (terminal board1 = false ->
      Game.black_player_id game = None ->
      turn board1 = false ->
      forall (bm : Move) (board2 : Board),
        ChessEngine.get_best_move engine board1 = ChessEngine.BestMove (Some bm) ->
        push board1 bm = Some board2 ->
        terminal board2 = true ->
        let st := ended_status (turn board1) board2 in
        fst (fst call)
        = Returned (true, "Game ended: " +:+ GameStatus_value st, Some (fen board2),
                    Some (uci bm))
        /\ snd call = [board1]
        /\ (is_checkmate board2 = true -> st = BLACK_WON)
        /\ (is_checkmate board2 = false -> st = DRAW)
        /\ exists (stored : Game.t) (ms : list Move) (session2 : GameSession.t),
             GameService.get_game (snd (fst call)) game_id = Some stored
             /\ Game.status stored = st
             /\ Game.ended_at stored = Some now
             /\ Game.pgn stored = Some (pgn_text ms)
             /\ map from_uci (log ++ [uci bm]) = map Some ms
             /\ GameService.get_game_session (snd (fst call)) game_id = Some session2
             /\ GameSession.move_history session2 = log ++ [uci bm]
             /\ GameSession.current_fen session2 = fen board2).
Proof.
  intros Hturn Hsound Hgame Hstatus Hsession [b0 [Hb0 Hfen0]] Hboard Hmove Hlegal
    Hpush call log.
  assert (Hfen : fen board = fen b0).
  { apply fen_round_trip. rewrite Hfen0. exact Hboard. }
  destruct (ply_keeps_legal _ b0 board board1 move_uci move Hb0 Hfen Hmove Hlegal
              Hpush) as [c [Hc Hfenc]].
  fold log in Hc.
  pose proof (get_game_id db game_id game Hgame) as Hid.
  pose proof (get_game_session_id db game_id session Hsession) as Hsid.
  subst call. unfold GameService.make_move.
  rewrite Hgame, Hstatus, Hsession, Hboard, Hmove, Hlegal, Hpush.
  cbn [GameStatus_eqb negb]. fold log. split.
  - intros Hterminal.
    destruct (game_result_terminal board board1 move Hturn Hpush Hterminal)
      as [Hresult Hst].
    rewrite Hresult.
    destruct (generate_pgn_of_legal_log board1 c log Hc) as [ms [Hpgn Hmap]].
    rewrite Hpgn, Hst. cbn [fst snd].
    split; [reflexivity|]. split; [reflexivity|].
    split; [intros Hmate; unfold ended_status; rewrite Hmate; reflexivity|].
    split; [intros Hmate; unfold ended_status; rewrite Hmate; reflexivity|].
    exists (Game.set_result game (ended_status (turn board) board1) (Some now)
              (Some (pgn_text ms))), ms,
      (GameSession.set_position session (fen board1) log now).
    split; [apply (get_game_commit _ game_id game); [exact Hgame|exact Hid]|].
    split; [reflexivity|]. split; [reflexivity|]. split; [reflexivity|].
    split; [exact Hmap|].
    split; [|split; reflexivity].
    exact (get_game_session_commit db game_id session
             (GameSession.set_position session (fen board1) log now) Hsession Hsid).
  - intros Hlive Hblack Hbturn bm board2 Hbest Hpush2 Hterminal2.
    rewrite (game_result_live board1 Hlive), Hblack.
    destruct (game_result_terminal board1 board2 bm Hturn Hpush2 Hterminal2)
      as [Hresult Hst].
    destruct (ply_keeps_legal log c board1 board2 (uci bm) bm Hc
                (eq_sym Hfenc) (uci_round_trip bm) (Hsound board1 bm Hbest) Hpush2)
      as [c2 [Hc2 _]].
    destruct (generate_pgn_of_legal_log board2 c2 (log ++ [uci bm]) Hc2)
      as [ms [Hpgn Hmap]].
    rewrite Hbturn in *.
    cbn [GameService.is_none negb andb].
    unfold GameService.bot_reply. rewrite Hbest, Hpush2, Hresult, Hpgn, Hst.
    cbn [fst snd].
    split; [reflexivity|]. split; [reflexivity|].
    split; [intros Hmate; unfold ended_status; rewrite Hmate; reflexivity|].
    split; [intros Hmate; unfold ended_status; rewrite Hmate; reflexivity|].
    exists (Game.set_result game (ended_status false board2) (Some now)
              (Some (pgn_text ms))), ms,
      (GameSession.set_position
         (GameSession.set_position session (fen board1) log now)
         (fen board2) (log ++ [uci bm]) now).
    split; [apply (get_game_commit _ game_id game); [exact Hgame|exact Hid]|].
    split; [reflexivity|]. split; [reflexivity|]. split; [reflexivity|].
    split; [exact Hmap|].
    split; [|split; reflexivity].
    apply (get_game_session_commit _ game_id
             (GameSession.set_position session (fen board1) log now)).
    + exact (get_game_session_commit db game_id session
               (GameSession.set_position session (fen board1) log now) Hsession Hsid).
    + exact Hsid.
Qed.

End TerminalPly.

(** White's mating move d1h5 ends the miniature game: white has won, at
    time 103, and the record has the five moves. *)
Lemma terminal_ply_ends_game_witness :
  let call := GameService.make_move Miniature.engine 103 Miniature.after_d4 1
                "d1h5" None in
  fst (fst call)
  = Returned (true, "Game ended: white_won",
              Some (Miniature.position_fen Miniature.Mated), None)
  /\ snd call = []
  /\ exists (stored : Game.t) (ms : list Miniature.ply),
       GameService.get_game (snd (fst call)) 1 = Some stored
       /\ Game.status stored = WHITE_WON
       /\ Game.ended_at stored = Some 103
       /\ Game.pgn stored = Some (Miniature.mainline_text ms)
       /\ map Miniature.ply_of_uci ["e2e4"; "f7f6"; "d2d4"; "g7g5"; "d1h5"]
          = map Some ms.
Proof.
  destruct (terminal_ply_ends_game (laws := miniature_fen_laws) Miniature.engine
              103 Miniature.after_d4 1 "d1h5" None
              (Miniature.game_row None IN_PROGRESS)
              {| GameSession.id := 1; GameSession.game_id := 1;
                 GameSession.current_fen := Miniature.position_fen Miniature.AfterG5;
                 GameSession.move_history := ["e2e4"; "f7f6"; "d2d4"; "g7g5"];
                 GameSession.last_move_at := 102; GameSession.created_at := 100 |}
              Miniature.AfterG5 Miniature.Mated Miniature.d1h5
              miniature_push_passes_turn miniature_engine_sound
              eq_refl eq_refl eq_refl
              (ex_intro _ Miniature.AfterG5 (conj eq_refl eq_refl))
              eq_refl eq_refl eq_refl eq_refl)
    as [Hhuman _].
  destruct (Hhuman eq_refl) as [Hanswer [Hasked [_ [_ Hstored]]]].
  destruct Hstored as [stored [ms [session1 [Hg [Hst [Hend [Hpgn [Hmap _]]]]]]]].
  split; [exact Hanswer|]. split; [exact Hasked|].
  exists stored, ms.
  split; [exact Hg|]. split; [exact Hst|]. split; [exact Hend|].
  split; [exact Hpgn|exact Hmap].
Defined.

(** ** Game rows and their sessions *)

Lemma map_update_first {A K : Type} (key : A -> K) (p : A -> bool) (new : A)
    (rows : list A) :
  (forall r, p r = true -> key r = key new) ->
  map key (update_first p new rows) = map key rows.
Proof.
  intros Hp. induction rows as [|r rest IH]; simpl; [reflexivity|].
  destruct (p r) eqn:Hr; simpl.
  - rewrite (Hp r Hr). reflexivity.
  - rewrite IH. reflexivity.
Qed.

Lemma find_key_none {A : Type} (key : A -> Z) (i : Z) (rows : list A) :
  find (fun r => key r =? i) rows = None <-> ~ In i (map key rows).
Proof.
  induction rows as [|r rest IH]; simpl.
  - split; [intros _ H; exact H|reflexivity].
  - destruct (Z.eqb_spec (key r) i) as [Heq|Hne].
    + split; [discriminate|]. intros H. contradiction H. left. exact Heq.
    + rewrite IH. split.
      * intros H [H1|H1]; [contradiction|exact (H H1)].
      * intros H H1. apply H. right. exact H1.
Qed.

Lemma next_id_fresh (ids : list Z) : ~ In (next_id ids) ids.
Proof.
  intros H. apply next_id_above in H. lia.
Qed.

Lemma status_of_result_closed (game_result : string) :
  GameService.status_of_result game_result = WHITE_WON
  \/ GameService.status_of_result game_result = BLACK_WON
  \/ GameService.status_of_result game_result = DRAW.
Proof.
  unfold GameService.status_of_result.
  destruct (String.eqb game_result "white_won"); [left; reflexivity|].
  destruct (String.eqb game_result "black_won"); [right; left|right; right];
    reflexivity.
Qed.

Section GameRows.
Context {lib : ChessLib}.

Lemma same_keys_refl (db : store) : same_keys db db.
Proof. split; reflexivity. Qed.

Lemma commit_game_keys (db0 db : store) (g : Game.t) :
  same_keys db0 db -> same_keys db0 (GameService.commit_game db g).
Proof.
  intros [Hg Hs]. split; [|exact Hs]. simpl. rewrite <- Hg.
  apply map_update_first. intros r Hr. lia.
Qed.

Lemma commit_session_keys (db0 db : store) (s : GameSession.t) :
  same_keys db0 db -> same_keys db0 (GameService.commit_session db s).
Proof.
  intros [Hg Hs]. split; [exact Hg|]. simpl. rewrite <- Hs.
  apply map_update_first. intros r Hr. lia.
Qed.

(** The two key columns of a database are never changed by a move or an
    undo. *)
Lemma make_move_keys (engine : ChessEngine.t) (now : Z) (db : store) (game_id : Z)
    (move_uci : string) (player_id : option Z) :
  same_keys db
    (snd (fst (GameService.make_move engine now db game_id move_uci player_id))).
Proof.
  unfold GameService.make_move.
  destruct (GameService.get_game db game_id) as [game|]; [|apply same_keys_refl].
  destruct (negb (GameStatus_eqb (Game.status game) IN_PROGRESS));
    [apply same_keys_refl|].
  destruct (GameService.get_game_session db game_id) as [session|];
    [|apply same_keys_refl].
  destruct (board_of_fen (GameSession.current_fen session)) as [board|];
    [|apply same_keys_refl].
  destruct (from_uci move_uci) as [move|]; [|apply same_keys_refl].
  destruct (negb (legal board move)); [apply same_keys_refl|].
  destruct (push board move) as [board1|]; [|apply same_keys_refl].
  pose proof (commit_session_keys db db
                (GameSession.set_position session (fen board1)
                   (GameSession.move_history session ++ [move_uci]) now)
                (same_keys_refl db)) as H1.
  destruct (ChessEngine.get_game_result board1) as [game_result|].
  - destruct (GameService._generate_pgn board1
                (GameSession.move_history session ++ [move_uci])); simpl;
      [|exact H1].
    apply commit_game_keys. exact H1.
  - destruct (GameService.is_none (Game.black_player_id game) && negb (turn board1));
      [|exact H1].
    unfold GameService.bot_reply.
    destruct (ChessEngine.get_best_move engine board1) as [[bm|]|]; simpl;
      try exact H1.
    destruct (push board1 bm) as [board2|]; simpl; [|exact H1].
    pose proof (commit_session_keys db _
                  (GameSession.set_position
                     (GameSession.set_position session (fen board1)
                        (GameSession.move_history session ++ [move_uci]) now)
                     (fen board2)
                     ((GameSession.move_history session ++ [move_uci]) ++ [uci bm])
                     now) H1) as H2.
    destruct (ChessEngine.get_game_result board2) as [game_result|]; simpl;
      [|exact H2].
    destruct (GameService._generate_pgn board2
                ((GameSession.move_history session ++ [move_uci]) ++ [uci bm]));
      simpl; [|exact H2].
    apply commit_game_keys. exact H2.
Qed.

Lemma undo_move_keys (now : Z) (db : store) (game_id num_moves : Z) :
  same_keys db (snd (GameService.undo_move now db game_id num_moves)).
Proof.
  unfold GameService.undo_move.
  destruct (GameService.get_game db game_id) as [game|]; [|apply same_keys_refl].
  destruct (GameService.get_game_session db game_id) as [session|];
    [|apply same_keys_refl].
  destruct (Z.of_nat (length (GameSession.move_history session)) <? num_moves);
    [apply same_keys_refl|].
  destruct (GameService.replay starting_board
              (slice_to (GameSession.move_history session) (- num_moves)))
    as [board| |]; try apply same_keys_refl.
  simpl. apply commit_game_keys. apply commit_session_keys. apply same_keys_refl.
Qed.

Lemma reachable_keys (db : store) :
  reachable db ->
  map GameSession.game_id (sessions db) = rev (map Game.id (games db))
  /\ NoDup (map Game.id (games db)).
Proof.
  intros Hreach.
  induction Hreach as [ps ups|now db w b bot _ [IH1 IH2]
                      |engine now db gid mv pid _ _ [IH1 IH2]|now db gid n _ [IH1 IH2]].
  - split; [reflexivity|constructor].
  - simpl. rewrite map_app, rev_app_distr. simpl. rewrite IH1. split; [reflexivity|].
    apply NoDup_app. split; [exact IH2|]. split.
    + intros i Hi Hin. apply list_elem_of_In in Hi. apply list_elem_of_In in Hin.
      destruct Hin as [<-|[]]. exact (next_id_fresh _ Hi).
    + repeat constructor. intros H. inversion H.
  - destruct (make_move_keys engine now db gid mv pid) as [Hg Hs].
    rewrite Hg, Hs. split; assumption.
  - destruct (undo_move_keys now db gid n) as [Hg Hs].
    rewrite Hg, Hs. split; assumption.
Qed.

(** X5: in every database the game operations can produce, a game id names
    at most one game, and a game exists exactly when a session for it
    exists: the service never meets a game without a session. *)
Theorem every_game_has_its_session (db : store) (game_id : Z) :
  reachable db ->
  NoDup (map Game.id (games db))
  /\ NoDup (map GameSession.game_id (sessions db))
  /\ (GameService.get_game db game_id = None
      <-> GameService.get_game_session db game_id = None).
Proof.
  intros Hreach. destruct (reachable_keys db Hreach) as [Hkeys Hnodup].
  split; [exact Hnodup|]. split.
  - rewrite Hkeys. apply NoDup_ListNoDup. apply List.NoDup_rev.
    apply NoDup_ListNoDup. exact Hnodup.
  - unfold GameService.get_game, GameService.get_game_session.
    rewrite (find_key_none Game.id), (find_key_none GameSession.game_id), Hkeys.
    rewrite <- in_rev. reflexivity.
Qed.

Lemma make_move_coherent (engine : ChessEngine.t) (now : Z) (db : store)
    (game_id : Z) (move_uci : string) (player_id : option Z) :
  Forall game_row_coherent (games db) ->
  Forall game_row_coherent
    (games (snd (fst (GameService.make_move engine now db game_id move_uci player_id)))).
Proof.
  intros Hdb. unfold GameService.make_move.
  destruct (GameService.get_game db game_id) as [game|]; [|exact Hdb].
  destruct (negb (GameStatus_eqb (Game.status game) IN_PROGRESS)); [exact Hdb|].
  destruct (GameService.get_game_session db game_id) as [session|]; [|exact Hdb].
  destruct (board_of_fen (GameSession.current_fen session)) as [board|]; [|exact Hdb].
  destruct (from_uci move_uci) as [move|]; [|exact Hdb].
  destruct (negb (legal board move)); [exact Hdb|].
  destruct (push board move) as [board1|]; [|exact Hdb].
  assert (Hclosed : forall r pgn,
             game_row_coherent
               (Game.set_result game (GameService.status_of_result r) (Some now)
                  (Some pgn))).
  { intros r pgn. right. simpl.
    split; [exact (status_of_result_closed r)|split; discriminate]. }
  destruct (ChessEngine.get_game_result board1) as [game_result|].
  - destruct (GameService._generate_pgn board1
                (GameSession.move_history session ++ [move_uci])); simpl;
      [|exact Hdb].
    apply update_first_Forall; [apply Hclosed|exact Hdb].
  - destruct (GameService.is_none (Game.black_player_id game) && negb (turn board1));
      [|exact Hdb].
    unfold GameService.bot_reply.
    destruct (ChessEngine.get_best_move engine board1) as [[bm|]|]; simpl;
      try exact Hdb.
    destruct (push board1 bm) as [board2|]; simpl; [|exact Hdb].
    destruct (ChessEngine.get_game_result board2) as [game_result|]; simpl;
      [|exact Hdb].
    destruct (GameService._generate_pgn board2
                ((GameSession.move_history session ++ [move_uci]) ++ [uci bm]));
      simpl; [|exact Hdb].
    apply update_first_Forall; [apply Hclosed|exact Hdb].
Qed.

Lemma undo_move_coherent (now : Z) (db : store) (game_id num_moves : Z) :
  Forall game_row_coherent (games db) ->
  Forall game_row_coherent (games (snd (GameService.undo_move now db game_id num_moves))).
Proof.
  intros Hdb. unfold GameService.undo_move.
  destruct (GameService.get_game db game_id) as [game|] eqn:Hgame; [|exact Hdb].
  destruct (GameService.get_game_session db game_id) as [session|]; [|exact Hdb].
  destruct (Z.of_nat (length (GameSession.move_history session)) <? num_moves);
    [exact Hdb|].
  destruct (GameService.replay starting_board
              (slice_to (GameSession.move_history session) (- num_moves)))
    as [board| |]; try exact Hdb.
  simpl. apply update_first_Forall; [|exact Hdb].
  destruct (negb (GameStatus_eqb (Game.status game) IN_PROGRESS)).
  - left. repeat split; reflexivity.
  - apply find_some in Hgame.
    exact (proj1 (List.Forall_forall _ _) Hdb game (proj1 Hgame)).
Qed.

Lemma reachable_coherent (db : store) :
  reachable db -> Forall game_row_coherent (games db).
Proof.
  intros Hreach.
  induction Hreach as [ps ups|now db w b bot _ IH|engine now db gid mv pid _ _ IH
                      |now db gid n _ IH].
  - constructor.
  - simpl. apply Forall_app. split; [exact IH|].
    constructor; [|constructor]. left. repeat split; reflexivity.
  - apply make_move_coherent. exact IH.
  - apply undo_move_coherent. exact IH.
Qed.

(** X6: in every database the game operations can produce, a game is either
    in progress with no end time and no game record, or won or drawn with
    both an end time and a game record; the three are written together, and
    no operation sets the abandoned status. *)
Theorem status_end_time_and_record_go_together (db : store) (g : Game.t) :
  reachable db ->
  In g (games db) ->
  (Game.status g = IN_PROGRESS /\ Game.ended_at g = None /\ Game.pgn g = None)
  \/ ((Game.status g = WHITE_WON \/ Game.status g = BLACK_WON \/ Game.status g = DRAW)
      /\ Game.ended_at g <> None /\ Game.pgn g <> None).
Proof.
  intros Hreach Hin.
  exact (proj1 (List.Forall_forall _ _) (reachable_coherent db Hreach) g Hin).
Qed.

End GameRows.

(** ** Undo after a move, and the edge cases of undo *)

Lemma slice_to_suffix {A : Type} (h extra : list A) :
  extra <> [] -> slice_to (h ++ extra) (- Z.of_nat (length extra)) = h.
Proof.
  intros Hne. rewrite slice_to_undo.
  - rewrite Nat2Z.id, length_app.
    replace (length h + length extra - length extra)%nat with (length h) by lia.
    rewrite firstn_app, firstn_all, Nat.sub_diag. simpl. apply app_nil_r.
  - rewrite length_app. destruct extra; [contradiction Hne; reflexivity|].
    simpl. lia.
Qed.

Lemma slice_to_nonpositive {A : Type} (h : list A) (num_moves : Z) :
  num_moves <= 0 -> slice_to h (- num_moves) = firstn (Z.to_nat (- num_moves)) h.
Proof.
  intros Hn. unfold slice_to.
  destruct (Z.ltb_spec (- num_moves) 0) as [Hlt|_]; [lia|].
  destruct (Z.le_ge_cases (- num_moves) (Z.of_nat (length h))) as [Hle|Hge].
  - rewrite Z.min_l by exact Hle. reflexivity.
  - rewrite Z.min_r by lia. rewrite Nat2Z.id, firstn_all.
    symmetry. apply firstn_all2. lia.
Qed.

Lemma GameStatus_eqb_eq (a b : GameStatus) : GameStatus_eqb a b = true -> a = b.
Proof.
  destruct a, b; intros H; try reflexivity; discriminate H.
Qed.

Section UndoAfterMove.
Context {lib : ChessLib}.

Lemma undo_restores (now' : Z) (db1 : store) (game_id : Z) (game g1 : Game.t)
    (session s1 : GameSession.t) (extra : list string) (b : Board) :
  GameService.get_game db1 game_id = Some g1 ->
  GameService.get_game_session db1 game_id = Some s1 ->
  GameSession.move_history s1 = GameSession.move_history session ++ extra ->
  extra <> [] ->
  GameService.replay starting_board (GameSession.move_history session)
  = GameService.Position b ->
  fen b = GameSession.current_fen session ->
  (forall f h t, GameSession.set_position s1 f h t = GameSession.set_position session f h t) ->
  (if negb (GameStatus_eqb (Game.status g1) IN_PROGRESS)
   then Game.set_result g1 IN_PROGRESS None None else g1) = game ->
  let count := Z.of_nat (length extra) in
  let undone := GameService.undo_move now' db1 game_id count in
  fst undone
  = Returned (true, "Undid " +:+ pretty count +:+ " move(s)",
              Some (GameSession.current_fen session))
  /\ GameService.get_game_session (snd undone) game_id
     = Some (GameSession.set_position session (GameSession.current_fen session)
               (GameSession.move_history session) now')
  /\ GameService.get_game (snd undone) game_id = Some game.
Proof.
  intros Hg1 Hs1 Hlog Hne Hb Hfb Hsame Hreset count undone.
  assert (Hslice : slice_to (GameSession.move_history s1) (- count)
                   = GameSession.move_history session).
  { rewrite Hlog. apply slice_to_suffix. exact Hne. }
  assert (Hlen : count <= Z.of_nat (length (GameSession.move_history s1))).
  { subst count. rewrite Hlog, length_app. lia. }
  assert (Hundo := undo_move_replayed now' db1 game_id count g1 s1 b Hg1 Hs1 Hlen).
  rewrite Hslice in Hundo. specialize (Hundo Hb).
  subst undone. rewrite Hundo, Hreset, Hsame, Hfb. simpl.
  split; [reflexivity|]. split.
  - rewrite <- (Hsame (GameSession.current_fen session)
                  (GameSession.move_history session) now').
    apply (get_game_session_commit db1 game_id s1); [exact Hs1|].
    simpl. exact (get_game_session_id db1 game_id s1 Hs1).
  - apply (get_game_commit _ game_id g1); [exact Hg1|].
    rewrite <- Hreset.
    destruct (negb (GameStatus_eqb (Game.status g1) IN_PROGRESS)); simpl;
      exact (get_game_id db1 game_id g1 Hg1).
Qed.

Lemma reopen_closed_game (game : Game.t) (r : string) (e : option Z) (p : option string) :
  Game.status game = IN_PROGRESS -> Game.ended_at game = None -> Game.pgn game = None ->
  (if negb (GameStatus_eqb
              (Game.status (Game.set_result game (GameService.status_of_result r) e p))
              IN_PROGRESS)
   then Game.set_result (Game.set_result game (GameService.status_of_result r) e p)
          IN_PROGRESS None None
   else Game.set_result game (GameService.status_of_result r) e p) = game.
Proof.
  intros Hs He Hp. simpl.
  assert (Hclosed : GameStatus_eqb (GameService.status_of_result r) IN_PROGRESS = false).
  { destruct (status_of_result_closed r) as [H|[H|H]]; rewrite H; reflexivity. }
  rewrite Hclosed. simpl. destruct game; simpl in *. subst. reflexivity.
Qed.

Context {laws : FenLaws lib}.

(** X7: undo takes back a move.  After a successful move in a database the
    game operations can produce, undoing one move (two when the bot
    replied) succeeds and gives back the session's position encoding and
    log as they were before the move, and the game row as it was; this
    holds also when the move had ended the game. *)
Theorem undo_takes_back_a_move (engine : ChessEngine.t) (now now' : Z) (db db1 : store)
    (game_id : Z) (move_uci : string) (player_id : option Z) (game : Game.t)
    (session : GameSession.t) (message : string) (new_fen bot_move : option string)
    (asked : list Board) :
  reachable db ->
  engine_sound engine ->
  GameService.get_game db game_id = Some game ->
  GameService.get_game_session db game_id = Some session ->
  GameService.make_move engine now db game_id move_uci player_id
  = (Returned (true, message, new_fen, bot_move), db1, asked) ->
  let count :=
    match bot_move with
    | Some _ => 2
    | None => 1
    end in
  let undone := GameService.undo_move now' db1 game_id count in
  fst undone
  = Returned (true, "Undid " +:+ pretty count +:+ " move(s)",
              Some (GameSession.current_fen session))
  /\ GameService.get_game_session (snd undone) game_id
     = Some (GameSession.set_position session (GameSession.current_fen session)
               (GameSession.move_history session) now')
  /\ GameService.get_game (snd undone) game_id = Some game.
Proof.
  intros Hreach Hsound Hgame Hsession Hmove.
  pose proof (reachable_consistent db Hreach) as Hall.
  destruct (get_game_session_consistent db game_id session Hall Hsession)
    as [b [Hb Hfb]].
  assert (Hcoh : game_row_coherent game).
  { apply find_some in Hgame.
    exact (proj1 (List.Forall_forall _ _) (reachable_coherent db Hreach) game
             (proj1 Hgame)). }
  pose proof (get_game_id db game_id game Hgame) as Hgid.
  pose proof (get_game_session_id db game_id session Hsession) as Hsid.
  unfold GameService.make_move in Hmove. rewrite Hgame, Hsession in Hmove.
  destruct (GameStatus_eqb (Game.status game) IN_PROGRESS) eqn:Hstatus;
    simpl in Hmove; [|discriminate Hmove].
  apply GameStatus_eqb_eq in Hstatus.
  assert (Hopen : Game.ended_at game = None /\ Game.pgn game = None).
  { destruct Hcoh as [[_ [He Hp]]|[[H|[H|H]] _]]; [split; assumption| | |];
      rewrite Hstatus in H; discriminate H. }
  destruct Hopen as [Hended Hpgn].
  destruct (board_of_fen (GameSession.current_fen session)) as [board|] eqn:Hboard;
    [|discriminate Hmove].
  destruct (from_uci move_uci) as [move|] eqn:Hparse; [|discriminate Hmove].
  destruct (legal board move) eqn:Hlegal; simpl in Hmove; [|discriminate Hmove].
  destruct (push board move) as [board1|] eqn:Hpush; [|discriminate Hmove].
  set (log1 := GameSession.move_history session ++ [move_uci]) in *.
  set (s1 := GameSession.set_position session (fen board1) log1 now) in *.
  assert (Hs1 : GameService.get_game_session (GameService.commit_session db s1) game_id
                = Some s1).
  { apply (get_game_session_commit db game_id session); [exact Hsession|exact Hsid]. }
  assert (Hkeep : (if negb (GameStatus_eqb (Game.status game) IN_PROGRESS)
                   then Game.set_result game IN_PROGRESS None None else game) = game).
  { rewrite Hstatus. reflexivity. }
  destruct (ChessEngine.get_game_result board1) as [game_result|].
  - destruct (GameService._generate_pgn board1 log1) as [pgn|];
      [|discriminate Hmove].
    injection Hmove as _ _ <- <- _.
    apply (undo_restores now' _ game_id game
             (Game.set_result game (GameService.status_of_result game_result)
                (Some now) (Some pgn))
             session s1 [move_uci] b); try assumption; try reflexivity.
    + apply (get_game_commit _ game_id game); [exact Hgame|exact Hgid].
    + discriminate.
    + apply reopen_closed_game; assumption.
  - destruct (GameService.is_none (Game.black_player_id game) && negb (turn board1)).
    + unfold GameService.bot_reply in Hmove.
      destruct (ChessEngine.get_best_move engine board1) as [[bm|]|] eqn:Hbest.
      * assert (Hfen : fen board = fen b).
        { apply fen_round_trip. rewrite Hfb. exact Hboard. }
        destruct (ply_keeps_consistent _ b board board1 move_uci move Hb Hfen
                    Hparse Hlegal Hpush) as [c [Hc Hfc]].
        destruct (legal_push board1 bm (Hsound board1 bm Hbest)) as [board2 Hpush2].
        rewrite Hpush2 in Hmove.
        set (s2 := GameSession.set_position s1 (fen board2) (log1 ++ [uci bm]) now)
          in *.
        assert (Hs2 : GameService.get_game_session
                        (GameService.commit_session
                           (GameService.commit_session db s1) s2) game_id
                      = Some s2).
        { apply (get_game_session_commit _ game_id s1); [exact Hs1|exact Hsid]. }
        assert (Hlog2 : GameSession.move_history s2
                        = GameSession.move_history session ++ [move_uci; uci bm]).
        { simpl. subst log1. rewrite <- app_assoc. reflexivity. }
        destruct (ChessEngine.get_game_result board2) as [game_result|].
        -- destruct (GameService._generate_pgn board2 (log1 ++ [uci bm])) as [pgn|].
           ++ injection Hmove as _ _ <- <- _.
              apply (undo_restores now' _ game_id game
                       (Game.set_result game
                          (GameService.status_of_result game_result) (Some now)
                          (Some pgn))
                       session s2 [move_uci; uci bm] b);
                try assumption; try reflexivity.
              ** apply (get_game_commit _ game_id game); [exact Hgame|exact Hgid].
              ** discriminate.
              ** apply reopen_closed_game; assumption.
           ++ injection Hmove as _ _ <- <- _.
              apply (undo_restores now' _ game_id game game session s2
                       [move_uci; uci bm] b);
                try assumption; try reflexivity.
              discriminate.
        -- injection Hmove as _ _ <- <- _.
           apply (undo_restores now' _ game_id game game session s2
                    [move_uci; uci bm] b);
             try assumption; try reflexivity.
           discriminate.
      * injection Hmove as _ _ <- <- _.
        apply (undo_restores now' _ game_id game game session s1 [move_uci] b);
          try assumption; try reflexivity.
        discriminate.
      * injection Hmove as _ _ <- <- _.
        apply (undo_restores now' _ game_id game game session s1 [move_uci] b);
          try assumption; try reflexivity.
        discriminate.
    + injection Hmove as _ _ <- <- _.
      apply (undo_restores now' _ game_id game game session s1 [move_uci] b);
        try assumption; try reflexivity.
      discriminate.
Qed.

(** X8: undo with a count that is zero or negative does not fail and does
    not undo from the end: the slice [move_history[:-num_moves]] then keeps
    the first [-num_moves] moves.  Undo of 0 moves empties the log and puts
    the game back at the starting position; undo of -2 keeps the first two
    moves.  The game is reopened as after any undo. *)
Theorem undo_move_nonpositive_count (now : Z) (db : store) (game_id num_moves : Z)
    (game : Game.t) (session : GameSession.t) :
  reachable db ->
  GameService.get_game db game_id = Some game ->
  GameService.get_game_session db game_id = Some session ->
  num_moves <= 0 ->
  let kept := firstn (Z.to_nat (- num_moves)) (GameSession.move_history session) in
  let undone := GameService.undo_move now db game_id num_moves in
  exists board : Board,
    GameService.replay starting_board kept = GameService.Position board
    /\ (num_moves = 0 -> board = starting_board)
    /\ fst undone
       = Returned (true, "Undid " +:+ pretty num_moves +:+ " move(s)",
                   Some (fen board))
    /\ GameService.get_game_session (snd undone) game_id
       = Some (GameSession.set_position session (fen board) kept now).
Proof.
  intros Hreach Hgame Hsession Hn kept undone.
  pose proof (reachable_consistent db Hreach) as Hall.
  destruct (get_game_session_consistent db game_id session Hall Hsession)
    as [b [Hb _]].
  destruct (replay_firstn _ _ _ (Z.to_nat (- num_moves)) Hb) as [board Hboard].
  fold kept in Hboard.
  assert (Hslice : slice_to (GameSession.move_history session) (- num_moves) = kept).
  { apply slice_to_nonpositive. exact Hn. }
  assert (Hlen : num_moves <= Z.of_nat (length (GameSession.move_history session)))
    by lia.
  assert (Hundo := undo_move_replayed now db game_id num_moves game session board
                     Hgame Hsession Hlen).
  rewrite Hslice in Hundo. specialize (Hundo Hboard).
  exists board. subst undone. rewrite Hundo. simpl.
  split; [exact Hboard|]. split.
  - intros ->. subst kept. simpl in Hboard. injection Hboard as <-. reflexivity.
  - split; [reflexivity|].
    exact (get_game_session_commit db game_id session
             (GameSession.set_position session (fen board) kept now) Hsession
             (get_game_session_id db game_id session Hsession)).
Qed.

End UndoAfterMove.

(** ** Creating a game *)

Lemma find_app_other {A : Type} (p : A -> bool) (rows : list A) (new : A) :
  p new = false -> find p (rows ++ [new]) = find p rows.
Proof.
  intros Hnew. induction rows as [|r rest IH]; simpl.
  - rewrite Hnew. reflexivity.
  - destruct (p r); [reflexivity|exact IH].
Qed.

(** X9: creating a game gives it an id no game had, stores the players it
    was given, and leaves every other game and session as it was. *)
Theorem create_game_adds_a_fresh_game {lib : ChessLib} (now : Z) (db : store)
    (white black : option Z) (bot : bool) :
  let game := fst (GameService.create_game now db white black bot) in
  let db' := snd (GameService.create_game now db white black bot) in
  GameService.get_game db (Game.id game) = None
  /\ GameService.get_game db' (Game.id game) = Some game
  /\ Game.white_player_id game = white
  /\ Game.black_player_id game = black
  /\ (forall other : Z,
        other <> Game.id game ->
        GameService.get_game db' other = GameService.get_game db other
        /\ GameService.get_game_session db' other
           = GameService.get_game_session db other).
Proof.
  simpl. split; [|split; [|split; [reflexivity|split; [reflexivity|]]]].
  - unfold GameService.get_game. apply find_key_none. apply next_id_fresh.
  - unfold GameService.get_game. simpl.
    apply find_fresh_last; simpl; [|lia].
    intros r Hr.
    pose proof (next_id_above (map Game.id (games db)) (Game.id r)
                  (in_map Game.id _ _ Hr)).
    lia.
  - intros other Hne. split.
    + unfold GameService.get_game. simpl. apply find_app_other. simpl. lia.
    + unfold GameService.get_game_session. simpl.
      destruct (Z.eqb_spec (next_id (map Game.id (games db))) other) as [Heq|_];
        [contradiction Hne; symmetry; exact Heq|reflexivity].
Qed.

(** ** The two move validators *)

(** X10: the engine wrapper's [is_valid_move] and the game service agree on
    what a valid move is: on an open game with a readable position, the
    service rejects a move as invalid, changing nothing, exactly when
    [is_valid_move] says no for the stored position. *)
Theorem service_rejects_what_is_valid_move_rejects {lib : ChessLib}
    (engine : ChessEngine.t) (now : Z) (db : store) (game_id : Z)
    (move_uci : string) (player_id : option Z) (game : Game.t)
    (session : GameSession.t) (board : Board) :
  GameService.get_game db game_id = Some game ->
  Game.status game = IN_PROGRESS ->
  GameService.get_game_session db game_id = Some session ->
  board_of_fen (GameSession.current_fen session) = Some board ->
  ChessEngine.is_valid_move board move_uci = false
  <-> exists message,
        GameService.make_move engine now db game_id move_uci player_id
        = (Returned (false, message, None, None), db, [])
        /\ kind_of_message message = Some InvalidMove.
Proof.
  intros Hgame Hstatus Hsession Hboard.
  unfold ChessEngine.is_valid_move, GameService.make_move.
  rewrite Hgame, Hstatus, Hsession, Hboard. simpl.
  destruct (from_uci move_uci) as [move|].
  - destruct (legal board move); simpl.
    + split; [discriminate|]. intros [message [H _]].
      destruct (push board move) as [board1|]; [|discriminate H].
      destruct (ChessEngine.get_game_result board1).
      * destruct (GameService._generate_pgn board1
                    (GameSession.move_history session ++ [move_uci]));
          discriminate H.
      * destruct (GameService.is_none (Game.black_player_id game)
                  && negb (turn board1)); [|discriminate H].
        unfold GameService.bot_reply in H.
        destruct (ChessEngine.get_best_move engine board1) as [[bm|]|];
          try discriminate H.
        destruct (push board1 bm) as [board2|]; [|discriminate H].
        destruct (ChessEngine.get_game_result board2); [|discriminate H].
        destruct (GameService._generate_pgn board2
                    ((GameSession.move_history session ++ [move_uci]) ++ [uci bm]));
          discriminate H.
    + split; [|reflexivity]. intros _. exists "Invalid move". split; reflexivity.
  - split; [|reflexivity]. intros _. exists "Invalid move format". split; reflexivity.
Qed.

(** ** Puzzle statistics *)

Lemma find_stat_of_other (u p u' p' : Z) (new : UserPuzzle.t)
    (rows : list UserPuzzle.t) :
  (u', p') <> (u, p) ->
  UserPuzzle.user_id new = u -> UserPuzzle.puzzle_id new = p ->
  find (PuzzleService.stat_of u' p')
    (match find (PuzzleService.stat_of u p) rows with
     | Some _ => update_first (PuzzleService.stat_of u p) new rows
     | None => rows ++ [new]
     end)
  = find (PuzzleService.stat_of u' p') rows.
Proof.
  intros Hne Hu Hp.
  assert (Hnew : PuzzleService.stat_of u' p' new = false).
  { unfold PuzzleService.stat_of. rewrite Hu, Hp.
    destruct (Z.eqb_spec u u') as [->|]; [|reflexivity].
    destruct (Z.eqb_spec p p') as [->|]; [|reflexivity].
    contradiction Hne. reflexivity. }
  destruct (find (PuzzleService.stat_of u p) rows).
  - apply find_update_first_other; [|exact Hnew].
    intros r Hr. unfold PuzzleService.stat_of in *.
    destruct (Z.eqb_spec (UserPuzzle.user_id r) u) as [Hru|]; [|discriminate Hr].
    destruct (Z.eqb_spec (UserPuzzle.puzzle_id r) p) as [Hrp|]; [|discriminate Hr].
    rewrite Hru, Hrp.
    destruct (Z.eqb_spec u u') as [->|]; [|reflexivity].
    destruct (Z.eqb_spec p p') as [->|]; [|reflexivity].
    contradiction Hne. reflexivity.
  - apply find_app_other. exact Hnew.
Qed.

(** X11: recording an attempt counts exactly one attempt for the pair of
    user and puzzle: its row, created with zero counters when it is missing,
    has one more solve or one more failure and the time of the attempt; the
    rows of every other pair, and the other tables, are as before. *)
Theorem update_user_stats_counts_one_attempt {lib : ChessLib} (now : Z) (db : store)
    (user_id puzzle_id : Z) (success : bool) :
  let db' := PuzzleService._update_user_stats now db user_id puzzle_id success in
  let before :=
    match find (PuzzleService.stat_of user_id puzzle_id) (user_puzzles db) with
    | Some row => (UserPuzzle.solved row, UserPuzzle.failed row)
    | None => (0, 0)
    end in
  (exists row,
     find (PuzzleService.stat_of user_id puzzle_id) (user_puzzles db') = Some row
     /\ UserPuzzle.solved row = fst before + (if success then 1 else 0)
     /\ UserPuzzle.failed row = snd before + (if success then 0 else 1)
     /\ UserPuzzle.last_attempted_at row = Some now)
  /\ (forall u' p',
        (u', p') <> (user_id, puzzle_id) ->
        find (PuzzleService.stat_of u' p') (user_puzzles db')
        = find (PuzzleService.stat_of u' p') (user_puzzles db))
  /\ games db' = games db /\ sessions db' = sessions db /\ puzzles db' = puzzles db.
Proof.
  simpl. unfold PuzzleService._update_user_stats. split; [|split].
  - destruct (find (PuzzleService.stat_of user_id puzzle_id) (user_puzzles db))
      as [row|] eqn:Hfind; simpl.
    + pose proof (find_some _ _ Hfind) as [_ Hrow].
      exists (UserPuzzle.record_attempt row success now). split.
      * apply (find_update_first _ _ row); [exact Hfind|exact Hrow].
      * destruct success; simpl; repeat split; lia.
    + eexists. split.
      * apply find_fresh_last.
        -- intros r Hr. apply (find_none _ _ Hfind r Hr).
        -- unfold PuzzleService.stat_of. simpl. rewrite !Z.eqb_refl. reflexivity.
      * destruct success; simpl; repeat split; reflexivity.
  - intros u' p' Hne.
    pose proof (find_stat_of_other user_id puzzle_id u' p') as H.
    destruct (find (PuzzleService.stat_of user_id puzzle_id) (user_puzzles db))
      as [row|] eqn:Hfind; simpl.
    + specialize (H (UserPuzzle.record_attempt row success now) (user_puzzles db) Hne).
      rewrite Hfind in H. apply H; simpl.
      * pose proof (find_some _ _ Hfind) as [_ Hrow].
        unfold PuzzleService.stat_of in Hrow. lia.
      * pose proof (find_some _ _ Hfind) as [_ Hrow].
        unfold PuzzleService.stat_of in Hrow. lia.
    + specialize (H (UserPuzzle.record_attempt
                       {| UserPuzzle.user_id := user_id;
                          UserPuzzle.puzzle_id := puzzle_id;
                          UserPuzzle.solved := 0; UserPuzzle.failed := 0;
                          UserPuzzle.best_time_seconds := None;
                          UserPuzzle.last_attempted_at := None |} success now)
                    (user_puzzles db) Hne).
      rewrite Hfind in H. apply H; reflexivity.
  - destruct (find (PuzzleService.stat_of user_id puzzle_id) (user_puzzles db));
      repeat split; reflexivity.
Qed.

Lemma counter_sum_after_attempt (f : UserPuzzle.t -> Z) (delta : Z) (success : bool)
    (now u p v : Z) (fresh : UserPuzzle.t) (rows : list UserPuzzle.t) :
  (forall r, f (UserPuzzle.record_attempt r success now) = f r + delta) ->
  f fresh = 0 ->
  UserPuzzle.user_id fresh = u ->
  counter_sum f
    (List.filter (fun up => UserPuzzle.user_id up =? v)
       (match find (PuzzleService.stat_of u p) rows with
        | Some row =>
            update_first (PuzzleService.stat_of u p)
              (UserPuzzle.record_attempt row success now) rows
        | None => rows ++ [UserPuzzle.record_attempt fresh success now]
        end))
  = counter_sum f (List.filter (fun up => UserPuzzle.user_id up =? v) rows)
    + (if u =? v then delta else 0).
Proof.
  intros Hf Hfresh Hu.
  induction rows as [|r rest IH]; simpl.
  - rewrite Hu. destruct (u =? v); simpl; [rewrite Hf, Hfresh|]; lia.
  - destruct (PuzzleService.stat_of u p r) eqn:Hr.
    + simpl. unfold PuzzleService.stat_of in Hr.
      destruct (Z.eqb_spec (UserPuzzle.user_id r) u) as [Hru|]; [|discriminate Hr].
      rewrite Hru. destruct (u =? v); simpl; [rewrite Hf|]; lia.
    + destruct (find (PuzzleService.stat_of u p) rest); simpl in *;
        destruct (UserPuzzle.user_id r =? v); simpl; rewrite IH; lia.
Qed.

Section Attempts.
Context {lib : ChessLib}.

Lemma attempt_compared_records (now : Z) (db : store) (puzzle_id : Z)
    (move_uci : string) (user_id : option Z) (correct : bool)
    (next_move : option string) (is_complete : bool) :
  fst (PuzzleService.attempt_puzzle now db puzzle_id move_uci user_id)
  = Returned (correct,
              if correct then "Correct move!" else "Incorrect move. Try again!",
              next_move, is_complete) ->
  snd (PuzzleService.attempt_puzzle now db puzzle_id move_uci user_id)
  = PuzzleService.record_stat now db user_id puzzle_id correct.
Proof.
  unfold PuzzleService.attempt_puzzle.
  destruct (PuzzleService.get_puzzle db puzzle_id) as [puzzle|];
    [|destruct correct; intros H; discriminate H].
  destruct (Puzzle.moves puzzle) as [[|x rest]|];
    try (destruct correct; intros H; discriminate H).
  destruct (board_of_fen (Puzzle.fen puzzle)) as [board0|];
    [|destruct correct; intros H; discriminate H].
  destruct (PuzzleService.solution_progress board0 (x :: rest) 0) as [[board i]|];
    [|intros H; discriminate H].
  destruct (length (x :: rest) <=? i)%nat;
    [destruct correct; intros H; discriminate H|].
  destruct (nth_error (x :: rest) i) as [expected|]; [|intros H; discriminate H].
  destruct (from_uci move_uci) as [user_move|];
    [|destruct correct; intros H; discriminate H].
  destruct (String.eqb (uci user_move) expected).
  - destruct (push board user_move); [|intros H; discriminate H].
    destruct correct; intros H; [reflexivity|discriminate H].
  - destruct correct; intros H; [discriminate H|reflexivity].
Qed.

(** X12: an attempt that was compared with the expected move, made by a user
    with a non-zero id, adds exactly one to that user's totals in the
    statistics (to the solved total when correct, to the failed total
    otherwise) and nothing to the totals of any other user. *)
Theorem attempt_adds_one_to_user_totals (fl : PyFloat) (now : Z) (db : store)
    (puzzle_id : Z) (move_uci : string) (user : Z) (correct : bool)
    (next_move : option string) (is_complete : bool) :
  user <> 0 ->
  fst (PuzzleService.attempt_puzzle now db puzzle_id move_uci (Some user))
  = Returned (correct,
              if correct then "Correct move!" else "Incorrect move. Try again!",
              next_move, is_complete) ->
  let db' := snd (PuzzleService.attempt_puzzle now db puzzle_id move_uci (Some user)) in
  forall v : Z,
    PuzzleService.total_solved (PuzzleService.get_user_stats fl db' v)
    = PuzzleService.total_solved (PuzzleService.get_user_stats fl db v)
      + (if (user =? v) && correct then 1 else 0)
    /\ PuzzleService.total_failed (PuzzleService.get_user_stats fl db' v)
       = PuzzleService.total_failed (PuzzleService.get_user_stats fl db v)
         + (if (user =? v) && negb correct then 1 else 0).
Proof.
  intros Huser Hresult db' v. subst db'.
  rewrite (attempt_compared_records _ _ _ _ _ _ _ _ Hresult).
  assert (Hrec : PuzzleService.record_stat now db (Some user) puzzle_id correct
                 = PuzzleService._update_user_stats now db user puzzle_id correct).
  { unfold PuzzleService.record_stat, int_truthy.
    destruct (Z.eqb_spec user 0) as [H0|_]; [contradiction|reflexivity]. }
  rewrite Hrec.
  destruct (get_user_stats_totals fl
              (PuzzleService._update_user_stats now db user puzzle_id correct) v)
    as [Hs Hf].
  destruct (get_user_stats_totals fl db v) as [Hs0 Hf0].
  rewrite Hs, Hf, Hs0, Hf0.
  unfold PuzzleService._update_user_stats.
  pose proof (counter_sum_after_attempt UserPuzzle.solved
                (if correct then 1 else 0) correct now user puzzle_id v
                {| UserPuzzle.user_id := user; UserPuzzle.puzzle_id := puzzle_id;
                   UserPuzzle.solved := 0; UserPuzzle.failed := 0;
                   UserPuzzle.best_time_seconds := None;
                   UserPuzzle.last_attempted_at := None |} (user_puzzles db)) as Hsum.
  pose proof (counter_sum_after_attempt UserPuzzle.failed
                (if correct then 0 else 1) correct now user puzzle_id v
                {| UserPuzzle.user_id := user; UserPuzzle.puzzle_id := puzzle_id;
                   UserPuzzle.solved := 0; UserPuzzle.failed := 0;
                   UserPuzzle.best_time_seconds := None;
                   UserPuzzle.last_attempted_at := None |} (user_puzzles db)) as Hfail.
  destruct (find (PuzzleService.stat_of user puzzle_id) (user_puzzles db)); simpl;
    (split;
     [rewrite Hsum; [destruct (user =? v), correct; simpl; lia
                    |intros r; destruct correct; simpl; lia|reflexivity|reflexivity]
     |rewrite Hfail; [destruct (user =? v), correct; simpl; lia
                     |intros r; destruct correct; simpl; lia|reflexivity|reflexivity]]).
Qed.

(** X13: an attempt made without a user, or by the user whose id is 0, is
    never recorded: it leaves the database as it was, whatever the move and
    whatever the answer. *)
Theorem attempt_of_user_zero_is_not_recorded (now : Z) (db : store) (puzzle_id : Z)
    (move_uci : string) (user_id : option Z) :
  user_id = None \/ user_id = Some 0 ->
  snd (PuzzleService.attempt_puzzle now db puzzle_id move_uci user_id) = db.
Proof.
  intros Huser.
  assert (Hrec : forall success,
             PuzzleService.record_stat now db user_id puzzle_id success = db).
  { intros success. destruct Huser as [->| ->]; reflexivity. }
  unfold PuzzleService.attempt_puzzle.
  destruct (PuzzleService.get_puzzle db puzzle_id) as [puzzle|]; [|reflexivity].
  destruct (Puzzle.moves puzzle) as [[|x rest]|]; try reflexivity.
  destruct (board_of_fen (Puzzle.fen puzzle)) as [board0|]; [|reflexivity].
  destruct (PuzzleService.solution_progress board0 (x :: rest) 0) as [[board i]|];
    [|reflexivity].
  destruct (length (x :: rest) <=? i)%nat; [reflexivity|].
  destruct (nth_error (x :: rest) i) as [expected|]; [|reflexivity].
  destruct (from_uci move_uci) as [user_move|]; [|reflexivity].
  destruct (String.eqb (uci user_move) expected).
  - destruct (push board user_move); [|reflexivity]. simpl. apply Hrec.
  - simpl. apply Hrec.
Qed.

Lemma attempt_answer_depends_on_puzzles (now1 now2 : Z) (db1 db2 : store)
    (puzzle_id : Z) (move_uci : string) (user1 user2 : option Z) :
  puzzles db1 = puzzles db2 ->
  fst (PuzzleService.attempt_puzzle now1 db1 puzzle_id move_uci user1)
  = fst (PuzzleService.attempt_puzzle now2 db2 puzzle_id move_uci user2).
Proof.
  intros Hp. unfold PuzzleService.attempt_puzzle, PuzzleService.get_puzzle.
  rewrite Hp.
  destruct (find (fun p => Puzzle.id p =? puzzle_id) (puzzles db2)) as [puzzle|];
    [|reflexivity].
  destruct (Puzzle.moves puzzle) as [[|x rest]|]; try reflexivity.
  destruct (board_of_fen (Puzzle.fen puzzle)) as [board0|]; [|reflexivity].
  destruct (PuzzleService.solution_progress board0 (x :: rest) 0) as [[board i]|];
    [|reflexivity].
  destruct (length (x :: rest) <=? i)%nat; [reflexivity|].
  destruct (nth_error (x :: rest) i) as [expected|]; [|reflexivity].
  destruct (from_uci move_uci) as [user_move|]; [|reflexivity].
  destruct (String.eqb (uci user_move) expected); [|reflexivity].
  destruct (push board user_move); reflexivity.
Qed.

Lemma attempt_keeps_puzzles (now : Z) (db : store) (puzzle_id : Z)
    (move_uci : string) (user_id : option Z) :
  puzzles (snd (PuzzleService.attempt_puzzle now db puzzle_id move_uci user_id))
  = puzzles db
  /\ games (snd (PuzzleService.attempt_puzzle now db puzzle_id move_uci user_id))
     = games db
  /\ sessions (snd (PuzzleService.attempt_puzzle now db puzzle_id move_uci user_id))
     = sessions db.
Proof.
  assert (Hrec : forall success,
             puzzles (PuzzleService.record_stat now db user_id puzzle_id success)
             = puzzles db
             /\ games (PuzzleService.record_stat now db user_id puzzle_id success)
                = games db
             /\ sessions (PuzzleService.record_stat now db user_id puzzle_id success)
                = sessions db).
  { intros success. unfold PuzzleService.record_stat.
    destruct user_id as [u|]; [|repeat split; reflexivity].
    destruct (int_truthy (Some u)); [|repeat split; reflexivity].
    unfold PuzzleService._update_user_stats.
    destruct (find (PuzzleService.stat_of u puzzle_id) (user_puzzles db));
      repeat split; reflexivity. }
  unfold PuzzleService.attempt_puzzle.
  destruct (PuzzleService.get_puzzle db puzzle_id) as [puzzle|];
    [|repeat split; reflexivity].
  destruct (Puzzle.moves puzzle) as [[|x rest]|]; try (repeat split; reflexivity).
  destruct (board_of_fen (Puzzle.fen puzzle)) as [board0|];
    [|repeat split; reflexivity].
  destruct (PuzzleService.solution_progress board0 (x :: rest) 0) as [[board i]|];
    [|repeat split; reflexivity].
  destruct (length (x :: rest) <=? i)%nat; [repeat split; reflexivity|].
  destruct (nth_error (x :: rest) i) as [expected|]; [|repeat split; reflexivity].
  destruct (from_uci move_uci) as [user_move|]; [|repeat split; reflexivity].
  destruct (String.eqb (uci user_move) expected).
  - destruct (push board user_move); [|repeat split; reflexivity]. simpl. apply Hrec.
  - simpl. apply Hrec.
Qed.

(** X14: attempts leave no trace in the puzzle: the answer to a submitted
    move is the same after any earlier attempt, by anyone, on any puzzle, as
    it would have been without it, and no attempt touches the games or the
    sessions.  In particular a correct move does not make the next solution
    move the expected one. *)
Theorem attempts_do_not_advance_a_puzzle (now now' : Z) (db : store)
    (earlier_puzzle puzzle_id : Z) (earlier_move move_uci : string)
    (earlier_user user_id : option Z) :
  let db' :=
    snd (PuzzleService.attempt_puzzle now db earlier_puzzle earlier_move earlier_user) in
  fst (PuzzleService.attempt_puzzle now' db' puzzle_id move_uci user_id)
  = fst (PuzzleService.attempt_puzzle now' db puzzle_id move_uci user_id)
  /\ games db' = games db
  /\ sessions db' = sessions db.
Proof.
  simpl.
  destruct (attempt_keeps_puzzles now db earlier_puzzle earlier_move earlier_user)
    as [Hp [Hg Hs]].
  split; [|split; assumption].
  apply attempt_answer_depends_on_puzzles. exact Hp.
Qed.

End Attempts.

(** ** The recovery wrapper *)

Section RecoverFacts.
Context {W A E : Type}.
Variable sleep : Z -> W -> W.
Variable _attempt_recovery : W -> W.
Variable _send_alert : E -> W -> W.
Variable strategy : Recovery.RecoveryStrategy.
Variable func : W -> (A + E) * W.

Local Abbreviation world_at k w :=
  (recovery_world sleep _attempt_recovery strategy func k w).

Local Abbreviation loop todo attempt last w :=
  (Recovery.attempts sleep _attempt_recovery _send_alert strategy func todo attempt
     last w).

Lemma recover_loop_success (w : W) (a : A) (k : nat) :
  forall (todo i : nat) (last : option E),
    (i <= k)%nat ->
    (k < i + todo)%nat ->
    Z.of_nat (i + todo) = Recovery.max_retries strategy ->
    (forall j, (j < k)%nat -> exists e, fst (func (world_at j w)) = inr e) ->
    fst (func (world_at k w)) = inl a ->
    loop todo (Z.of_nat i + 1) last (world_at i w) = (inl a, snd (func (world_at k w))).
Proof.
  induction todo as [|t IH]; intros i last Hik Hk Hn Hfail Hok; [lia|].
  cbn [Recovery.attempts Retry.attempts].
  destruct (Nat.eq_dec i k) as [->|Hne].
  - destruct (func (world_at k w)) as [[a'|e] w1]; simpl in *; [|discriminate Hok].
    injection Hok as ->. reflexivity.
  - destruct (Hfail i) as [e He]; [lia|].
    destruct (func (world_at i w)) as [[a'|e'] w1] eqn:Hcall; simpl in He;
      [discriminate He|].
    destruct (Z.ltb_spec (Z.of_nat i + 1) (Recovery.max_retries strategy)) as [_|Hge];
      [|lia].
    replace (Z.of_nat i + 1 + 1) with (Z.of_nat (S i) + 1) by lia.
    replace (_attempt_recovery (sleep (Recovery.retry_delay strategy) w1))
      with (world_at (S i) w).
    + apply IH; try assumption; lia.
    + cbn [recovery_world]. rewrite Hcall. reflexivity.
Qed.

Lemma recover_loop_failure (w : W) :
  forall (todo i : nat) (last : option E),
    (1 <= todo)%nat ->
    Z.of_nat (i + todo) = Recovery.max_retries strategy ->
    (forall j, (j < i + todo)%nat -> exists e, fst (func (world_at j w)) = inr e) ->
    exists e,
      fst (func (world_at (i + todo - 1) w)) = inr e
      /\ loop todo (Z.of_nat i + 1) last (world_at i w)
         = (inr (Original e), _send_alert e (snd (func (world_at (i + todo - 1) w)))).
Proof.
  induction todo as [|t IH]; intros i last Htodo Hn Hfail; [lia|].
  cbn [Recovery.attempts Retry.attempts].
  destruct (Hfail i) as [e He]; [lia|].
  destruct (func (world_at i w)) as [[a'|e'] w1] eqn:Hcall; simpl in He;
    [discriminate He|]. injection He as ->.
  destruct t as [|t].
  - destruct (Z.ltb_spec (Z.of_nat i + 1) (Recovery.max_retries strategy)) as [Hlt|_];
      [lia|].
    exists e. replace (i + 1 - 1)%nat with i by lia. rewrite Hcall. simpl.
    split; reflexivity.
  - destruct (Z.ltb_spec (Z.of_nat i + 1) (Recovery.max_retries strategy)) as [_|Hge];
      [|lia].
    replace (Z.of_nat i + 1 + 1) with (Z.of_nat (S i) + 1) by lia.
    replace (_attempt_recovery (sleep (Recovery.retry_delay strategy) w1))
      with (world_at (S i) w).
    + replace (i + S (S t) - 1)%nat with (S i + S t - 1)%nat by lia.
      apply IH; [lia|rewrite <- Hn; f_equal; lia|].
      intros j Hj. apply Hfail. lia.
    + cbn [recovery_world]. rewrite Hcall. reflexivity.
Qed.

Lemma recover_loop_expected (todo : nat) (attempt : Z) (e : E) (w : W) (m : string) :
  fst (loop todo attempt (Some e) w) <> inr (RuntimeError m).
Proof.
  revert attempt e w. induction todo as [|t IH]; intros attempt e w.
  - simpl. discriminate.
  - cbn [Recovery.attempts Retry.attempts].
    destruct (func w) as [[a|e'] w1]; [simpl; discriminate|].
    destruct (attempt <? Recovery.max_retries strategy); apply IH.
Qed.

(** X15: the recovery wrapper returns the first success.  When the calls
    before call [k] raise and call [k] returns, with [k] below the number of
    retries, the wrapper returns that value; the function has been called
    [k + 1] times, each failure was followed by one sleep of the retry delay
    and one recovery action, and no alert was sent. *)
Theorem recover_returns_first_success (w : W) (a : A) (k : nat) :
  Recovery.enabled strategy = true ->
  Z.of_nat k < Recovery.max_retries strategy ->
  (forall j, (j < k)%nat -> exists e, fst (func (world_at j w)) = inr e) ->
  fst (func (world_at k w)) = inl a ->
  Recovery.recover sleep _attempt_recovery _send_alert strategy func w
  = (inl a, snd (func (world_at k w))).
Proof.
  intros Hen Hk Hfail Hok. unfold Recovery.recover. rewrite Hen. simpl.
  apply (recover_loop_success w a k (Z.to_nat (Recovery.max_retries strategy)) 0 None);
    try assumption; simpl; lia.
Qed.

(** X16: when every call raises, the wrapper calls the function as many
    times as there are retries, sleeps and runs the recovery action between
    calls but not after the last, sends one alert, for the last exception,
    and raises that exception. *)
Theorem recover_gives_up_after_max_retries (w : W) :
  Recovery.enabled strategy = true ->
  1 <= Recovery.max_retries strategy ->
  (forall j, Z.of_nat j < Recovery.max_retries strategy ->
             exists e, fst (func (world_at j w)) = inr e) ->
  let final := world_at (Z.to_nat (Recovery.max_retries strategy) - 1) w in
  exists e,
    fst (func final) = inr e
    /\ Recovery.recover sleep _attempt_recovery _send_alert strategy func w
       = (inr (Original e), _send_alert e (snd (func final))).
Proof.
  intros Hen Hmax Hfail final. unfold Recovery.recover. rewrite Hen. simpl.
  destruct (recover_loop_failure w (Z.to_nat (Recovery.max_retries strategy)) 0 None)
    as [e [He Hloop]].
  - lia.
  - simpl. lia.
  - intros j Hj. apply Hfail. simpl in Hj. lia.
  - exists e. simpl in He, Hloop. split; [exact He|exact Hloop].
Qed.

(** X17: the wrapper raises its own "failed unexpectedly" error exactly when
    the number of retries is not positive, and then without calling the
    function at all. *)
Theorem recover_fails_unexpectedly_iff_no_retries (w : W) :
  Recovery.enabled strategy = true ->
  ((exists m,
      fst (Recovery.recover sleep _attempt_recovery _send_alert strategy func w)
      = inr (RuntimeError m))
   <-> Recovery.max_retries strategy <= 0)
  /\ (Recovery.max_retries strategy <= 0 ->
      Recovery.recover sleep _attempt_recovery _send_alert strategy func w
      = (inr (RuntimeError "Recovery strategy failed unexpectedly"), w)).
Proof.
  intros Hen. unfold Recovery.recover. rewrite Hen. simpl.
  assert (Hzero : Recovery.max_retries strategy <= 0 ->
                  Recovery.attempts sleep _attempt_recovery _send_alert strategy func
                    (Z.to_nat (Recovery.max_retries strategy)) 1 None w
                  = (inr (RuntimeError "Recovery strategy failed unexpectedly"), w)).
  { intros Hle. replace (Z.to_nat (Recovery.max_retries strategy)) with O by lia.
    reflexivity. }
  split; [|exact Hzero]. split.
  - intros [m Hm].
    destruct (Z.to_nat (Recovery.max_retries strategy)) as [|t] eqn:Hn; [lia|].
    exfalso. simpl in Hm.
    destruct (func w) as [[a|e] w1]; [discriminate Hm|].
    destruct (1 <? Recovery.max_retries strategy);
      exact (recover_loop_expected t _ e _ m Hm).
  - intros Hle. rewrite (Hzero Hle). eexists. reflexivity.
Qed.

End RecoverFacts.

(** ** The retry wrapper *)

Section RetryFacts.
Context {W A E : Type}.
Variable sleep : Z -> W -> W.
Variable max_attempts : Z.
Variable exceptions : E -> bool.
Variable func : W -> (A + E) * W.

Local Abbreviation world_at k w := (retry_world sleep func k w).

Local Abbreviation loop todo attempt last w :=
  (Retry.attempts sleep max_attempts exceptions func todo attempt last w).

Lemma retry_loop_decided (w : W) (k : nat) :
  forall (todo i : nat) (last : option E),
    (i <= k)%nat ->
    (k < i + todo)%nat ->
    Z.of_nat (i + todo) = max_attempts ->
    (forall j, (j < k)%nat ->
               exists e, fst (func (world_at j w)) = inr e /\ exceptions e = true) ->
    match fst (func (world_at k w)) with
    | inl _ => True
    | inr e => exceptions e = false \/ Z.of_nat k + 1 = max_attempts
    end ->
    loop todo (Z.of_nat i + 1) last (world_at i w)
    = (match fst (func (world_at k w)) with
       | inl a => inl a
       | inr e => inr (Original e)
       end,
       snd (func (world_at k w))).
Proof.
  induction todo as [|t IH]; intros i last Hik Hk Hn Hfail Hdec; [lia|].
  cbn [Recovery.attempts Retry.attempts].
  destruct (Nat.eq_dec i k) as [->|Hne].
  - destruct (func (world_at k w)) as [[a|e] w1]; simpl in *; [reflexivity|].
    destruct (exceptions e); [|reflexivity].
    destruct Hdec as [Hdec|Hdec]; [discriminate Hdec|].
    destruct (Z.eqb_spec (Z.of_nat k + 1) max_attempts) as [_|Hneq];
      [reflexivity|contradiction].
  - destruct (Hfail i) as [e [He Hex]]; [lia|].
    destruct (func (world_at i w)) as [[a'|e'] w1] eqn:Hcall; simpl in He;
      [discriminate He|]. injection He as ->. rewrite Hex.
    destruct (Z.eqb_spec (Z.of_nat i + 1) max_attempts) as [Heq|_]; [lia|].
    replace (Z.of_nat i + 1 + 1) with (Z.of_nat (S i) + 1) by lia.
    replace (sleep (Z.of_nat i + 1) w1) with (world_at (S i) w).
    + apply IH; try assumption; lia.
    + cbn [retry_world]. rewrite Hcall. cbn [snd]. f_equal. lia.
Qed.

(** X18: the retry wrapper is decided by the first call that does not raise
    an exception of the classes to retry on, or by the last permitted call:
    its value is returned, or its exception raised, as it is.  Each earlier
    call was followed by one sleep; none follows the deciding call, and an
    exception outside the classes is not retried. *)
Theorem retry_wrapper_decided_by_first_final_call (w : W) (k : nat) :
  Z.of_nat k < max_attempts ->
  (forall j, (j < k)%nat ->
             exists e, fst (func (world_at j w)) = inr e /\ exceptions e = true) ->
  match fst (func (world_at k w)) with
  | inl _ => True
  | inr e => exceptions e = false \/ Z.of_nat k + 1 = max_attempts
  end ->
  Retry.wrapper sleep max_attempts exceptions func w
  = (match fst (func (world_at k w)) with
     | inl a => inl a
     | inr e => inr (Original e)
     end,
     snd (func (world_at k w))).
Proof.
  intros Hk Hfail Hdec. unfold Retry.wrapper.
  apply (retry_loop_decided w k (Z.to_nat max_attempts) 0 None);
    try assumption; simpl; lia.
Qed.

End RetryFacts.

(** ** The undo endpoint *)

Section RecoverInvariant.
Context {W A E : Type}.
Variable sleep : Z -> W -> W.
Variable _attempt_recovery : W -> W.
Variable _send_alert : E -> W -> W.
Variable strategy : Recovery.RecoveryStrategy.
Variable func : W -> (A + E) * W.
Variable Inv : W -> Prop.
Hypothesis sleep_keeps : forall d w, Inv w -> Inv (sleep d w).
Hypothesis recovery_keeps : forall w, Inv w -> Inv (_attempt_recovery w).
Hypothesis alert_keeps : forall e w, Inv w -> Inv (_send_alert e w).
Hypothesis failure_keeps : forall w e w1, Inv w -> func w = (inr e, w1) -> Inv w1.

Lemma recover_loop_invariant (todo : nat) :
  forall (attempt : Z) (last : option E) (w : W),
    Inv w ->
    match Recovery.attempts sleep _attempt_recovery _send_alert strategy func todo
            attempt last w with
    | (inl a, w1) => exists w0, Inv w0 /\ func w0 = (inl a, w1)
    | (inr _, w1) => Inv w1
    end.
Proof.
  induction todo as [|t IH]; intros attempt last w Hw; simpl.
  - destruct last; exact Hw.
  - destruct (func w) as [[a|e] w1] eqn:Hcall.
    + exists w. split; [exact Hw|exact Hcall].
    + pose proof (failure_keeps w e w1 Hw Hcall) as Hw1.
      destruct (attempt <? Recovery.max_retries strategy); apply IH; auto.
Qed.

(** Whatever the wrapper returns was returned by one call of the function,
    made in a world the invariant holds in; and when it raises, the
    invariant holds in the world it leaves. *)
Lemma recover_invariant (w : W) :
  Inv w ->
  match Recovery.recover sleep _attempt_recovery _send_alert strategy func w with
  | (inl a, w1) => exists w0, Inv w0 /\ func w0 = (inl a, w1)
  | (inr _, w1) => Inv w1
  end.
Proof.
  intros Hw. unfold Recovery.recover.
  destruct (negb (Recovery.enabled strategy)).
  - destruct (func w) as [[a|e] w1] eqn:Hcall.
    + exists w. split; [exact Hw|exact Hcall].
    + exact (failure_keeps w e w1 Hw Hcall).
  - apply recover_loop_invariant. exact Hw.
Qed.

End RecoverInvariant.

Section UndoEndpoint.
Context {lib : ChessLib}.

Lemma undo_move_unsuccessful (now : Z) (d : store) (game_id num_moves : Z) :
  (forall message new_fen,
     fst (GameService.undo_move now d game_id num_moves)
     <> Returned (true, message, new_fen)) ->
  snd (GameService.undo_move now d game_id num_moves) = d.
Proof.
  unfold GameService.undo_move.
  destruct (GameService.get_game d game_id) as [game|]; [|reflexivity].
  destruct (GameService.get_game_session d game_id) as [session|]; [|reflexivity].
  destruct (Z.of_nat (length (GameSession.move_history session)) <? num_moves);
    [reflexivity|].
  destruct (GameService.replay starting_board
              (slice_to (GameSession.move_history session) (- num_moves)))
    as [board| |]; try reflexivity.
  intros H. exfalso. exact (H _ _ eq_refl).
Qed.

Lemma undo_move_successful (now : Z) (d d1 : store) (game_id num_moves : Z)
    (session : GameSession.t) (message : string) (new_fen : option string) :
  GameService.get_game_session d game_id = Some session ->
  GameService.undo_move now d game_id num_moves
  = (Returned (true, message, new_fen), d1) ->
  num_moves <= Z.of_nat (length (GameSession.move_history session))
  /\ (exists board,
        new_fen = Some (fen board)
        /\ GameService.get_game_session d1 game_id
           = Some (GameSession.set_position session (fen board)
                     (slice_to (GameSession.move_history session) (- num_moves)) now))
  /\ exists game,
       GameService.get_game d1 game_id = Some game
       /\ Game.status game = IN_PROGRESS.
Proof.
  intros Hsession Hundo. unfold GameService.undo_move in Hundo.
  destruct (GameService.get_game d game_id) as [game|] eqn:Hgame;
    [|discriminate Hundo].
  rewrite Hsession in Hundo.
  destruct (Z.ltb_spec (Z.of_nat (length (GameSession.move_history session)))
              num_moves) as [_|Hle]; [discriminate Hundo|].
  destruct (GameService.replay starting_board
              (slice_to (GameSession.move_history session) (- num_moves)))
    as [board| |]; try discriminate Hundo.
  injection Hundo as _ <- <-.
  split; [exact Hle|]. split.
  - exists board. split; [reflexivity|].
    exact (get_game_session_commit d game_id session
             (GameSession.set_position session (fen board)
                (slice_to (GameSession.move_history session) (- num_moves)) now)
             Hsession (get_game_session_id d game_id session Hsession)).
  - eexists. split.
    + apply (get_game_commit _ game_id game); [exact Hgame|].
      destruct (negb (GameStatus_eqb (Game.status game) IN_PROGRESS)); simpl;
        exact (get_game_id d game_id game Hgame).
    + destruct (GameStatus_eqb (Game.status game) IN_PROGRESS) eqn:Hst; simpl;
        [exact (GameStatus_eqb_eq _ _ Hst)|reflexivity].
Qed.

(** The service call of the endpoint, as a step of the request world. *)
Local Abbreviation raw_undo game_id num_moves :=
  (fun w0 : GamesApi.world =>
     match GameService.undo_move (GamesApi.clock w0) (GamesApi.db w0) game_id
             num_moves with
     | (Returned r, db1) =>
         (inl r,
          {| GamesApi.db := db1; GamesApi.clock := GamesApi.clock w0;
             GamesApi.journal := GamesApi.journal w0 |})
     | (Raised, db1) =>
         (inr GamesApi.ServiceError,
          {| GamesApi.db := db1; GamesApi.clock := GamesApi.clock w0;
             GamesApi.journal := GamesApi.journal w0 |})
     end).

Lemma recover_database_invariant {A : Type} (strategy : Recovery.RecoveryStrategy)
    (func : GamesApi.world -> (A + GamesApi.http_error) * GamesApi.world)
    (d : store) (w : GamesApi.world) :
  (forall w0 e w1, GamesApi.db w0 = d -> func w0 = (inr e, w1) -> GamesApi.db w1 = d) ->
  GamesApi.db w = d ->
  match GamesApi.recover_database strategy func w with
  | (inl a, w1) => exists w0, GamesApi.db w0 = d /\ func w0 = (inl a, w1)
  | (inr _, w1) => GamesApi.db w1 = d
  end.
Proof.
  intros Hfail Hw. unfold GamesApi.recover_database.
  pose proof (recover_invariant GamesApi.sleep GamesApi._attempt_recovery
                GamesApi._send_alert strategy func (fun w0 => GamesApi.db w0 = d)
                (fun _ _ H => H) (fun _ H => H) (fun _ _ H => H) Hfail w Hw) as H.
  destruct (Recovery.recover GamesApi.sleep GamesApi._attempt_recovery
              GamesApi._send_alert strategy func w) as [[a|[e|m]] w1]; exact H.
Qed.

Lemma service_undo_move_invariant (strategy : Recovery.RecoveryStrategy)
    (game_id num_moves : Z) (d : store) (w : GamesApi.world) :
  GamesApi.db w = d ->
  match GamesApi.service_undo_move strategy game_id num_moves w with
  | (inl (true, message, new_fen), w1) =>
      exists now,
        GameService.undo_move now d game_id num_moves
        = (Returned (true, message, new_fen), GamesApi.db w1)
  | (_, w1) => GamesApi.db w1 = d
  end.
Proof.
  intros Hw. unfold GamesApi.service_undo_move.
  pose proof (recover_database_invariant strategy (raw_undo game_id num_moves) d w)
    as H.
  destruct (GamesApi.recover_database strategy (raw_undo game_id num_moves) w)
    as [[[[ok message] new_fen]|e] w1].
  - destruct H as [w0 [Hw0 Hcall]]; [|exact Hw|].
    + intros w2 e w3 Hw2 Hcall. rewrite Hw2 in Hcall.
      destruct (GameService.undo_move (GamesApi.clock w2) d game_id num_moves)
        as [[r|] d1] eqn:Hundo; [discriminate Hcall|].
      injection Hcall as _ <-. simpl.
      rewrite <- (undo_move_unsuccessful (GamesApi.clock w2) d game_id num_moves).
      * rewrite Hundo. reflexivity.
      * rewrite Hundo. discriminate.
    + rewrite Hw0 in Hcall.
      destruct (GameService.undo_move (GamesApi.clock w0) d game_id num_moves)
        as [[r|] d1] eqn:Hundo; [|discriminate Hcall].
      injection Hcall as -> <-. simpl.
      destruct ok.
      * exists (GamesApi.clock w0). exact Hundo.
      * rewrite <- (undo_move_unsuccessful (GamesApi.clock w0) d game_id num_moves).
        -- rewrite Hundo. reflexivity.
        -- rewrite Hundo. discriminate.
  - apply H; [|exact Hw].
    intros w2 e' w3 Hw2 Hcall. rewrite Hw2 in Hcall.
    destruct (GameService.undo_move (GamesApi.clock w2) d game_id num_moves)
      as [[r|] d1] eqn:Hundo; [discriminate Hcall|].
    injection Hcall as _ <-. simpl.
    rewrite <- (undo_move_unsuccessful (GamesApi.clock w2) d game_id num_moves).
    + rewrite Hundo. reflexivity.
    + rewrite Hundo. discriminate.
Qed.

Lemma undo_move_body_failure (strategy : Recovery.RecoveryStrategy)
    (game_id num_moves : Z) (d : store) (w0 w1 : GamesApi.world)
    (e : GamesApi.http_error) :
  GamesApi.db w0 = d ->
  GamesApi.undo_move_body strategy game_id num_moves w0 = (inr e, w1) ->
  GamesApi.db w1 = d.
Proof.
  intros Hw0 Hbody. unfold GamesApi.undo_move_body in Hbody.
  pose proof (service_undo_move_invariant strategy game_id num_moves d w0 Hw0) as H.
  destruct (GamesApi.service_undo_move strategy game_id num_moves w0)
    as [[[[[|] message] new_fen]|e'] w2].
  - discriminate Hbody.
  - injection Hbody as _ <-. exact H.
  - injection Hbody as _ <-. exact H.
Qed.

(** X19: what a successful answer of the undo endpoint means.  The count
    was between 1 and 10 and not above the length of the log; the session
    now holds the log without its last [num_moves] moves, and the answer
    carries that log, the encoding stored with it, and the status
    "in_progress". *)
Theorem undo_endpoint_success (strategy : Recovery.RecoveryStrategy)
    (game_id num_moves : Z) (w w1 : GamesApi.world)
    (response : GamesApi.UndoResponse) (session : GameSession.t) :
  GameService.get_game_session (GamesApi.db w) game_id = Some session ->
  GamesApi.undo_move strategy game_id num_moves w = (inl response, w1) ->
  let log := GameSession.move_history session in
  let kept := firstn (length log - Z.to_nat num_moves) log in
  1 <= num_moves <= 10
  /\ num_moves <= Z.of_nat (length log)
  /\ GamesApi.success response = true
  /\ GamesApi.move_history response = kept
  /\ GamesApi.game_status response = Some "in_progress"
  /\ exists session1,
       GameService.get_game_session (GamesApi.db w1) game_id = Some session1
       /\ GameSession.move_history session1 = kept
       /\ GamesApi.new_fen response = Some (GameSession.current_fen session1).
Proof.
  intros Hsession Hcall log kept. unfold GamesApi.undo_move in Hcall.
  destruct (Z.ltb_spec num_moves 1) as [Hlt|Hge1]; [discriminate Hcall|].
  destruct (Z.ltb_spec 10 num_moves) as [Hgt|Hle10]; [discriminate Hcall|].
  simpl in Hcall.
  pose proof (recover_database_invariant strategy
                (GamesApi.undo_move_body strategy game_id num_moves)
                (GamesApi.db w) w
                (fun w0 e0 w2 =>
                   undo_move_body_failure strategy game_id num_moves (GamesApi.db w)
                     w0 w2 e0)
                eq_refl) as H.
  rewrite Hcall in H. destruct H as [w0 [Hw0 Hbody]].
  unfold GamesApi.undo_move_body in Hbody.
  pose proof (service_undo_move_invariant strategy game_id num_moves (GamesApi.db w)
                w0 Hw0) as Hservice.
  destruct (GamesApi.service_undo_move strategy game_id num_moves w0)
    as [[[[[|] message] new_fen]|e'] w2]; try discriminate Hbody.
  destruct Hservice as [now Hundo].
  destruct (undo_move_successful now (GamesApi.db w) (GamesApi.db w2) game_id
              num_moves session message new_fen Hsession Hundo)
    as [Hlen [[board [-> Hs1]] [game [Hg1 Hst]]]].
  rewrite Hs1, Hg1, Hst in Hbody. injection Hbody as <- <-. simpl.
  assert (Hkept : slice_to log (- num_moves) = kept).
  { apply slice_to_undo. subst log. lia. }
  split; [lia|]. split; [exact Hlen|]. split; [reflexivity|].
  split; [exact Hkept|]. split; [reflexivity|].
  eexists. split; [exact Hs1|]. split; [exact Hkept|reflexivity].
Qed.

(** X20: an undo request that is not answered with success leaves the
    database as it was, whatever the reason (count out of bounds, game or
    session missing, too few moves, a log that cannot be replayed) and however
    often the wrappers tried again. *)
Theorem undo_endpoint_failure_keeps_database (strategy : Recovery.RecoveryStrategy)
    (game_id num_moves : Z) (w w1 : GamesApi.world) (e : GamesApi.http_error) :
  GamesApi.undo_move strategy game_id num_moves w = (inr e, w1) ->
  GamesApi.db w1 = GamesApi.db w.
Proof.
  intros Hcall. unfold GamesApi.undo_move in Hcall.
  destruct ((num_moves <? 1) || (10 <? num_moves)).
  - injection Hcall as _ <-. reflexivity.
  - pose proof (recover_database_invariant strategy
                  (GamesApi.undo_move_body strategy game_id num_moves)
                  (GamesApi.db w) w
                  (fun w0 e0 w2 =>
                     undo_move_body_failure strategy game_id num_moves (GamesApi.db w)
                       w0 w2 e0)
                  eq_refl) as H.
    rewrite Hcall in H. exact H.
Qed.

End UndoEndpoint.

Lemma concat_repeat_snoc {A : Type} (x : list A) (k : nat) :
  concat (repeat x k) ++ x = concat (repeat x (S k)).
Proof.
  induction k as [|k IH].
  - simpl. rewrite app_nil_r. reflexivity.
  - change (concat (repeat x (S k))) with (x ++ concat (repeat x k)).
    rewrite <- app_assoc, IH. reflexivity.
Qed.

Section BadUndoRequest.
Context {lib : ChessLib}.
Variable strategy : Recovery.RecoveryStrategy.
Hypothesis strategy_enabled : Recovery.enabled strategy = true.
Hypothesis strategy_retries : 1 <= Recovery.max_retries strategy.

Lemma undo_move_body_too_many (game_id num_moves : Z) (w0 : GamesApi.world)
    (game : Game.t) (session : GameSession.t) :
  GameService.get_game (GamesApi.db w0) game_id = Some game ->
  GameService.get_game_session (GamesApi.db w0) game_id = Some session ->
  Z.of_nat (length (GameSession.move_history session)) < num_moves ->
  GamesApi.undo_move_body strategy game_id num_moves w0
  = (inr (GamesApi.HTTPException 400
            ("Not enough moves to undo. Only "
               +:+ pretty (Z.of_nat (length (GameSession.move_history session)))
               +:+ " moves available.")),
     w0).
Proof.
  intros Hgame Hsession Hlen.
  unfold GamesApi.undo_move_body, GamesApi.service_undo_move,
    GamesApi.recover_database, Recovery.recover.
  rewrite strategy_enabled. simpl.
  destruct (Z.to_nat (Recovery.max_retries strategy)) as [|t] eqn:Hn; [lia|].
  simpl. unfold GameService.undo_move. rewrite Hgame, Hsession.
  destruct (Z.ltb_spec (Z.of_nat (length (GameSession.move_history session)))
              num_moves) as [_|Hge]; [|lia].
  destruct w0. reflexivity.
Qed.

Lemma bad_request_world (game_id num_moves : Z) (w : GamesApi.world) (game : Game.t)
    (session : GameSession.t) (k : nat) :
  GameService.get_game (GamesApi.db w) game_id = Some game ->
  GameService.get_game_session (GamesApi.db w) game_id = Some session ->
  Z.of_nat (length (GameSession.move_history session)) < num_moves ->
  recovery_world GamesApi.sleep GamesApi._attempt_recovery strategy
    (GamesApi.undo_move_body strategy game_id num_moves) k w
  = {| GamesApi.db := GamesApi.db w;
       GamesApi.clock := GamesApi.clock w + Z.of_nat k * Recovery.retry_delay strategy;
       GamesApi.journal :=
         GamesApi.journal w
         ++ concat (repeat [GamesApi.Slept (Recovery.retry_delay strategy);
                            GamesApi.RecoveryAttempted] k) |}.
Proof.
  intros Hgame Hsession Hlen. induction k as [|k IH].
  - simpl. rewrite app_nil_r, Z.add_0_r. destruct w. reflexivity.
  - cbn [recovery_world]. rewrite IH.
    rewrite (undo_move_body_too_many game_id num_moves _ game session);
      [|exact Hgame|exact Hsession|exact Hlen].
    unfold GamesApi._attempt_recovery, GamesApi.sleep. simpl. f_equal.
    + lia.
    + rewrite <- !app_assoc. f_equal.
      exact (concat_repeat_snoc
               [GamesApi.Slept (Recovery.retry_delay strategy);
                GamesApi.RecoveryAttempted] k).
Qed.

(** X21: a request the client got wrong is retried like a database failure.
    An undo of more moves than the log has (with the count within 1..10) is
    answered with status 400 only after the endpoint has run as many times
    as the recovery strategy has retries: between the runs the wrapper
    sleeps for the retry delay and runs its recovery action, and at the end
    it sends an alert for the 400.  The database is unchanged; the clock has
    advanced by (retries - 1) times the delay. *)
Theorem undo_endpoint_retries_a_bad_request (game_id num_moves : Z)
    (w : GamesApi.world) (game : Game.t) (session : GameSession.t) :
  1 <= num_moves <= 10 ->
  GameService.get_game (GamesApi.db w) game_id = Some game ->
  GameService.get_game_session (GamesApi.db w) game_id = Some session ->
  Z.of_nat (length (GameSession.move_history session)) < num_moves ->
  let e :=
    GamesApi.HTTPException 400
      ("Not enough moves to undo. Only "
         +:+ pretty (Z.of_nat (length (GameSession.move_history session)))
         +:+ " moves available.") in
  let retried := (Z.to_nat (Recovery.max_retries strategy) - 1)%nat in
  GamesApi.undo_move strategy game_id num_moves w
  = (inr e,
     {| GamesApi.db := GamesApi.db w;
        GamesApi.clock :=
          GamesApi.clock w + Z.of_nat retried * Recovery.retry_delay strategy;
        GamesApi.journal :=
          GamesApi.journal w
          ++ concat (repeat [GamesApi.Slept (Recovery.retry_delay strategy);
                             GamesApi.RecoveryAttempted] retried)
          ++ [GamesApi.AlertSent e] |}).
Proof.
  intros Hbounds Hgame Hsession Hlen e retried.
  unfold GamesApi.undo_move.
  destruct (Z.ltb_spec num_moves 1) as [Hlt|_]; [lia|].
  destruct (Z.ltb_spec 10 num_moves) as [Hgt|_]; [lia|]. simpl.
  unfold GamesApi.recover_database, Recovery.recover.
  rewrite strategy_enabled. simpl.
  assert (Hworld := fun k =>
            bad_request_world game_id num_moves w game session k Hgame Hsession Hlen).
  assert (Hbody : forall k,
             GamesApi.undo_move_body strategy game_id num_moves
               (recovery_world GamesApi.sleep GamesApi._attempt_recovery strategy
                  (GamesApi.undo_move_body strategy game_id num_moves) k w)
             = (inr e,
                recovery_world GamesApi.sleep GamesApi._attempt_recovery strategy
                  (GamesApi.undo_move_body strategy game_id num_moves) k w)).
  { intros k.
    apply (undo_move_body_too_many game_id num_moves _ game session);
      try rewrite Hworld; simpl; assumption. }
  destruct (recover_loop_failure GamesApi.sleep GamesApi._attempt_recovery
              GamesApi._send_alert strategy
              (GamesApi.undo_move_body strategy game_id num_moves) w
              (Z.to_nat (Recovery.max_retries strategy)) 0 None)
    as [e' [He' Hloop]].
  - lia.
  - simpl. lia.
  - intros j _. exists e. rewrite Hbody. reflexivity.
  - change (Z.of_nat 0 + 1) with 1 in Hloop.
    change (0 + Z.to_nat (Recovery.max_retries strategy) - 1)%nat with retried
      in He', Hloop.
    cbn [recovery_world] in Hloop.
    rewrite Hbody in He'. injection He' as <-.
    rewrite Hloop, Hbody. cbn [snd]. rewrite Hworld.
    unfold GamesApi._send_alert. simpl. rewrite <- app_assoc. reflexivity.
Qed.

End BadUndoRequest.

(** ** The further properties on the miniature game *)

Lemma miniature_two_games_reachable :
  reachable (lib := Miniature.rules) Miniature.two_games_moved.
Proof.
  apply reach_make_move; [exact miniature_engine_sound|].
  apply reach_create_game.
  apply reach_make_move; [exact miniature_engine_sound|].
  apply reach_create_game. apply reach_empty.
Qed.

(** The move in game 2 leaves the bot game, game 1, as it was. *)
Lemma make_move_leaves_other_games_witness :
  GameService.get_game Miniature.two_games_moved 1
  = GameService.get_game Miniature.two_games 1
  /\ GameService.get_game_session Miniature.two_games_moved 1
     = GameService.get_game_session Miniature.two_games 1.
Proof.
  destruct (make_move_leaves_other_games (lib := Miniature.rules) Miniature.engine
              111 Miniature.two_games 2 "e2e4" (Some 8) 1) as [Hg [Hs _]].
  - lia.
  - split; [exact Hg|exact Hs].
Defined.

Lemma undo_move_leaves_other_games_witness :
  GameService.get_game_session
    (snd (GameService.undo_move (lib := Miniature.rules) 120
            Miniature.two_games_moved 2 1)) 1
  = GameService.get_game_session Miniature.two_games_moved 1.
Proof.
  destruct (undo_move_leaves_other_games (lib := Miniature.rules) 120
              Miniature.two_games_moved 2 1 1) as [_ [Hs _]].
  - lia.
  - exact Hs.
Defined.

Lemma stored_log_is_a_legal_game_witness :
  exists b : Miniature.position,
    legal_replay (lib := Miniature.rules) Miniature.Start
      (GameSession.move_history Miniature.mated_session) = Some b
    /\ Miniature.position_fen b = GameSession.current_fen Miniature.mated_session.
Proof.
  apply (stored_log_is_a_legal_game (laws := miniature_fen_laws)
           Miniature.after_mate Miniature.mated_session).
  - exact miniature_game_reachable.
  - left. reflexivity.
Defined.

Lemma game_record_has_every_logged_move_witness :
  exists ms : list Miniature.ply,
    GameService._generate_pgn (lib := Miniature.rules) Miniature.Mated
      (GameSession.move_history Miniature.mated_session)
    = Some (Miniature.mainline_text ms)
    /\ map Miniature.ply_of_uci (GameSession.move_history Miniature.mated_session)
       = map Some ms.
Proof.
  apply (game_record_has_every_logged_move (laws := miniature_fen_laws)
           Miniature.after_mate Miniature.mated_session Miniature.Mated).
  - exact miniature_game_reachable.
  - left. reflexivity.
Defined.

Lemma every_game_has_its_session_witness :
  GameService.get_game Miniature.two_games_moved 3 = None
  <-> GameService.get_game_session Miniature.two_games_moved 3 = None.
Proof.
  exact (proj2 (proj2 (every_game_has_its_session (lib := Miniature.rules)
                         Miniature.two_games_moved 3
                         miniature_two_games_reachable))).
Defined.

Lemma status_end_time_and_record_go_together_witness :
  (Game.status Miniature.mated_game = IN_PROGRESS
   /\ Game.ended_at Miniature.mated_game = None
   /\ Game.pgn Miniature.mated_game = None)
  \/ ((Game.status Miniature.mated_game = WHITE_WON
       \/ Game.status Miniature.mated_game = BLACK_WON
       \/ Game.status Miniature.mated_game = DRAW)
      /\ Game.ended_at Miniature.mated_game <> None
      /\ Game.pgn Miniature.mated_game <> None).
Proof.
  apply (status_end_time_and_record_go_together (lib := Miniature.rules)
           Miniature.after_mate Miniature.mated_game).
  - exact miniature_game_reachable.
  - left. reflexivity.
Defined.

(** White's mating move, taken back: the game is open again and the session
    is where it was after 2... g5. *)
Lemma undo_takes_back_a_move_witness :
  let undone := GameService.undo_move (lib := Miniature.rules) 200
                  Miniature.after_mate 1 1 in
  fst undone
  = Returned (true, "Undid " +:+ pretty 1 +:+ " move(s)",
              Some (Miniature.position_fen Miniature.AfterG5))
  /\ GameService.get_game_session (snd undone) 1
     = Some {| GameSession.id := 1; GameSession.game_id := 1;
               GameSession.current_fen := Miniature.position_fen Miniature.AfterG5;
               GameSession.move_history := ["e2e4"; "f7f6"; "d2d4"; "g7g5"];
               GameSession.last_move_at := 200; GameSession.created_at := 100 |}
  /\ GameService.get_game (snd undone) 1 = Some (Miniature.game_row None IN_PROGRESS).
Proof.
  assert (Hreach : reachable (lib := Miniature.rules) Miniature.after_d4).
  { repeat (apply reach_make_move; [exact miniature_engine_sound|]).
    apply reach_create_game. apply reach_empty. }
  exact (undo_takes_back_a_move (laws := miniature_fen_laws) Miniature.engine 103 200
           Miniature.after_d4 Miniature.after_mate 1 "d1h5" None
           (Miniature.game_row None IN_PROGRESS)
           {| GameSession.id := 1; GameSession.game_id := 1;
              GameSession.current_fen := Miniature.position_fen Miniature.AfterG5;
              GameSession.move_history := ["e2e4"; "f7f6"; "d2d4"; "g7g5"];
              GameSession.last_move_at := 102; GameSession.created_at := 100 |}
           "Game ended: white_won"
           (Some (Miniature.position_fen Miniature.Mated)) None []
           Hreach miniature_engine_sound eq_refl eq_refl eq_refl).
Defined.

(** Undo of 0 moves on the mated game: the log is emptied. *)
Lemma undo_move_nonpositive_count_witness :
  let undone := GameService.undo_move (lib := Miniature.rules) 200
                  Miniature.after_mate 1 0 in
  exists board : Miniature.position,
    GameService.replay (lib := Miniature.rules) Miniature.Start []
    = GameService.Position (lib := Miniature.rules) board
    /\ (0 = 0 -> board = Miniature.Start)
    /\ fst undone
       = Returned (true, "Undid " +:+ pretty 0 +:+ " move(s)",
                   Some (Miniature.position_fen board))
    /\ GameService.get_game_session (snd undone) 1
       = Some (GameSession.set_position Miniature.mated_session
                 (Miniature.position_fen board) [] 200).
Proof.
  apply (undo_move_nonpositive_count (laws := miniature_fen_laws) 200
           Miniature.after_mate 1 0 Miniature.mated_game Miniature.mated_session).
  - exact miniature_game_reachable.
  - reflexivity.
  - reflexivity.
  - lia.
Defined.

Lemma service_rejects_what_is_valid_move_rejects_witness :
  exists message,
    GameService.make_move Miniature.engine 200 (Miniature.before_mate None) 1
      "e2e5" None
    = (Returned (false, message, None, None), Miniature.before_mate None, [])
    /\ kind_of_message message = Some InvalidMove.
Proof.
  apply (service_rejects_what_is_valid_move_rejects (lib := Miniature.rules)
           Miniature.engine 200 (Miniature.before_mate None) 1 "e2e5" None
           (Miniature.game_row None IN_PROGRESS)
           (Miniature.session_row (Miniature.position_fen Miniature.AfterG5)
              ["e2e4"; "f7f6"; "d2d4"; "g7g5"])
           Miniature.AfterG5 eq_refl eq_refl eq_refl eq_refl).
  reflexivity.
Defined.

(** User 7 plays the first stored move of the odd puzzle: one more solve in
    the totals of user 7, none in those of user 8. *)
Lemma attempt_adds_one_to_user_totals_witness :
  let db' :=
    snd (PuzzleService.attempt_puzzle (lib := Miniature.rules) 300
           Miniature.odd_puzzle_rows 2 "e2e5" (Some 7)) in
  PuzzleService.total_solved (PuzzleService.get_user_stats Miniature.floats db' 7)
  = PuzzleService.total_solved
      (PuzzleService.get_user_stats Miniature.floats Miniature.odd_puzzle_rows 7) + 1
  /\ PuzzleService.total_solved (PuzzleService.get_user_stats Miniature.floats db' 8)
     = PuzzleService.total_solved
         (PuzzleService.get_user_stats Miniature.floats Miniature.odd_puzzle_rows 8)
       + 0.
Proof.
  intros db'.
  pose proof (attempt_adds_one_to_user_totals (lib := Miniature.rules)
                Miniature.floats 300 Miniature.odd_puzzle_rows 2 "e2e5" 7 true
                (Some "f7f6") false) as H.
  split.
  - apply (H ltac:(lia) eq_refl 7).
  - apply (H ltac:(lia) eq_refl 8).
Defined.

Lemma attempt_of_user_zero_is_not_recorded_witness :
  snd (PuzzleService.attempt_puzzle (lib := Miniature.rules) 300
         Miniature.odd_puzzle_rows 2 "e2e5" (Some 0))
  = Miniature.odd_puzzle_rows.
Proof.
  apply (attempt_of_user_zero_is_not_recorded (lib := Miniature.rules) 300
           Miniature.odd_puzzle_rows 2 "e2e5" (Some 0)).
  right. reflexivity.
Defined.

(** The flaky function under the recovery wrapper: two failures, then 42. *)
Lemma recover_returns_first_success_witness :
  Recovery.recover Miniature.flaky_sleep Miniature.flaky_recovery
    Miniature.flaky_alert Miniature.three_retries Miniature.flaky []
  = (inl 42,
     ["call"; "sleep"; "recovery"; "call"; "sleep"; "recovery"; "call"]).
Proof.
  apply (recover_returns_first_success Miniature.flaky_sleep Miniature.flaky_recovery
           Miniature.flaky_alert Miniature.three_retries Miniature.flaky [] 42 2).
  - reflexivity.
  - simpl. lia.
  - intros j Hj. exists "connection lost".
    destruct j as [|[|j]]; [reflexivity|reflexivity|lia].
  - reflexivity.
Defined.

(** With two retries only, the wrapper gives up and alerts. *)
Lemma recover_gives_up_after_max_retries_witness :
  exists e,
    Recovery.recover Miniature.flaky_sleep Miniature.flaky_recovery
      Miniature.flaky_alert
      {| Recovery.enabled := true; Recovery.max_retries := 2;
         Recovery.retry_delay := 5 |}
      Miniature.flaky []
    = (inr (Original e), ["call"; "sleep"; "recovery"; "call"; "alert"]).
Proof.
  destruct (recover_gives_up_after_max_retries Miniature.flaky_sleep
              Miniature.flaky_recovery Miniature.flaky_alert
              {| Recovery.enabled := true; Recovery.max_retries := 2;
                 Recovery.retry_delay := 5 |}
              Miniature.flaky []) as [e [_ He]].
  - reflexivity.
  - simpl. lia.
  - intros j Hj. exists "connection lost". simpl in Hj.
    destruct j as [|[|j]]; [reflexivity|reflexivity|lia].
  - exists e. exact He.
Defined.

Lemma recover_fails_unexpectedly_iff_no_retries_witness :
  Recovery.recover Miniature.flaky_sleep Miniature.flaky_recovery
    Miniature.flaky_alert
    {| Recovery.enabled := true; Recovery.max_retries := 0; Recovery.retry_delay := 5 |}
    Miniature.flaky []
  = (inr (RuntimeError "Recovery strategy failed unexpectedly"), []).
Proof.
  apply (recover_fails_unexpectedly_iff_no_retries Miniature.flaky_sleep
           Miniature.flaky_recovery Miniature.flaky_alert
           {| Recovery.enabled := true; Recovery.max_retries := 0;
              Recovery.retry_delay := 5 |}
           Miniature.flaky []).
  - reflexivity.
  - simpl. lia.
Defined.

(** The flaky function under the retry wrapper, when its exception is of a
    class to retry on, and when it is not. *)
Lemma retry_wrapper_decided_by_first_final_call_witness :
  Retry.wrapper (fun attempt => Miniature.flaky_sleep attempt) 3 (fun _ => true)
    Miniature.flaky []
  = (inl 42, ["call"; "sleep"; "call"; "sleep"; "call"])
  /\ Retry.wrapper (fun attempt => Miniature.flaky_sleep attempt) 3 (fun _ => false)
       Miniature.flaky []
     = (inr (Original "connection lost"), ["call"]).
Proof.
  split.
  - apply (retry_wrapper_decided_by_first_final_call
             (fun attempt => Miniature.flaky_sleep attempt) 3 (fun _ => true)
             Miniature.flaky [] 2).
    + lia.
    + intros j Hj. exists "connection lost".
      destruct j as [|[|j]]; [split; reflexivity|split; reflexivity|lia].
    + exact I.
  - apply (retry_wrapper_decided_by_first_final_call
             (fun attempt => Miniature.flaky_sleep attempt) 3 (fun _ => false)
             Miniature.flaky [] 0).
    + lia.
    + intros j Hj. lia.
    + left. reflexivity.
Defined.

(** The undo endpoint on the mated game: two moves taken back. *)
Lemma undo_endpoint_success_witness :
  exists (response : GamesApi.UndoResponse) (w1 : GamesApi.world),
    GamesApi.undo_move (lib := Miniature.rules) Miniature.three_retries 1 2
      Miniature.request_world = (inl response, w1)
    /\ GamesApi.move_history response = ["e2e4"; "f7f6"; "d2d4"]
    /\ GamesApi.game_status response = Some "in_progress".
Proof.
  eexists. eexists. split; [reflexivity|].
  destruct (undo_endpoint_success (lib := Miniature.rules) Miniature.three_retries 1 2
              Miniature.request_world _ _ Miniature.mated_session eq_refl eq_refl)
    as [_ [_ [_ [Hlog [Hstatus _]]]]].
  split; [exact Hlog|exact Hstatus].
Defined.

Lemma undo_endpoint_failure_keeps_database_witness :
  GamesApi.db
    (snd (GamesApi.undo_move (lib := Miniature.rules) Miniature.three_retries 1 6
            Miniature.request_world))
  = Miniature.after_mate.
Proof.
  apply (undo_endpoint_failure_keeps_database (lib := Miniature.rules)
           Miniature.three_retries 1 6 Miniature.request_world _
           (GamesApi.HTTPException 400
              "Not enough moves to undo. Only 5 moves available.")).
  reflexivity.
Defined.

(** Six moves asked back of a log of five: the answer comes after two sleeps
    of five seconds, with an alert. *)
Lemma undo_endpoint_retries_a_bad_request_witness :
  GamesApi.undo_move (lib := Miniature.rules) Miniature.three_retries 1 6
    Miniature.request_world
  = (inr (GamesApi.HTTPException 400
            "Not enough moves to undo. Only 5 moves available."),
     {| GamesApi.db := Miniature.after_mate;
        GamesApi.clock := 210;
        GamesApi.journal :=
          [GamesApi.Slept 5; GamesApi.RecoveryAttempted;
           GamesApi.Slept 5; GamesApi.RecoveryAttempted;
           GamesApi.AlertSent
             (GamesApi.HTTPException 400
                "Not enough moves to undo. Only 5 moves available.")] |}).
Proof.
  apply (undo_endpoint_retries_a_bad_request (lib := Miniature.rules)
           Miniature.three_retries eq_refl ltac:(simpl; lia) 1 6
           Miniature.request_world Miniature.mated_game Miniature.mated_session).
  - lia.
  - reflexivity.
  - reflexivity.
  - simpl. lia.
Defined.

(** ** Statistics by difficulty *)

Lemma counter_sum_by_difficulty (counter : UserPuzzle.t -> Z) (db : store)
    (rows : list UserPuzzle.t) :
  counter_sum counter rows
  = counter_sum counter (rows_of_difficulty db "easy" rows)
    + counter_sum counter (rows_of_difficulty db "medium" rows)
    + counter_sum counter (rows_of_difficulty db "hard" rows)
    + counter_sum counter (rows_of_difficulty db "expert" rows)
    + counter_sum counter (rows_without_puzzle db rows).
Proof.
  induction rows as [|up rest IH]; [reflexivity|].
  unfold rows_of_difficulty, rows_without_puzzle in *. simpl.
  destruct (PuzzleService.get_puzzle db (UserPuzzle.puzzle_id up)) as [puzzle|].
  - destruct (Puzzle.difficulty puzzle); simpl; lia.
  - simpl. lia.
Qed.

Lemma rows_of_unknown_difficulty (db : store) (d : string)
    (rows : list UserPuzzle.t) :
  ~ In d difficulty_values -> rows_of_difficulty db d rows = [].
Proof.
  intros Hd. induction rows as [|up rest IH]; [reflexivity|].
  unfold rows_of_difficulty in *. simpl.
  destruct (PuzzleService.get_puzzle db (UserPuzzle.puzzle_id up)) as [puzzle|];
    [|exact IH].
  destruct (String.eqb_spec (PuzzleDifficulty_value (Puzzle.difficulty puzzle)) d)
    as [Heq|_]; [|exact IH].
  exfalso. apply Hd. subst d. unfold difficulty_values.
  destruct (Puzzle.difficulty puzzle); simpl; tauto.
Qed.

(** X22: the statistics by difficulty add up to the totals, apart from the
    rows whose puzzle is no longer found.  For every user, the solved (and
    the failed) counts under "easy", "medium", "hard" and "expert", read as
    zero where the dictionary has no entry, plus the counts of the user's
    rows that name a missing puzzle, are the total solved (failed) count; and
    the dictionary has no key other than those four values. *)
Theorem difficulty_tallies_add_up_to_totals (fl : PyFloat) (db : store)
    (user_id : Z) :
  let statistics := PuzzleService.get_user_stats fl db user_id in
  let entries :=
    map (tally_of (PuzzleService.puzzles_by_difficulty statistics))
      difficulty_values in
  let lost :=
    rows_without_puzzle db
      (List.filter (fun up => UserPuzzle.user_id up =? user_id) (user_puzzles db)) in
  PuzzleService.total_solved statistics
  = fold_right Z.add 0 (map PuzzleService.solved entries)
    + counter_sum UserPuzzle.solved lost
  /\ PuzzleService.total_failed statistics
     = fold_right Z.add 0 (map PuzzleService.failed entries)
       + counter_sum UserPuzzle.failed lost
  /\ (forall d : string,
        ~ In d difficulty_values ->
        PuzzleService.puzzles_by_difficulty statistics !! d = None).
Proof.
  intros statistics entries lost.
  destruct (get_user_stats_totals fl db user_id) as [Hsolved Hfailed].
  assert (Hentry : forall d,
             tally_of (PuzzleService.puzzles_by_difficulty statistics) d
             = {| PuzzleService.solved :=
                    counter_sum UserPuzzle.solved
                      (rows_of_difficulty db d
                         (List.filter (fun up => UserPuzzle.user_id up =? user_id)
                            (user_puzzles db)));
                  PuzzleService.failed :=
                    counter_sum UserPuzzle.failed
                      (rows_of_difficulty db d
                         (List.filter (fun up => UserPuzzle.user_id up =? user_id)
                            (user_puzzles db))) |}).
  { intros d. unfold tally_of, statistics.
    rewrite (get_user_stats_by_difficulty fl db user_id d).
    destruct (rows_of_difficulty db d _); reflexivity. }
  split; [|split].
  - fold statistics in Hsolved. rewrite Hsolved.
    rewrite (counter_sum_by_difficulty UserPuzzle.solved db).
    unfold entries, difficulty_values. simpl map at 2. simpl map at 1.
    rewrite !Hentry. simpl. fold lost. lia.
  - fold statistics in Hfailed. rewrite Hfailed.
    rewrite (counter_sum_by_difficulty UserPuzzle.failed db).
    unfold entries, difficulty_values. simpl map at 2. simpl map at 1.
    rewrite !Hentry. simpl. fold lost. lia.
  - intros d Hd. unfold statistics.
    rewrite (get_user_stats_by_difficulty fl db user_id d).
    rewrite (rows_of_unknown_difficulty db d _ Hd). reflexivity.
Qed.
